(** * mapillary_tools / process_video.py : frame timestamps of a sampled video

    A shallow embedding of [mapillary_tools/process_video.py] and the
    properties of its specification.

    Definitions, in the order of their dependencies:
    - [PyStr]     the [str] methods and builtins the module calls
                  ([rstrip], [lstrip], [replace], [int], [os.path.basename]);
    - [PyFloat]   Python floats, i.e. IEEE-754 binary64, on [SpecFloat];
    - [PyTime]    [datetime.datetime] and [datetime.timedelta] at microsecond
                  resolution, [strptime] for the two formats of the module;
    - [PyFile]    binary files, [struct.unpack] and the box parser;
    - [Video]     the functions of the module, in a state-and-exception monad
                  over the observable world (log, subprocess calls, metadata
                  writes);
    - [Batch]     [sample_video], the loop over the videos of a batch;
    - the vocabulary of the properties.

    Then the model on examples, and the properties: the name and the
    timestamp of a frame, the start time from the probe, the start time
    [extract_frames] settles on, the stamping of the frames, the start time
    from the container, and the order of the timestamps, which rests on the
    monotonicity of float arithmetic.  The last part has further properties
    of the functions: frame names, effects and errors of the start-time
    resolution, the scan of the container, the batch, the two formats of
    the creation time.  *)

From Stdlib Require Import ZArith List String Ascii Bool Lia Sorted.
From Stdlib Require Import SpecFloat.
Import ListNotations.

Local Open Scope string_scope.
Local Open Scope Z_scope.

(* ===================================================================== *)
(** ** Exceptions and results *)

(** The exception classes that can be raised in the module or by the
    library calls it makes. *)
Inductive exn : Type :=
| ValueError
| TypeError
| OverflowError
| ZeroDivisionError
| IndexError
| IOError
| StructError          (* struct.error *)
| ConstructError       (* a parse error of the box parser *)
| AttributeError
| ExifError.           (* whatever the metadata writer raises *)

Inductive result (A : Type) : Type :=
| Ok  : A -> result A
| Err : exn -> result A.
Arguments Ok {A} _.
Arguments Err {A} _.

Definition rbind {A B} (r : result A) (k : A -> result B) : result B :=
  match r with
  | Ok a => k a
  | Err e => Err e
  end.

Definition is_ok {A} (r : result A) : bool :=
  match r with Ok _ => true | Err _ => false end.

(* ===================================================================== *)
(** ** Python strings *)

Module PyStr.

(** Membership of a character in the character set given as a string
    (the argument of [str.rstrip] / [str.lstrip]). *)
Fixpoint mem (c : ascii) (chars : string) : bool :=
  match chars with
  | EmptyString => false
  | String d r => if Ascii.eqb c d then true else mem c r
  end.

(** [s.lstrip(chars)]: drop the longest prefix made of characters of
    [chars]. *)
Fixpoint lstrip (chars s : string) : string :=
  match s with
  | EmptyString => EmptyString
  | String c r => if mem c chars then lstrip chars r else s
  end.

(** [s.rstrip(chars)]: drop the longest suffix made of characters of
    [chars] (a character set, not a suffix). *)
Fixpoint rstrip (chars s : string) : string :=
  match s with
  | EmptyString => EmptyString
  | String c r =>
      match rstrip chars r with
      | EmptyString => if mem c chars then EmptyString else String c EmptyString
      | r' => String c r'
      end
  end.

(** [old] is a prefix of [s]. *)
Fixpoint starts_with (old s : string) : bool :=
  match old, s with
  | EmptyString, _ => true
  | String a old', String b s' => if Ascii.eqb a b then starts_with old' s' else false
  | String _ _, EmptyString => false
  end.

(** The scan of [str.replace] for a non-empty [old]: left to right,
    non-overlapping; [skip] counts the characters of a match still to be
    dropped. *)
Fixpoint replace_scan (old new : string) (skip : nat) (s : string) : string :=
  match s with
  | EmptyString => EmptyString
  | String c r =>
      match skip with
      | S k => replace_scan old new k r
      | O =>
          if starts_with old s
          then new ++ replace_scan old new (Nat.pred (String.length old)) r
          else String c (replace_scan old new O r)
      end
  end.

(** The empty pattern matches before every character and at the end. *)
Fixpoint intersperse (new s : string) : string :=
  match s with
  | EmptyString => new
  | String c r => new ++ String c (intersperse new r)
  end.

(** [s.replace(old, new)]. *)
Definition replace (old new s : string) : string :=
  match old with
  | EmptyString => intersperse new s
  | String _ _ => replace_scan old new O s
  end.

(** Decimal digits: the characters of codes 48 to 57. *)
Definition digit_val (c : ascii) : option Z :=
  let code := Z.of_N (N_of_ascii c) in
  if (48 <=? code) && (code <=? 57) then Some (code - 48) else None.

Definition is_digit (c : ascii) : bool :=
  match digit_val c with Some _ => true | None => false end.

(** The whitespace of [str]: TAB, LF, VT, FF, CR, the separators
    FS, GS, RS, US and the space. *)
Definition whitespace : string :=
  String "009" (String "010" (String "011" (String "012" (String "013"
  (String "028" (String "029" (String "030" (String "031"
  (String " " EmptyString))))))))).

Definition strip_ws (s : string) : string := lstrip whitespace (rstrip whitespace s).

(** Digits of an integer literal after a first digit: a single
    underscore is allowed between two digits. *)
Fixpoint int_digits_from (acc : Z) (s : string) : option Z :=
  match s with
  | EmptyString => Some acc
  | String c r =>
      match digit_val c with
      | Some d => int_digits_from (10 * acc + d) r
      | None =>
          if Ascii.eqb c "_" then
            match r with
            | String c' r' =>
                match digit_val c' with
                | Some d => int_digits_from (10 * acc + d) r'
                | None => None
                end
            | EmptyString => None
            end
          else None
      end
  end.

Definition int_digits (s : string) : option Z :=
  match s with
  | String c r =>
      match digit_val c with
      | Some d => int_digits_from d r
      | None => None
      end
  | EmptyString => None
  end.

(** [int(s)] for a [str] in base 10: surrounding whitespace, an optional
    sign, decimal digits with single underscores between them; anything
    else raises [ValueError].  (The interpreter's configurable cap on the
    length of a decimal literal is not part of the model; nor are the
    decimal digits and the white space outside ASCII, which [int] takes
    as well: the strings of the model are made of bytes.) *)
Definition int (s : string) : result Z :=
  let t := strip_ws s in
  let '(neg, body) :=
    match t with
    | String "-" r => (true, r)
    | String "+" r => (false, r)
    | _ => (false, t)
    end in
  match int_digits body with
  | Some v => Ok (if neg then - v else v)
  | None => Err ValueError
  end.

(** [os.path.basename(p)]: what follows the last slash. *)
Fixpoint basename (p : string) : string :=
  match p with
  | EmptyString => EmptyString
  | String c r =>
      let b := basename r in
      if mem "/" r then b
      else if Ascii.eqb c "/" then r else p
  end.

(** [s[:-4]]: all but the last four characters. *)
Definition drop_last4 (s : string) : string :=
  substring 0 (String.length s - 4) s.

(** The decimal numeral of a non-negative integer, most significant digit
    first ([fuel] bounds the number of digits). *)
Definition digit_char (d : Z) : ascii :=
  ascii_of_nat (48 + Z.to_nat d).
Arguments digit_char : simpl never.

Fixpoint numeral_fuel (fuel : nat) (n : Z) (acc : string) : string :=
  match fuel with
  | O => acc
  | S f =>
      let acc' := String (digit_char (n mod 10)) acc in
      if n <? 10 then acc' else numeral_fuel f (n / 10) acc'
  end.

Definition numeral (n : Z) : string :=
  numeral_fuel (S (Z.to_nat (Z.log2 n))) n EmptyString.

Fixpoint zeros (k : nat) : string :=
  match k with
  | O => EmptyString
  | S k' => String "0" (zeros k')
  end.

(** C's [%0<w>d] for a non-negative integer. *)
Definition zero_padded (w : nat) (n : Z) : string :=
  let s := numeral n in
  zeros (w - String.length s) ++ s.

End PyStr.

(* ===================================================================== *)
(** ** Python floats: IEEE-754 binary64 *)

Module PyFloat.

Definition prec : Z := 53.
Definition emax : Z := 1024.

Definition float : Type := spec_float.

Definition mul : float -> float -> float := SFmul prec emax.

(** An [int] operand of a float operation is converted first, rounding to
    nearest even; an integer too large for a float raises
    [OverflowError]. *)
Definition is_finite (x : float) : bool :=
  match x with
  | S754_zero _ | S754_finite _ _ _ => true
  | _ => false
  end.

Definition of_int (n : Z) : result float :=
  let f := binary_normalize prec emax n 0 false in
  if is_finite f then Ok f else Err OverflowError.

(** True division; a zero divisor raises. *)
Definition div (x y : float) : result float :=
  match y with
  | S754_zero _ => Err ZeroDivisionError
  | _ => Ok (SFdiv prec emax x y)
  end.

(** [x > 0.0]. *)
Definition is_pos (x : float) : bool := SFltb (S754_zero false) x.

(** Literals of the module and of the time library. *)
Definition f1_0 : float := S754_finite false 4503599627370496 (-52).
Definition f2_0 : float := S754_finite false 4503599627370496 (-51).
Definition f1000_0 : float := S754_finite false 8796093022208000 (-43).
Definition f1e6 : float := S754_finite false 8589934592000000 (-33).

(** [math.modf]: the integral part (as an integer) and the fractional
    part (exact, with the sign of the argument) of a finite float. *)
Definition trunc (x : float) : Z :=
  match x with
  | S754_finite s m e =>
      cond_Zopp s (if 0 <=? e then Z.pos m * 2 ^ e else Z.pos m / 2 ^ (- e))
  | _ => 0
  end.

Definition frac (x : float) : float :=
  match x with
  | S754_finite s m e =>
      if 0 <=? e then S754_zero s
      else binary_normalize prec emax (cond_Zopp s (Z.pos m mod 2 ^ (- e))) e s
  | _ => x
  end.

(** Rounding of a quotient [m / 2^k], [0 <= m], to the nearest integer,
    ties to even. *)
Definition rne_div (m k : Z) : Z :=
  if k <=? 0 then m * 2 ^ (- k)
  else
    let q := m / 2 ^ k in
    let r := m mod 2 ^ k in
    match 2 * r ?= 2 ^ k with
    | Lt => q
    | Eq => if Z.even q then q else q + 1
    | Gt => q + 1
    end.

(** [round(x)] of a finite float: nearest integer, ties to even. *)
Definition round_half_even (x : float) : Z :=
  match x with
  | S754_finite s m e => cond_Zopp s (rne_div (Z.pos m) (- e))
  | _ => 0
  end.

(** *** [float(s)] for a string *)

(** [digit (["_"] digit)*] read off the front of [s]: the value
    accumulated, the number of digits read and the rest. *)
Fixpoint digitpart_digits (acc : Z) (cnt : nat) (s : string) : Z * nat * string :=
  match s with
  | EmptyString => (acc, cnt, s)
  | String c r =>
      match PyStr.digit_val c with
      | Some d => digitpart_digits (10 * acc + d) (S cnt) r
      | None =>
          if Ascii.eqb c "_" then
            match r with
            | String c' r' =>
                match PyStr.digit_val c' with
                | Some d => digitpart_digits (10 * acc + d) (S cnt) r'
                | None => (acc, cnt, s)
                end
            | EmptyString => (acc, cnt, s)
            end
          else (acc, cnt, s)
      end
  end.

(** An optional [digitpart]: [cnt = 0] when [s] does not start with a
    digit. *)
Definition digitpart (acc : Z) (s : string) : Z * nat * string :=
  match s with
  | String c r =>
      match PyStr.digit_val c with
      | Some d => digitpart_digits (10 * acc + d) 1 r
      | None => (acc, O, s)
      end
  | EmptyString => (acc, O, s)
  end.

Definition lower (c : ascii) : ascii :=
  let n := nat_of_ascii c in
  if andb (Nat.leb 65 n) (Nat.leb n 90) then ascii_of_nat (n + 32) else c.

Fixpoint lower_str (s : string) : string :=
  match s with
  | EmptyString => EmptyString
  | String c r => String (lower c) (lower_str r)
  end.

(** The correctly rounded float of [(-1)^s * n * 10^k], [0 <= n]. *)
Definition of_decimal (s : bool) (n k : Z) : float :=
  match n with
  | Z0 => S754_zero s
  | _ =>
      if 0 <=? k then binary_normalize prec emax (cond_Zopp s (n * 10 ^ k)) 0 s
      else
        let '(q, e, l) := SFdiv_core_binary prec emax n 0 (10 ^ (- k)) 0 in
        binary_round_aux prec emax s q e l
  end.

(** [exponent ::= ("e" | "E") [sign] digitpart], or nothing. *)
Definition exponent (s : string) : option Z :=
  match s with
  | EmptyString => Some 0
  | String c r =>
      if Ascii.eqb (lower c) "e" then
        let '(neg, body) :=
          match r with
          | String "-" r' => (true, r')
          | String "+" r' => (false, r')
          | _ => (false, r)
          end in
        match digitpart 0 body with
        | (v, S _, EmptyString) => Some (if neg then - v else v)
        | _ => None
        end
      else None
  end.

(** [float(s)]: surrounding whitespace, an optional sign, then [inf],
    [infinity], [nan] (in any case) or a decimal number with an optional
    fraction and exponent; anything else raises [ValueError]. *)
Definition of_string (s : string) : result float :=
  let t := PyStr.strip_ws s in
  let '(neg, body) :=
    match t with
    | String "-" r => (true, r)
    | String "+" r => (false, r)
    | _ => (false, t)
    end in
  let l := lower_str body in
  if String.eqb l "inf" then Ok (S754_infinity neg)
  else if String.eqb l "infinity" then Ok (S754_infinity neg)
  else if String.eqb l "nan" then Ok S754_nan
  else
    let '(n1, c1, rest1) := digitpart 0 body in
    let '(n2, c2, rest2) :=
      match rest1 with
      | String "." r =>
          match c1, digitpart n1 r with
          | O, (_, O, _) => (n1, O, rest1)          (* a lone dot *)
          | _, x => x
          end
      | _ => (n1, O, rest1)
      end in
    match (c1 + c2)%nat, exponent rest2 with
    | S _, Some e => Ok (of_decimal neg n2 (e - Z.of_nat c2))
    | _, _ => Err ValueError
    end.

End PyFloat.

(* ===================================================================== *)
(** ** [datetime]: naive timestamps and durations, in microseconds *)

Module PyTime.

(** A [timedelta] is a number of microseconds; a naive [datetime] is the
    number of microseconds since 0001-01-01T00:00:00 in the proleptic
    Gregorian calendar. *)
Definition timedelta : Type := Z.
Definition datetime : Type := Z.

Definition us_per_second : Z := 1000000.
Definition us_per_day : Z := 86400 * us_per_second.

Definition is_leap (y : Z) : bool :=
  ((y mod 4 =? 0) && (negb (y mod 100 =? 0) || (y mod 400 =? 0)))%bool.

Definition days_in_month (y m : Z) : Z :=
  if m =? 2 then (if is_leap y then 29 else 28)
  else if (m =? 4) || (m =? 6) || (m =? 9) || (m =? 11) then 30 else 31.

Definition days_before_year (y : Z) : Z :=
  let y' := y - 1 in y' * 365 + y' / 4 - y' / 100 + y' / 400.

Definition days_before_month (y m : Z) : Z :=
  fold_left (fun acc k => acc + days_in_month y (Z.of_nat k))
            (seq 1 (Z.to_nat (m - 1))) 0.

(** The proleptic Gregorian ordinal, 0001-01-01 being day 1. *)
Definition ymd2ord (y m d : Z) : Z :=
  days_before_year y + days_before_month y m + d.

Definition max_ordinal : Z := 3652059.   (* 9999-12-31 *)

Definition in_range (t : Z) : bool :=
  (0 <=? t) && (t <? max_ordinal * us_per_day).

(** The constructor [datetime(y, mo, d, h, mi, s, us)]; a field out of
    range raises [ValueError]. *)
Definition make (y mo d h mi s us : Z) : result datetime :=
  if ((1 <=? y) && (y <=? 9999) && (1 <=? mo) && (mo <=? 12)
      && (1 <=? d) && (d <=? days_in_month y mo)
      && (0 <=? h) && (h <? 24) && (0 <=? mi) && (mi <? 60)
      && (0 <=? s) && (s <? 60) && (0 <=? us) && (us <? us_per_second))%bool
  then Ok (((ymd2ord y mo d - 1) * 86400 + h * 3600 + mi * 60 + s)
           * us_per_second + us)
  else Err ValueError.

(** [datetime(1970, 1, 1)] and [datetime(1904, 1, 1)]. *)
Definition unix_epoch : datetime := 62135596800000000.
Definition epoch_1904 : datetime := 60052752000000000.

(** A [timedelta] holds at most 999999999 days in magnitude. *)
Definition check_delta (us : Z) : result timedelta :=
  let days := us / us_per_day in
  if (-999999999 <=? days) && (days <=? 999999999) then Ok us
  else Err OverflowError.

(** [timedelta(seconds=x)] for a float [x]: the integral part is
    converted exactly, the fractional part is scaled by [1e6] in float
    arithmetic and rounded to the nearest microsecond, ties to even. *)
Definition float_to_us (x : PyFloat.float) : Z :=
  PyFloat.trunc x * us_per_second
  + PyFloat.round_half_even (PyFloat.mul (PyFloat.frac x) PyFloat.f1e6).

Definition timedelta_of_seconds (x : PyFloat.float) : result timedelta :=
  match x with
  | S754_nan => Err ValueError
  | S754_infinity _ => Err OverflowError
  | _ => check_delta (float_to_us x)
  end.

(** [timedelta(milliseconds=n)] for an [int] [n]. *)
Definition timedelta_of_milliseconds (n : Z) : result timedelta :=
  check_delta (n * 1000).

(** [datetime + timedelta] and [datetime - timedelta]: a result outside
    years 1..9999 raises [OverflowError]. *)
Definition add (t : datetime) (d : timedelta) : result datetime :=
  if in_range (t + d) then Ok (t + d) else Err OverflowError.

Definition sub (t : datetime) (d : timedelta) : result datetime :=
  if in_range (t - d) then Ok (t - d) else Err OverflowError.

(** [datetime.utcfromtimestamp(x)] for a float [x].  (A value out of
    the years 1..9999 raises; the model has [ValueError] for all of them,
    the interpreter has [OverflowError] for those that are also out of
    the range of the platform's [time_t].) *)
Definition utcfromtimestamp (x : PyFloat.float) : result datetime :=
  match x with
  | S754_nan => Err ValueError
  | S754_infinity _ => Err OverflowError
  | _ =>
      let t := unix_epoch + float_to_us x in
      if in_range t then Ok t else Err ValueError
  end.

(** *** [datetime.strptime] *)

(** The directives of the module's formats, a run of whitespace and
    literal characters. *)
Inductive token : Type :=
| TYear | TMonth | TDay | THour | TMinute | TSecond
| TSpaces
| TLit (c : ascii).

(** The format string as a list of tokens; [None] for a directive
    outside the model or a trailing percent sign. *)
Fixpoint compile (fmt : string) : option (list token) :=
  match fmt with
  | EmptyString => Some []
  | String "%" (String d r) =>
      let t :=
        match d with
        | "Y"%char => Some TYear | "m"%char => Some TMonth
        | "d"%char => Some TDay | "H"%char => Some THour
        | "M"%char => Some TMinute | "S"%char => Some TSecond
        | _ => None
        end in
      match t, compile r with
      | Some t, Some ts => Some (t :: ts)
      | _, _ => None
      end
  | String c r =>
      if Ascii.eqb c "%" then None
      else
        match compile r with
        | Some ts =>
            if PyStr.mem c PyStr.whitespace then
              Some (match ts with
                    | TSpaces :: _ => ts
                    | _ => TSpaces :: ts
                    end)
            else Some (TLit c :: ts)
        | None => None
        end
  end.

(** A digit in the range [lo..hi] at the head of [s]. *)
Definition digit_in (lo hi : Z) (s : string) : option (Z * string) :=
  match s with
  | String c r =>
      match PyStr.digit_val c with
      | Some d => if (lo <=? d) && (d <=? hi) then Some (d, r) else None
      | None => None
      end
  | EmptyString => None
  end.

(** Two digits, the first in [a..b], the second in [c..d]. *)
Definition two_digits (a b c d : Z) (s : string) : option (Z * string) :=
  match digit_in a b s with
  | Some (x, r) =>
      match digit_in c d r with
      | Some (y, r') => Some (10 * x + y, r')
      | None => None
      end
  | None => None
  end.

Definition orelse {A} (x y : option A) : option A :=
  match x with Some _ => x | None => y end.

(** The alternatives of each directive, tried in the order of the
    library's patterns:
    [%Y] = [\d\d\d\d],  [%m] = [1[0-2]|0[1-9]|[1-9]],
    [%d] = [3[01]|[12]\d|0[1-9]|[1-9]| [1-9]],
    [%H] = [2[0-3]|[0-1]\d|\d],  [%M] = [[0-5]\d|\d],
    [%S] = [6[0-1]|[0-5]\d|\d]. *)
Definition match_year (s : string) : option (Z * string) :=
  match two_digits 0 9 0 9 s with
  | Some (hi, r) =>
      match two_digits 0 9 0 9 r with
      | Some (lo, r') => Some (100 * hi + lo, r')
      | None => None
      end
  | None => None
  end.

Definition match_month (s : string) : option (Z * string) :=
  orelse (two_digits 1 1 0 2 s)
    (orelse (two_digits 0 0 1 9 s) (digit_in 1 9 s)).

Definition match_day (s : string) : option (Z * string) :=
  orelse (two_digits 3 3 0 1 s)
    (orelse (two_digits 1 2 0 9 s)
       (orelse (two_digits 0 0 1 9 s)
          (orelse (digit_in 1 9 s)
             match s with
             | String " " r => digit_in 1 9 r
             | _ => None
             end))).

Definition match_hour (s : string) : option (Z * string) :=
  orelse (two_digits 2 2 0 3 s)
    (orelse (two_digits 0 1 0 9 s) (digit_in 0 9 s)).

Definition match_minute (s : string) : option (Z * string) :=
  orelse (two_digits 0 5 0 9 s) (digit_in 0 9 s).

Definition match_second (s : string) : option (Z * string) :=
  orelse (two_digits 6 6 0 1 s)
    (orelse (two_digits 0 5 0 9 s) (digit_in 0 9 s)).

Record fields : Type := mkFields {
  f_year : Z; f_month : Z; f_day : Z;
  f_hour : Z; f_minute : Z; f_second : Z
}.

Definition default_fields : fields := mkFields 1900 1 1 0 0 0.

(** Matching of the tokens against the input, left to right; the whole
    input has to be consumed.  Every directive of the module's formats is
    followed by a literal that is not a digit, or by the end of the
    format, so that the first alternative that matches is the only one
    that can lead to a match. *)
Fixpoint match_tokens (ts : list token) (s : string) (f : fields) : option fields :=
  match ts with
  | [] => match s with EmptyString => Some f | _ => None end
  | t :: ts' =>
      match t with
      | TLit c =>
          match s with
          | String c' r =>
              if Ascii.eqb (PyFloat.lower c) (PyFloat.lower c')
              then match_tokens ts' r f else None
          | EmptyString => None
          end
      | TSpaces =>
          match s with
          | String c' r =>
              if PyStr.mem c' PyStr.whitespace
              then match_tokens ts' (PyStr.lstrip PyStr.whitespace r) f
              else None
          | EmptyString => None
          end
      | TYear =>
          match match_year s with
          | Some (v, r) =>
              match_tokens ts' r
                (mkFields v (f_month f) (f_day f) (f_hour f) (f_minute f) (f_second f))
          | None => None
          end
      | TMonth =>
          match match_month s with
          | Some (v, r) =>
              match_tokens ts' r
                (mkFields (f_year f) v (f_day f) (f_hour f) (f_minute f) (f_second f))
          | None => None
          end
      | TDay =>
          match match_day s with
          | Some (v, r) =>
              match_tokens ts' r
                (mkFields (f_year f) (f_month f) v (f_hour f) (f_minute f) (f_second f))
          | None => None
          end
      | THour =>
          match match_hour s with
          | Some (v, r) =>
              match_tokens ts' r
                (mkFields (f_year f) (f_month f) (f_day f) v (f_minute f) (f_second f))
          | None => None
          end
      | TMinute =>
          match match_minute s with
          | Some (v, r) =>
              match_tokens ts' r
                (mkFields (f_year f) (f_month f) (f_day f) (f_hour f) v (f_second f))
          | None => None
          end
      | TSecond =>
          match match_second s with
          | Some (v, r) =>
              match_tokens ts' r
                (mkFields (f_year f) (f_month f) (f_day f) (f_hour f) (f_minute f) v)
          | None => None
          end
      end
  end.

(** [datetime.strptime(s, fmt)]: [ValueError] when the input does not
    match the format or the fields are not a date. *)
Definition strptime (s fmt : string) : result datetime :=
  match compile fmt with
  | Some ts =>
      match match_tokens ts s default_fields with
      | Some f =>
          make (f_year f) (f_month f) (f_day f)
               (f_hour f) (f_minute f) (f_second f) 0
      | None => Err ValueError
      end
  | None => Err ValueError
  end.

End PyTime.

(* ===================================================================== *)
(** ** Binary files and the box parser *)

Module PyFile.

(** The contents of a file opened in binary mode. *)
Definition bytes : Type := list ascii.

Definition byte_val (b : ascii) : Z := Z.of_N (N_of_ascii b).

(** [fd.read(n)] at position [pos]: the bytes available, at most [n] of
    them, and the new position. *)
Definition read (data : bytes) (pos : Z) (n : nat) : bytes * Z :=
  let got := firstn n (skipn (Z.to_nat pos) data) in
  (got, pos + Z.of_nat (List.length got)).

(** [struct.unpack(">I", b)[0]]: exactly four bytes, big-endian. *)
Definition unpack_be32 (b : bytes) : result Z :=
  match b with
  | [b0; b1; b2; b3] =>
      Ok (((byte_val b0 * 256 + byte_val b1) * 256 + byte_val b2) * 256
          + byte_val b3)
  | _ => Err StructError
  end.

(** [b.decode("utf-8")]: the well-formed byte sequences of UTF-8. *)
Definition between (lo hi : Z) (b : ascii) : bool :=
  (lo <=? byte_val b) && (byte_val b <=? hi).

Definition cont : ascii -> bool := between 128 191.

Fixpoint utf8_valid_fuel (fuel : nat) (b : bytes) : bool :=
  match fuel with
  | O => false
  | S f =>
      match b with
      | [] => true
      | b0 :: r0 =>
          if between 0 127 b0 then utf8_valid_fuel f r0
          else
            match r0 with
            | [] => false
            | b1 :: r1 =>
                if between 194 223 b0 then cont b1 && utf8_valid_fuel f r1
                else
                  match r1 with
                  | [] => false
                  | b2 :: r2 =>
                      if between 224 239 b0 then
                        (if between 224 224 b0 then between 160 191 b1
                         else if between 237 237 b0 then between 128 159 b1
                         else cont b1)
                        && cont b2 && utf8_valid_fuel f r2
                      else
                        match r2 with
                        | [] => false
                        | b3 :: r3 =>
                            between 240 244 b0
                            && (if between 240 240 b0 then between 144 191 b1
                                else if between 244 244 b0 then between 128 143 b1
                                else cont b1)
                            && cont b2 && cont b3 && utf8_valid_fuel f r3
                        end
                  end
            end
      end
  end.

Definition utf8_valid (b : bytes) : bool :=
  utf8_valid_fuel (S (List.length b)) b.

(** The decoded text, compared below with an ASCII literal only: the
    bytes themselves stand for it. *)
Definition decode_utf8 (b : bytes) : result string :=
  if utf8_valid b then Ok (string_of_list_ascii b) else Err ValueError.

(** What the module reads of a parsed box. *)
Record box : Type := mkBox {
  box_offset : Z;        (* where the box starts in the stream *)
  box_type : bytes;      (* the four bytes of its type tag *)
  box_end : Z            (* where the stream stands after the parse *)
}.

(** [Box.parse_stream(fd)] of the container library.  A box is a
    4-byte big-endian size, a 4-byte type tag and [size - 8] bytes of
    payload (specification of the scanner, section 4.1).  A size that
    leaves no room for the tag (sizes 0 and 1 are not supported) and a
    stream that ends before the box does raise [OSError], which
    [IOError] names.  The library does not pass over the payload: it
    parses it by the structure it has for the type of the box, and keeps
    as raw bytes the payload of a type it has no structure for.  What it
    makes of a payload is not decided here: [structure type payload] is
    the number of bytes of the payload that the parse reads, and [None]
    when the payload does not fit the structure of its type, which
    raises the parse error of the library. *)
Definition parse_box (structure : bytes -> bytes -> option nat)
    (data : bytes) (pos : Z) : result box :=
  let '(hd, p1) := read data pos 4 in
  match unpack_be32 hd with
  | Err _ => Err ConstructError
  | Ok size =>
      if size <? 8 then Err IOError
      else
        let '(body, p2) := read data p1 (Z.to_nat (size - 4)) in
        if Z.of_nat (List.length body) <? size - 4 then Err IOError
        else
          let type := firstn 4 body in
          let payload := skipn 4 body in
          match structure type payload with
          | Some n =>
              Ok (mkBox pos type
                    (p1 + 4 + Z.of_nat (Nat.min n (List.length payload))))
          | None => Err ConstructError
          end
  end.

End PyFile.

(* ===================================================================== *)
(** ** The module [process_video] *)

Module Video.

Import PyTime.
Definition float : Type := PyFloat.float.

Definition ZERO_PADDING : nat := 6.
Definition TIME_FORMAT : string := "%Y-%m-%d %H:%M:%S".
Definition TIME_FORMAT_2 : string := "%Y-%m-%dT%H:%M:%S.000000Z".

(** *** The world the module runs in *)

(** Modelled from the spec: the metadata probe ([FFProbe], in
    [mapillary_tools/ffprobe.py]) returns, for each video stream of a
    file, its duration (a numeric string) and an optional creation-time
    string; an attribute without a value reads as [None]. *)
Record stream : Type := mkStream {
  duration : option string;
  creation_time : option string
}.

(** What the module observes of its environment: the file system, the
    probe, the directory listing left by the sampling tool
    ([uploader.get_total_file_list]), the outcome of the metadata
    writer ([ExifEdit]) on an image and a timestamp, and what the
    container library makes of the payload of a box of a given type
    (see [PyFile.parse_box]). *)
Record world : Type := mkWorld {
  isfile : string -> bool;
  probe_video : string -> list stream;
  file_bytes : string -> option PyFile.bytes;
  total_file_list : string -> list string;
  exif_write_ok : string -> datetime -> bool;
  box_structure : PyFile.bytes -> PyFile.bytes -> option nat
}.

(** The lines the module prints. *)
Inductive message : Type :=
| MsgExtracting (video_file : string)
| MsgStartTimeDefaulted
| MsgNoVideoFound (video_file : string)
| MsgBadDuration (d : option string) (video_file : string) (e : exn)
| MsgNoFramesSampled
| MsgCouldNotInsert (frame : string)
| MsgNoSuchVideo (video_file : string).

(** The invocation of the sampling tool: input, interval, output name
    template. *)
Record command : Type := mkCommand {
  cmd_input : string;
  cmd_interval : float;
  cmd_output : string
}.

(** The effects of a run: printed lines, subprocess calls, invocations
    of the metadata writer and the timestamps it has written. *)
Record state : Type := mkState {
  log : list message;
  calls : list command;
  writer_calls : list (string * datetime);
  stamped : list (string * datetime)
}.

Definition init : state := mkState [] [] [] [].

(** *** State and exceptions *)

Definition M (A : Type) : Type := state -> result A * state.

Definition ret {A} (a : A) : M A := fun s => (Ok a, s).
Definition raise {A} (e : exn) : M A := fun s => (Err e, s).
Definition bind {A B} (m : M A) (k : A -> M B) : M B :=
  fun s =>
    match m s with
    | (Ok a, s') => k a s'
    | (Err e, s') => (Err e, s')
    end.
Definition lift {A} (r : result A) : M A := fun s => (r, s).

(** [try: body  except: handler] *)
Definition try_except {A} (body : M A) (handler : exn -> M A) : M A :=
  fun s =>
    match body s with
    | (Ok a, s') => (Ok a, s')
    | (Err e, s') => handler e s'
    end.

Definition print (m : message) : M unit :=
  fun s => (Ok tt, mkState (log s ++ [m]) (calls s) (writer_calls s) (stamped s)).

Definition subprocess_call (c : command) : M unit :=
  fun s => (Ok tt, mkState (log s) (calls s ++ [c]) (writer_calls s) (stamped s)).

(** [ExifEdit(image)], [add_date_time_original(t)], [write()]: the
    timestamp is in the file when the three calls succeed. *)
Definition exif_stamp (w : world) (image : string) (t : datetime) : M unit :=
  fun s =>
    let s' := mkState (log s) (calls s) (writer_calls s ++ [(image, t)]) (stamped s) in
    if exif_write_ok w image t
    then (Ok tt, mkState (log s') (calls s') (writer_calls s') (stamped s' ++ [(image, t)]))
    else (Err ExifError, s').

Declare Scope vid_scope.
Delimit Scope vid_scope with vid.
Notation "x <- m ;; k" := (bind m (fun x => k))
  (at level 61, m at next level, right associativity) : vid_scope.
Notation "m ;;; k" := (bind m (fun _ => k))
  (at level 61, right associativity) : vid_scope.
Notation "x <~ r ;; k" := (rbind r (fun x => k))
  (at level 61, r at next level, right associativity) : vid_scope.
Local Open Scope vid_scope.

(** *** Frame timestamps *)

(** The index of a frame, from its file name:
    [int(filename.rstrip(".jpg").replace(f"{video_filename}_", "").lstrip("0"))]. *)
Definition frame_index (video_filename filename : string) : result Z :=
  PyStr.int
    (PyStr.lstrip "0"
       (PyStr.replace (video_filename ++ "_") ""
          (PyStr.rstrip ".jpg" filename))).

Definition timestamp_from_filename
    (video_filename filename : string) (start_time : datetime)
    (interval adjustment : float) : result datetime :=
  n <~ frame_index video_filename filename ;;
  k <~ PyFloat.of_int (n - 1) ;;
  let seconds := PyFloat.mul (PyFloat.mul k interval) adjustment in
  d <~ timedelta_of_seconds seconds ;;
  add start_time d.

Fixpoint timestamps_from_filename
    (video_filename : string) (full_image_list : list string)
    (start_time : datetime) (interval adjustment : float)
    : result (list datetime) :=
  match full_image_list with
  | [] => Ok []
  | image :: rest =>
      t <~ timestamp_from_filename video_filename (PyStr.basename image)
             start_time interval adjustment ;;
      ts <~ timestamps_from_filename video_filename rest
              start_time interval adjustment ;;
      Ok (t :: ts)
  end.

(** The loop over [zip(frame_list, video_frame_timestamps)]: a failure
    of the writer is caught, reported, and the loop goes on. *)
Fixpoint stamp_frames (w : world) (pairs : list (string * datetime)) : M unit :=
  match pairs with
  | [] => ret tt
  | (image, timestamp) :: rest =>
      try_except
        (exif_stamp w image timestamp)
        (fun _ => print (MsgCouldNotInsert (PyStr.drop_last4 (PyStr.basename image)))) ;;;
      stamp_frames w rest
  end.

Definition insert_video_frame_timestamp
    (w : world) (video_filename video_sampling_path : string)
    (start_time : datetime) (sample_interval duration_ratio : float)
    (verbose : bool) : M unit :=
  let frame_list := total_file_list w video_sampling_path in
  match frame_list with
  | [] => print MsgNoFramesSampled
  | _ =>
      video_frame_timestamps <-
        lift (timestamps_from_filename video_filename frame_list start_time
                sample_interval duration_ratio) ;;
      stamp_frames w (combine frame_list video_frame_timestamps)
  end.

(** *** The start time of a video *)

(** [FFProbe(video_file)]: the probe raises on a missing file. *)
Definition FFProbe (w : world) (video_file : string) : M (list stream) :=
  if isfile w video_file then ret (probe_video w video_file) else raise IOError.

(** [float(duration)] of an attribute value. *)
Definition float_of_attr (d : option string) : result float :=
  match d with
  | Some s => PyFloat.of_string s
  | None => Err TypeError
  end.

Definition get_video_duration (w : world) (video_file : string) : M (option float) :=
  probe <- FFProbe w video_file ;;
  match probe with
  | [] => print (MsgNoVideoFound video_file) ;;; ret None
  | v0 :: _ =>
      let d := duration v0 in
      match float_of_attr d with
      | Ok x => ret (Some x)
      | Err e => print (MsgBadDuration d video_file e) ;;; ret None
      end
  end.

(** [datetime.strptime(time_string, fmt)] of an attribute value. *)
Definition strptime_attr (time_string : option string) (fmt : string) : result datetime :=
  match time_string with
  | Some s => strptime s fmt
  | None => Err TypeError
  end.

Definition get_video_end_time (w : world) (video_file : string) : M (option datetime) :=
  if negb (isfile w video_file) then
    print (MsgNoSuchVideo video_file) ;;; ret None
  else
    try_except
      (probe <- FFProbe w video_file ;;
       v0 <- lift (match probe with
                   | v :: _ => Ok v
                   | [] => Err IndexError
                   end) ;;
       let time_string := creation_time v0 in
       creation <-
         try_except
           (lift (strptime_attr time_string TIME_FORMAT))
           (fun _ => lift (strptime_attr time_string TIME_FORMAT_2)) ;;
       ret (Some creation))
      (fun _ => ret None).

Definition get_video_start_time (w : world) (video_file : string) : M (option datetime) :=
  if negb (isfile w video_file) then
    print (MsgNoSuchVideo video_file) ;;; ret None
  else
    video_end_time <- get_video_end_time w video_file ;;
    duration <- get_video_duration w video_file ;;
    match video_end_time, duration with
    | Some e, Some d =>
        video_start_time <- lift (delta <~ timedelta_of_seconds d ;; sub e delta) ;;
        ret (Some video_start_time)
    | _, _ => ret None
    end.

(** *** Sampling *)

(** [".".join(name.split(".")[:-1])]: what precedes the last dot, the
    empty string when there is no dot. *)
Fixpoint stem (name : string) : string :=
  match name with
  | EmptyString => EmptyString
  | String c r => if PyStr.mem "." r then String c (stem r) else EmptyString
  end.

Fixpoint ends_with_slash (a : string) : bool :=
  match a with
  | EmptyString => false
  | String c EmptyString => Ascii.eqb c "/"
  | String _ r => ends_with_slash r
  end.

(** [os.path.join(a, b)]. *)
Definition path_join (a b : string) : string :=
  match b with
  | String "/" _ => b
  | _ =>
      match a with
      | EmptyString => b
      | _ => if ends_with_slash a then a ++ b else a ++ "/" ++ b
      end
  end.

(** [datetime.utcfromtimestamp(n)] for an [int] [n]. *)
Definition utcfromtimestamp_int (n : Z) : result datetime :=
  let t := unix_epoch + n * us_per_second in
  if in_range t then Ok t else Err ValueError.

(** The start time [extract_frames] passes on (the conditional of its
    body): the caller's, when [video_start_time] is true as a condition,
    i.e. neither [None] nor [0]; otherwise the probe's; otherwise the
    epoch, with a warning. *)
Definition resolve_start_time
    (w : world) (video_file : string) (video_start_time : option Z) : M datetime :=
  let otherwise : M datetime :=
    t <- get_video_start_time w video_file ;;
    match t with
    | Some t => ret t
    | None =>
        print MsgStartTimeDefaulted ;;;
        lift (utcfromtimestamp_int 0)
    end in
  match video_start_time with
  | Some ms =>
      if ms =? 0 then otherwise
      else lift (x <~ PyFloat.of_int ms ;;
                 q <~ PyFloat.div x PyFloat.f1000_0 ;;
                 utcfromtimestamp q)
  | None => otherwise
  end.

Definition extract_frames
    (w : world) (video_file import_path : string)
    (video_sample_interval : float) (video_start_time : option Z)
    (video_duration_ratio : float) (verbose : bool) : M unit :=
  (if verbose then print (MsgExtracting video_file) else ret tt) ;;;
  let video_filename := stem (PyStr.basename video_file) in
  subprocess_call
    (mkCommand video_file video_sample_interval
       (path_join import_path video_filename ++ "_%06d.jpg")) ;;;
  video_start_time <- resolve_start_time w video_file video_start_time ;;
  insert_video_frame_timestamp w video_filename import_path video_start_time
    video_sample_interval video_duration_ratio verbose.

(** *** The start time from the container itself *)

(** The reads that follow [fd.seek(box.offset + 8, 0)]. *)
Definition read_movie_header (data : PyFile.bytes) (offset : Z) : result datetime :=
  let pos := offset + 8 in
  let '(b, pos) := PyFile.read data pos 4 in
  size <~ PyFile.unpack_be32 b ;;
  let '(typ, pos) := PyFile.read data pos 4 in
  let pos := pos + 4 in                            (* fd.seek(4, os.SEEK_CUR) *)
  let '(b, pos) := PyFile.read data pos 4 in
  creation_time <~ PyFile.unpack_be32 b ;;
  let '(b, pos) := PyFile.read data pos 4 in
  modification_time <~ PyFile.unpack_be32 b ;;
  let '(b, pos) := PyFile.read data pos 4 in
  time_scale <~ PyFile.unpack_be32 b ;;
  let '(b, pos) := PyFile.read data pos 4 in
  duration <~ PyFile.unpack_be32 b ;;
  let video_start_time_epoch := creation_time * 1000 - duration in
  let epoch_start := epoch_1904 in
  delta <~ timedelta_of_milliseconds video_start_time_epoch ;;
  add epoch_start delta.

(** The loop [while fd.tell() < eof], from position [pos]; [None] when
    [fuel] iterations were not enough.  Leaving the loop returns
    [None] (Python's), as the function ends there. *)
Fixpoint scan_boxes (w : world) (fuel : nat) (data : PyFile.bytes) (pos : Z)
    : option (result (option datetime)) :=
  match fuel with
  | O => None
  | S fuel' =>
      if pos <? Z.of_nat (List.length data) then
        match PyFile.parse_box (box_structure w) data pos with
        | Err e => Some (Err e)
        | Ok box =>
            match PyFile.decode_utf8 (PyFile.box_type box) with
            | Err e => Some (Err e)
            | Ok type =>
                if String.eqb type "moov" then
                  Some (t <~ read_movie_header data (PyFile.box_offset box) ;;
                        Ok (Some t))
                else scan_boxes w fuel' data (PyFile.box_end box)
            end
        end
      else Some (Ok None)
  end.

(** Every parse of a box moves the stream by 8 bytes at least: as many
    iterations as the file has bytes, and one more to see the end, are
    enough ([scan_boxes_total] below). *)
Definition get_video_start_time_blackvue (w : world) (video_file : string)
    : option (result (option datetime)) :=
  match file_bytes w video_file with
  | None => Some (Err IOError)
  | Some data => scan_boxes w (S (List.length data)) data 0
  end.

End Video.

(* ===================================================================== *)
(** ** The batch: [sample_video] *)

(** Strings made of characters of the set [chars]. *)
Fixpoint all_in (chars s : string) : bool :=
  match s with
  | EmptyString => true
  | String c r => PyStr.mem c chars && all_in chars r
  end.

Module Batch.

(** [p[:p.rfind("/") + 1]]: up to the last slash, that slash included. *)
Fixpoint head_of (p : string) : string :=
  match p with
  | EmptyString => EmptyString
  | String c r =>
      if PyStr.mem "/" r then String c (head_of r)
      else if Ascii.eqb c "/" then String c EmptyString else EmptyString
  end.

(** [os.path.dirname(p)]: the head without its trailing slashes, unless
    it is made of slashes only. *)
Definition dirname (p : string) : string :=
  let head := head_of p in
  if all_in "/" head then head else PyStr.rstrip "/" head.

(** Modelled from the spec: the collaborators of the batch are
    consumed through their interfaces.  The enumeration of the videos of
    a directory ([uploader.get_video_file_list], with the flag that
    leaves the subfolders out) gives a list of paths; the upload history
    ([processing.video_upload]) tells whether a video was already
    processed; the completion record
    ([processing.create_and_log_video_process]) is kept by the state
    below.  The file system answers [os.path.isdir] and accepts or
    refuses [os.makedirs], both given the directories made so far;
    [os.path.abspath] depends on the working directory. *)
Record env : Type := mkEnv {
  inner : Video.world;
  isdir : list string -> string -> bool;
  makedirs_ok : list string -> string -> bool;
  abspath : string -> string;
  get_video_file_list : string -> bool -> list string;
  video_upload : string -> string -> bool -> bool
}.

(** The lines printed: those of [sample_video], and those of
    [extract_frames] among them. *)
Inductive line : Type :=
| ErrImportDirectory (import_path : string)
| ErrVideoPath (video_import_path : string)
| SamplingPathSet (per_video_import_path : string)
| AlreadyUploaded (video : string)
| Line (m : Video.message).

(** The effects of a batch: the lines, the effects of the runs of
    [extract_frames], the directories made, the completion records. *)
Record state : Type := mkState {
  out : list line;
  tool_calls : list Video.command;
  writes : list (string * PyTime.datetime);
  stamps : list (string * PyTime.datetime);
  made : list string;
  records : list (string * string)
}.

Definition init : state := mkState [] [] [] [] [] [].

(** A run returns, raises, or leaves the process ([sys.exit]). *)
Inductive outcome (A : Type) : Type :=
| Done (a : A)
| Raised (e : exn)
| Exited (code : Z).
Arguments Done {A} a.
Arguments Raised {A} e.
Arguments Exited {A} code.

Definition B (A : Type) : Type := state -> outcome A * state.

Definition ret {A} (a : A) : B A := fun s => (Done a, s).
Definition exit {A} (code : Z) : B A := fun s => (Exited code, s).
Definition bind {A C} (m : B A) (k : A -> B C) : B C :=
  fun s =>
    match m s with
    | (Done a, s') => k a s'
    | (Raised e, s') => (Raised e, s')
    | (Exited c, s') => (Exited c, s')
    end.

Definition print (l : line) : B unit :=
  fun s => (Done tt, mkState (out s ++ [l]) (tool_calls s) (writes s) (stamps s)
                             (made s) (records s)).

Definition os_path_isdir (e : env) (p : string) : B bool :=
  fun s => (Done (isdir e (made s) p), s).

(** [os.makedirs(p)]. *)
Definition makedirs (e : env) (p : string) : B unit :=
  fun s =>
    if makedirs_ok e (made s) p
    then (Done tt, mkState (out s) (tool_calls s) (writes s) (stamps s)
                           (made s ++ [p]) (records s))
    else (Raised IOError, s).

Definition create_and_log_video_process (video_import_path import_path : string)
    : B unit :=
  fun s => (Done tt, mkState (out s) (tool_calls s) (writes s) (stamps s)
                             (made s) (records s ++ [(video_import_path, import_path)])).

(** A function of the module, run within the batch: its lines follow
    those of the batch, its other effects are those of the batch. *)
Definition run {A} (m : Video.M A) : B A :=
  fun s =>
    let '(r, v) := m (Video.mkState [] (tool_calls s) (writes s) (stamps s)) in
    (match r with Ok a => Done a | Err e => Raised e end,
     mkState (out s ++ map Line (Video.log v)) (Video.calls v)
             (Video.writer_calls v) (Video.stamped v) (made s) (records s)).

Declare Scope batch_scope.
Delimit Scope batch_scope with batch.
Notation "x <- m ;; k" := (bind m (fun x => k))
  (at level 61, m at next level, right associativity) : batch_scope.
Notation "m ;;; k" := (bind m (fun _ => k))
  (at level 61, right associativity) : batch_scope.
Local Open Scope batch_scope.

(** A path given as an argument counts as given when it is neither
    [None] nor the empty string. *)
Definition given (import_path : option string) : option string :=
  match import_path with
  | Some (String c r) => Some (String c r)
  | _ => None
  end.

(** The body of the loop over the videos. *)
Definition sample_one (e : env) (video_import_path import_path : string)
    (video_sample_interval : Video.float) (video_start_time : option Z)
    (video_duration_ratio : Video.float) (verbose : bool) (video : string)
    : B unit :=
  let per_video_import_path :=
    Video.path_join import_path (Video.stem (PyStr.basename video)) in
  d <- os_path_isdir e per_video_import_path ;;
  (if negb d then makedirs e per_video_import_path else ret tt) ;;;
  print (SamplingPathSet per_video_import_path) ;;;
  let video_upload := video_upload e video_import_path per_video_import_path verbose in
  (if video_upload then print (AlreadyUploaded video) else ret tt) ;;;
  run (Video.extract_frames (inner e) video per_video_import_path
         video_sample_interval video_start_time video_duration_ratio verbose).

Fixpoint sample_each (e : env) (video_import_path import_path : string)
    (video_sample_interval : Video.float) (video_start_time : option Z)
    (video_duration_ratio : Video.float) (verbose : bool)
    (video_list : list string) : B unit :=
  match video_list with
  | [] => ret tt
  | video :: rest =>
      sample_one e video_import_path import_path video_sample_interval
        video_start_time video_duration_ratio verbose video ;;;
      sample_each e video_import_path import_path video_sample_interval
        video_start_time video_duration_ratio verbose rest
  end.

Definition video_sampling_path : string := "mapillary_sampled_video_frames".

Definition sample_video (e : env) (video_import_path : string)
    (import_path : option string)
    (video_sample_interval : Video.float) (video_start_time : option Z)
    (video_duration_ratio : Video.float) (verbose skip_subfolders : bool)
    : B unit :=
  (match given import_path with
   | Some p =>
       d <- os_path_isdir e p ;;
       if negb d then print (ErrImportDirectory p) ;;; exit 1 else ret tt
   | None => ret tt
   end) ;;;
  (* sanity check *)
  (d <- os_path_isdir e video_import_path ;;
   if negb d && negb (Video.isfile (inner e) video_import_path)
   then print (ErrVideoPath video_import_path) ;;; exit 1
   else ret tt) ;;;
  (* adjust the import path *)
  d <- os_path_isdir e video_import_path ;;
  let video_dirname := if d then video_import_path else dirname video_import_path in
  let import_path :=
    match given import_path with
    | Some p => Video.path_join (abspath e p) video_sampling_path
    | None => Video.path_join (abspath e video_dirname) video_sampling_path
    end in
  d <- os_path_isdir e video_import_path ;;
  let video_list :=
    if d then get_video_file_list e video_import_path skip_subfolders
    else [video_import_path] in
  sample_each e video_import_path import_path video_sample_interval
    video_start_time video_duration_ratio verbose video_list ;;;
  create_and_log_video_process video_import_path import_path.

End Batch.

(* ===================================================================== *)
(** ** The vocabulary of the properties

    Names of frames, containers as byte strings, the worlds of the
    examples, and the integers that the floats are compared through. *)

(** The name the sampling tool gives the [n]-th frame of a video, from the
    template [<video_filename>_%06d.jpg] that [extract_frames] passes it. *)
Definition frame_filename (video_filename : string) (n : Z) : string :=
  video_filename ++ "_" ++ PyStr.zero_padded Video.ZERO_PADDING n ++ ".jpg".

(** Strings of decimal digits. *)
Fixpoint digits_only (s : string) : bool :=
  match s with
  | EmptyString => true
  | String c r => PyStr.is_digit c && digits_only r
  end.

(** [datetime(y, mo, d, h, mi, s)] of a valid date, for the examples. *)
Definition at_time (y mo d h mi s : Z) : PyTime.datetime :=
  match PyTime.make y mo d h mi s 0 with
  | Ok t => t
  | Err _ => 0
  end.

(** A probe that reports one video stream for every file. *)
Definition probe_world (duration creation : option string) : Video.world :=
  Video.mkWorld (fun _ => true)
                (fun _ => [Video.mkStream duration creation])
                (fun _ => None) (fun _ => []) (fun _ _ => true)
    (fun _ _ => None).

(** The state once [m] is printed. *)
Definition printed (m : Video.message) (s : Video.state) : Video.state :=
  Video.mkState (Video.log s ++ [m]) (Video.calls s)
                (Video.writer_calls s) (Video.stamped s).

(** The state once [extract_frames] has called the sampling tool. *)
Definition sampled (video_file import_path : string) (interval : PyFloat.float)
    (verbose : bool) (s : Video.state) : Video.state :=
  let s1 := if verbose then printed (Video.MsgExtracting video_file) s else s in
  Video.mkState (Video.log s1)
    (Video.calls s1 ++
       [Video.mkCommand video_file interval
          (Video.path_join import_path (Video.stem (PyStr.basename video_file))
           ++ "_%06d.jpg")])
    (Video.writer_calls s1) (Video.stamped s1).

(** The causes of [get_video_start_time] returning [None]: the file is
    missing, the probe has no video stream, the duration of the first
    stream is not a float, its creation time is absent or matches neither
    format. *)
Definition no_probe_result (w : Video.world) (video_file : string) : Prop :=
  Video.isfile w video_file = false
  \/ Video.probe_video w video_file = []
  \/ exists v0 rest,
       Video.probe_video w video_file = v0 :: rest
       /\ (is_ok (Video.float_of_attr (Video.duration v0)) = false
           \/ (is_ok (Video.strptime_attr (Video.creation_time v0) Video.TIME_FORMAT) = false
               /\ is_ok (Video.strptime_attr (Video.creation_time v0) Video.TIME_FORMAT_2) = false)).

(** A probe with a creation time and a duration, and one sampled frame. *)
Definition probe_frame_world : Video.world :=
  Video.mkWorld (fun _ => true)
    (fun _ => [Video.mkStream (Some "60.0") (Some "2020-01-01 00:10:00")])
    (fun _ => None) (fun _ => ["out/video_000001.jpg"]) (fun _ _ => true)
    (fun _ _ => None).

(** A world without the video file. *)
Definition empty_world : Video.world :=
  Video.mkWorld (fun _ => false) (fun _ => []) (fun _ => None)
                (fun _ => []) (fun _ _ => true)
    (fun _ _ => None).

(** The frames the writer fails on, as reported. *)
Definition write_failures (w : Video.world) (pairs : list (string * PyTime.datetime))
    : list Video.message :=
  map (fun p => Video.MsgCouldNotInsert (PyStr.drop_last4 (PyStr.basename (fst p))))
      (filter (fun p => negb (Video.exif_write_ok w (fst p) (snd p))) pairs).

(** The pairs the writer succeeds on. *)
Definition written (w : Video.world) (pairs : list (string * PyTime.datetime))
    : list (string * PyTime.datetime) :=
  filter (fun p => Video.exif_write_ok w (fst p) (snd p)) pairs.

(** Five frames in the sampling directory; the writer fails on the
    third. *)
Definition five_frames : list string :=
  ["out/video_000001.jpg"; "out/video_000002.jpg"; "out/video_000003.jpg";
   "out/video_000004.jpg"; "out/video_000005.jpg"].

Definition third_fails_world : Video.world :=
  Video.mkWorld (fun _ => true) (fun _ => []) (fun _ => None)
    (fun _ => five_frames)
    (fun image _ => negb (String.eqb image "out/video_000003.jpg"))
    (fun _ _ => None).

(** Two frames, the second with a name that is no index. *)
Definition bad_name_world : Video.world :=
  Video.mkWorld (fun _ => true) (fun _ => []) (fun _ => None)
    (fun _ => ["out/video_000001.jpg"; "out/video_abc.jpg"])
    (fun _ _ => true)
    (fun _ _ => None).

Definition byte_of (v : Z) : ascii := ascii_of_N (Z.to_N v).

(** [struct.pack(">I", n)]. *)
Definition pack_be32 (n : Z) : PyFile.bytes :=
  [byte_of (n / 16777216 mod 256); byte_of (n / 65536 mod 256);
   byte_of (n / 256 mod 256); byte_of (n mod 256)].

(** A box on the wire: size, type tag, payload. *)
Definition encode_box (b : PyFile.bytes * PyFile.bytes) : PyFile.bytes :=
  (pack_be32 (8 + Z.of_nat (List.length (snd b))) ++ fst b ++ snd b)%list.

Definition encode_boxes (bs : list (PyFile.bytes * PyFile.bytes)) : PyFile.bytes :=
  List.concat (map encode_box bs).

Definition tag (s : string) : PyFile.bytes := list_ascii_of_string s.

(** A box with a four-byte tag that decodes, and a 32-bit size. *)
Definition box_ok (b : PyFile.bytes * PyFile.bytes) : Prop :=
  List.length (fst b) = 4%nat
  /\ PyFile.utf8_valid (fst b) = true
  /\ 8 + Z.of_nat (List.length (snd b)) < 4294967296.

Definition not_moov (b : PyFile.bytes * PyFile.bytes) : Prop :=
  String.eqb (string_of_list_ascii (fst b)) "moov" = false.

(** A box that the library takes to the end of its payload. *)
Definition accepted (w : Video.world) (b : PyFile.bytes * PyFile.bytes) : Prop :=
  box_ok b
  /\ Video.box_structure w (fst b) (snd b) = Some (List.length (snd b)).

(** A library for the examples.  It takes a [ftyp] box that is well
    formed (a major brand, a minor version, then brands of four bytes
    each), keeps a [wide] box as raw bytes, takes a [moov] box (what it
    leaves unread of it does not matter: the scan ends at that box), and
    refuses every other box. *)
Definition sample_library (type payload : PyFile.bytes) : option nat :=
  let name := string_of_list_ascii type in
  if String.eqb name "ftyp" then
    if ((8 <=? List.length payload) && (List.length payload mod 4 =? 0))%nat
    then Some (List.length payload) else None
  else if String.eqb name "wide" || String.eqb name "moov"
  then Some (List.length payload)
  else None.

(** The world with one file of the given contents. *)
Definition file_world (data : PyFile.bytes) : Video.world :=
  Video.mkWorld (fun _ => true) (fun _ => []) (fun _ => Some data)
                (fun _ => []) (fun _ _ => true) sample_library.

(** A file with a [ftyp] box (major brand [isom], minor version 512,
    one compatible brand) and a [moov] box whose movie header has
    creation time 3600 s and duration 1500 (raw). *)
Definition sample_movie_header : PyFile.bytes :=
  (pack_be32 108 ++ tag "mvhd" ++ pack_be32 0
   ++ pack_be32 3600 ++ pack_be32 3600 ++ pack_be32 1000 ++ pack_be32 1500)%list.

Definition sample_ftyp : PyFile.bytes * PyFile.bytes :=
  (tag "ftyp", (tag "isom" ++ pack_be32 512 ++ tag "isom")%list).

Definition sample_container : PyFile.bytes :=
  (encode_boxes [sample_ftyp]
   ++ encode_box (tag "moov", sample_movie_header) ++ [])%list.

(** Finite floats are compared through their values scaled by [2^scale],
    integers as long as exponents are at least [- scale]. *)
Definition scale : Z := 2148.

(** The exponent, scaled, at which a value [v] is rounded. *)
Definition cexp (v : Z) : Z := Z.max (Z.log2 v + 1 - PyFloat.prec) 1074.

(** Rounding to nearest even, and towards zero, at that exponent. *)
Definition round_ne (v : Z) : Z := PyFloat.rne_div v (cexp v) * 2 ^ cexp v.
Definition round_dn (v : Z) : Z := v / 2 ^ cexp v * 2 ^ cexp v.
Definition rounded (v : Z) : Z := round_dn (round_ne v).

(** The value of a finite float in units of [2^-1074], the least positive
    float. *)
Definition units (x : spec_float) : Z :=
  match x with
  | S754_finite _ m e => Z.pos m * 2 ^ (e + 1074)
  | _ => 0
  end.

Definition expo (x : spec_float) : Z :=
  match x with
  | S754_finite _ _ e => e
  | _ => -1074
  end.

(** Zero or a finite positive float, of exponent [-1074] at least. *)
Definition nnf (x : spec_float) : Prop :=
  match x with
  | S754_zero false => True
  | S754_finite false _ e => -1074 <= e
  | _ => False
  end.

(** The microseconds of the fractional part [r / 2^1074] of a float, as
    [timedelta] computes them. *)
Definition frac_us (r : Z) : Z :=
  PyFloat.rne_div
    (rounded (rounded (r * 2 ^ 1074) / 2 ^ 1074 * (1000000 * 2 ^ 1074)) / 2 ^ 1074)
    1074.

(** [x < 0.0]. *)
Definition is_neg (x : PyFloat.float) : bool := SFltb x (S754_zero false).

(** [interval * adjustment > 0]: of the product of the two floats, or of
    the numbers they stand for, both positive or both negative (the
    product of two floats may round to zero). *)
Definition positive_product (interval adjustment : PyFloat.float) : Prop :=
  PyFloat.is_pos (PyFloat.mul interval adjustment) = true
  \/ (PyFloat.is_pos interval = true /\ PyFloat.is_pos adjustment = true)
  \/ (is_neg interval = true /\ is_neg adjustment = true).

(** The timestamp of the frame of index [k + 1]. *)
Definition timestamp_at (start_time : PyTime.datetime)
    (interval adjustment : PyFloat.float) (k : Z) : result PyTime.datetime :=
  rbind (PyFloat.of_int k) (fun a =>
  rbind (PyTime.timedelta_of_seconds
           (PyFloat.mul (PyFloat.mul a interval) adjustment)) (fun d =>
  PyTime.add start_time d)).

Definition with_sign (s : bool) (x : spec_float) : spec_float :=
  match x with
  | S754_zero _ => S754_zero s
  | S754_infinity _ => S754_infinity s
  | S754_nan => S754_nan
  | S754_finite _ m e => S754_finite s m e
  end.

(** *** The vocabulary of the further properties *)

(** The state once the lines [l] are printed. *)
Definition logged (l : list Video.message) (s : Video.state) : Video.state :=
  Video.mkState (Video.log s ++ l) (Video.calls s)
                (Video.writer_calls s) (Video.stamped s).

(** A probe that reports the duration [nan]. *)
Definition nan_world : Video.world :=
  Video.mkWorld (fun _ => true)
    (fun _ => [Video.mkStream (Some "nan") (Some "2020-01-01 00:10:00")])
    (fun _ => None) (fun _ => ["out/video_000001.jpg"]) (fun _ _ => true)
    (fun _ _ => None).

(** A world with the same frames and the same writer as [w], and another
    file system and probe. *)
Definition with_probe (w : Video.world) (isfile : string -> bool)
    (probe_video : string -> list Video.stream) : Video.world :=
  Video.mkWorld isfile probe_video (Video.file_bytes w)
                (Video.total_file_list w) (Video.exif_write_ok w)
                (Video.box_structure w).

(** A file whose [moov] box is empty, after a [wide] box: the bytes of
    the movie header follow the [moov] box instead of being inside
    it. *)
Definition empty_moov_container : PyFile.bytes :=
  (encode_boxes [(tag "wide", [])]
   ++ encode_box (tag "moov", [])
   ++ sample_movie_header)%list.

(** The file that the output template of [extract_frames] names for the
    index [n], and the indices [1..k]. *)
Definition frame_path (import_path video_filename : string) (n : Z) : string :=
  Video.path_join import_path video_filename
  ++ "_" ++ PyStr.zero_padded Video.ZERO_PADDING n ++ ".jpg".

Definition indices (k : nat) : list Z := map Z.of_nat (seq 1 k).

(** A video without probe result, sampled into three frames. *)
Definition three_frames_world : Video.world :=
  Video.mkWorld (fun _ => false) (fun _ => []) (fun _ => None)
    (fun _ => map (frame_path "out" "video") (indices 3)) (fun _ _ => true)
    (fun _ _ => None).

(** The state of a batch once the line [l] is printed. *)
Definition says (l : Batch.line) (s : Batch.state) : Batch.state :=
  Batch.mkState (Batch.out s ++ [l]) (Batch.tool_calls s) (Batch.writes s)
                (Batch.stamps s) (Batch.made s) (Batch.records s).

(** The import path that [sample_video] refuses: one that is given and
    is not a directory. *)
Definition bad_import_path (e : Batch.env) (s : Batch.state)
    (import_path : option string) : option string :=
  match Batch.given import_path with
  | Some p => if Batch.isdir e (Batch.made s) p then None else Some p
  | None => None
  end.

(** The video path that it refuses: neither a directory nor a file. *)
Definition bad_video_path (e : Batch.env) (s : Batch.state)
    (video_import_path : string) : bool :=
  negb (Batch.isdir e (Batch.made s) video_import_path)
  && negb (Video.isfile (Batch.inner e) video_import_path).

(** The directory the frames of a batch go under, and its videos. *)
Definition sampling_root (e : Batch.env) (s : Batch.state)
    (video_import_path : string) (import_path : option string) : string :=
  Video.path_join
    (Batch.abspath e
       match Batch.given import_path with
       | Some p => p
       | None =>
           if Batch.isdir e (Batch.made s) video_import_path
           then video_import_path
           else Batch.dirname video_import_path
       end)
    Batch.video_sampling_path.

Definition videos (e : Batch.env) (s : Batch.state)
    (video_import_path : string) (skip_subfolders : bool) : list string :=
  if Batch.isdir e (Batch.made s) video_import_path
  then Batch.get_video_file_list e video_import_path skip_subfolders
  else [video_import_path].

(** The call of the sampling tool for a video of the batch: into the
    directory of the video, under the root. *)
Definition sampling_command (root : string) (interval : PyFloat.float)
    (video : string) : Video.command :=
  let base := Video.stem (PyStr.basename video) in
  Video.mkCommand video interval
    (Video.path_join (Video.path_join root base) base ++ "_%06d.jpg").

(** The same collaborators, with another upload history. *)
Definition with_history (e : Batch.env)
    (video_upload : string -> string -> bool -> bool) : Batch.env :=
  Batch.mkEnv (Batch.inner e) (Batch.isdir e) (Batch.makedirs_ok e)
              (Batch.abspath e) (Batch.get_video_file_list e) video_upload.

(** The same collaborators, with another list of videos. *)
Definition with_videos (e : Batch.env) (video_list : list string) : Batch.env :=
  Batch.mkEnv (Batch.inner e) (Batch.isdir e) (Batch.makedirs_ok e)
              (Batch.abspath e) (fun _ _ => video_list) (Batch.video_upload e).

(** Two states of a batch with the same effects, the lines apart. *)
Definition same_effects (s1 s2 : Batch.state) : Prop :=
  Batch.tool_calls s1 = Batch.tool_calls s2
  /\ Batch.writes s1 = Batch.writes s2
  /\ Batch.stamps s1 = Batch.stamps s2
  /\ Batch.made s1 = Batch.made s2
  /\ Batch.records s1 = Batch.records s2.

(** A file system with the directory [clips], in which everything can
    be made; two videos, the frame of the first with a name that is no
    index. *)
Definition clips_env (w : Video.world) : Batch.env :=
  Batch.mkEnv w
    (fun made p => String.eqb p "clips" || existsb (String.eqb p) made)
    (fun _ _ => true)
    (fun p => "/home/" ++ p)
    (fun _ _ => ["clips/a.mp4"; "clips/b.mp4"])
    (fun _ _ _ => false).

Definition two_videos_world : Video.world :=
  Video.mkWorld (fun _ => true) (fun _ => []) (fun _ => None)
    (fun path =>
       if String.eqb path "/home/clips/mapillary_sampled_video_frames/a"
       then ["/home/clips/mapillary_sampled_video_frames/a/a_abc.jpg"]
       else ["/home/clips/mapillary_sampled_video_frames/b/b_000001.jpg"])
    (fun _ _ => true)
    (fun _ _ => None).

(* ===================================================================== *)
(** * The model on examples *)

Example rstrip_jpg : PyStr.rstrip ".jpg" "video_000012.jpg" = "video_000012".
Proof. reflexivity. Qed.
Example replace_ex : PyStr.replace "ab" "X" "ababcab" = "XXcX".
Proof. reflexivity. Qed.
Example replace_ex2 : PyStr.replace "aa" "X" "aaa" = "Xa".
Proof. reflexivity. Qed.
Example int_ex : PyStr.int " 1_000 " = Ok 1000.
Proof. reflexivity. Qed.
Example int_ex2 : PyStr.int "" = Err ValueError.
Proof. reflexivity. Qed.
Example base_ex : PyStr.basename "/a/b/video_000012.jpg" = "video_000012.jpg".
Proof. reflexivity. Qed.
Example base_ex2 : PyStr.basename "/a/b/" = "".
Proof. reflexivity. Qed.
Example pad_ex : PyStr.zero_padded 6 12 = "000012".
Proof. reflexivity. Qed.
Example pad_ex2 : PyStr.zero_padded 6 1234567 = "1234567".
Proof. reflexivity. Qed.
Example drop_ex : PyStr.drop_last4 "video_000012.jpg" = "video_000012".
Proof. reflexivity. Qed.
Example f1_0_ok : PyFloat.of_int 1 = Ok PyFloat.f1_0.
Proof. reflexivity. Qed.
Example f2_0_ok : PyFloat.of_string "2.0" = Ok PyFloat.f2_0.
Proof. reflexivity. Qed.
Example f1000_0_ok : PyFloat.of_int 1000 = Ok PyFloat.f1000_0.
Proof. reflexivity. Qed.
Example f1e6_ok : PyFloat.of_string "1e6" = Ok PyFloat.f1e6.
Proof. reflexivity. Qed.
Example f0_1_ok :
  PyFloat.of_string "0.1" = Ok (S754_finite false 7205759403792794 (-56)).
Proof. reflexivity. Qed.
Example fbad_ok : PyFloat.of_string "1_.5" = Err ValueError.
Proof. reflexivity. Qed.
Example fdot_ok : PyFloat.of_string "." = Err ValueError.
Proof. reflexivity. Qed.
Example f5dot_ok : PyFloat.of_string " 5. " = PyFloat.of_int 5.
Proof. reflexivity. Qed.
Example fdot5_ok : PyFloat.of_string "-.5e1" = PyFloat.of_int (-5).
Proof. reflexivity. Qed.
Example f60_ok : PyFloat.of_string "60.000000" = PyFloat.of_int 60.
Proof. reflexivity. Qed.
Example fvalid_ok :
  forallb (valid_binary PyFloat.prec PyFloat.emax)
    [PyFloat.f1_0; PyFloat.f2_0; PyFloat.f1000_0; PyFloat.f1e6] = true.
Proof. reflexivity. Qed.
Example epoch_unix_ok : PyTime.make 1970 1 1 0 0 0 0 = Ok PyTime.unix_epoch.
Proof. reflexivity. Qed.
Example epoch_1904_ok : PyTime.make 1904 1 1 0 0 0 0 = Ok PyTime.epoch_1904.
Proof. reflexivity. Qed.
Example max_ordinal_ok : PyTime.ymd2ord 9999 12 31 = PyTime.max_ordinal.
Proof. reflexivity. Qed.
Example strptime_ok1 :
  PyTime.strptime "2020-01-01 00:10:00" "%Y-%m-%d %H:%M:%S"
  = PyTime.make 2020 1 1 0 10 0 0.
Proof. reflexivity. Qed.
Example strptime_ok2 :
  PyTime.strptime "2020-01-01T00:10:00.000000Z" "%Y-%m-%dT%H:%M:%S.000000Z"
  = PyTime.make 2020 1 1 0 10 0 0.
Proof. reflexivity. Qed.
Example strptime_ko1 :
  PyTime.strptime "2020-01-01T00:10:00.000000Z" "%Y-%m-%d %H:%M:%S" = Err ValueError.
Proof. reflexivity. Qed.
Example strptime_ko2 :
  PyTime.strptime "2021-02-29 00:10:00" "%Y-%m-%d %H:%M:%S" = Err ValueError.
Proof. reflexivity. Qed.
Example strptime_short :
  PyTime.strptime "2020-1-5   7:08:9" "%Y-%m-%d %H:%M:%S"
  = PyTime.make 2020 1 5 7 8 9 0.
Proof. reflexivity. Qed.
Example timedelta_6s :
  rbind (PyFloat.of_int 3) (fun k =>
    PyTime.timedelta_of_seconds (PyFloat.mul (PyFloat.mul k PyFloat.f2_0) PyFloat.f1_0))
  = Ok 6000000.
Proof. reflexivity. Qed.
Example timedelta_tenth :
  rbind (PyFloat.of_string "0.1") PyTime.timedelta_of_seconds = Ok 100000.
Proof. reflexivity. Qed.
Example timedelta_half_even :
  rbind (PyFloat.of_string "0.0000005") PyTime.timedelta_of_seconds = Ok 0
  /\ rbind (PyFloat.of_string "0.0000015") PyTime.timedelta_of_seconds = Ok 2
  /\ rbind (PyFloat.of_string "-2.5") PyTime.timedelta_of_seconds = Ok (-2500000).
Proof. repeat split. Qed.
Example frame_filename_4 : frame_filename "video" 4 = "video_000004.jpg".
Proof. reflexivity. Qed.

Example frame_index_ex :
  Video.frame_index "video" "video_0012.jpgg" = Ok 12
  /\ Video.frame_index "video" "video_000000.jpg" = Err ValueError
  /\ Video.frame_index "" "_000003.jpg" = Ok 3.
Proof. repeat split. Qed.
Example stem_ex :
  Video.stem "a.b.mp4" = "a.b" /\ Video.stem "video" = ""
  /\ Video.stem ".hidden" = "" /\ Video.stem "a..mp4" = "a.".
Proof. repeat split. Qed.
Example dirname_ex :
  Batch.dirname "clips/a.mp4" = "clips" /\ Batch.dirname "a.mp4" = ""
  /\ Batch.dirname "/a.mp4" = "/" /\ Batch.dirname "//a" = "//"
  /\ Batch.dirname "a//b" = "a" /\ Batch.dirname "a/b/" = "a/b".
Proof. repeat split. Qed.
Example fraction_rejected :
  Video.get_video_end_time
    (probe_world (Some "60.0") (Some "2020-01-01T00:10:00.500000Z"))
    "video.mp4" Video.init
  = (Ok None, Video.init).
Proof. reflexivity. Qed.
Example duration_nan :
  PyFloat.of_string "nan" = Ok S754_nan
  /\ PyFloat.of_string "inf" = Ok (S754_infinity false)
  /\ PyFloat.of_string "1e999" = Ok (S754_infinity false).
Proof. repeat split. Qed.
Example blackvue_ill_formed_ftyp :
  Video.get_video_start_time_blackvue
    (file_world (encode_box (tag "ftyp", tag "isom") ++ sample_container)%list)
    "video.mp4"
  = Some (Err ConstructError).
Proof. reflexivity. Qed.
Example blackvue_short_size :
  Video.get_video_start_time_blackvue
    (file_world (pack_be32 4 ++ tag "wide" ++ sample_container)%list) "video.mp4"
  = Some (Err IOError).
Proof. reflexivity. Qed.
Example blackvue_truncated :
  Video.get_video_start_time_blackvue
    (file_world (firstn 14 (encode_box sample_ftyp))) "video.mp4"
  = Some (Err IOError).
Proof. reflexivity. Qed.
Example blackvue_sample :
  Video.get_video_start_time_blackvue (file_world sample_container) "video.mp4"
  = Some (Ok (Some (at_time 1904 1 1 0 59 58 + 500000))).
Proof. reflexivity. Qed.
Example sample_video_single_file :
  Batch.sample_video (clips_env two_videos_world) "clips/b.mp4" None
    PyFloat.f2_0 (Some 1000) PyFloat.f1_0 false false Batch.init
  = (Batch.Done tt,
     Batch.mkState
       [Batch.SamplingPathSet "/home/clips/mapillary_sampled_video_frames/b"]
       [Video.mkCommand "clips/b.mp4" PyFloat.f2_0
          "/home/clips/mapillary_sampled_video_frames/b/b_%06d.jpg"]
       [("/home/clips/mapillary_sampled_video_frames/b/b_000001.jpg",
         at_time 1970 1 1 0 0 1)]
       [("/home/clips/mapillary_sampled_video_frames/b/b_000001.jpg",
         at_time 1970 1 1 0 0 1)]
       ["/home/clips/mapillary_sampled_video_frames/b"]
       [("clips/b.mp4", "/home/clips/mapillary_sampled_video_frames")]).
Proof. reflexivity. Qed.
Example sample_video_directory :
  fst (Batch.sample_video (clips_env two_videos_world) "clips" None
         PyFloat.f2_0 (Some 1000) PyFloat.f1_0 false false Batch.init)
  = Batch.Raised ValueError
  /\ Batch.tool_calls
       (snd (Batch.sample_video (clips_env two_videos_world) "clips" None
               PyFloat.f2_0 (Some 1000) PyFloat.f1_0 false false Batch.init))
     = [Video.mkCommand "clips/a.mp4" PyFloat.f2_0
          "/home/clips/mapillary_sampled_video_frames/a/a_%06d.jpg"].
Proof. split; reflexivity. Qed.

(* ===================================================================== *)
(** * Properties *)

(** ** Strings: the index of a frame is read back from its name *)

Module PyStrFacts.
Import PyStr.

Lemma append_assoc (a b c : string) : (a ++ b) ++ c = a ++ (b ++ c).
Proof. induction a as [|x a IH]; simpl; [reflexivity | now rewrite IH]. Qed.

Lemma digit_val_cases c d :
  digit_val c = Some d ->
  (c = "0" \/ c = "1" \/ c = "2" \/ c = "3" \/ c = "4" \/
   c = "5" \/ c = "6" \/ c = "7" \/ c = "8" \/ c = "9")%char.
Proof.
  destruct c as [[|] [|] [|] [|] [|] [|] [|] [|]]; intros H;
    vm_compute in H; try discriminate H; tauto.
Qed.

Lemma is_digit_cases c :
  is_digit c = true ->
  (c = "0" \/ c = "1" \/ c = "2" \/ c = "3" \/ c = "4" \/
   c = "5" \/ c = "6" \/ c = "7" \/ c = "8" \/ c = "9")%char.
Proof.
  unfold is_digit. destruct (digit_val c) eqn:E; [|discriminate].
  intros _. eapply digit_val_cases; eauto.
Qed.

Ltac digit_case c H :=
  destruct (is_digit_cases c H)
    as [-> | [-> | [-> | [-> | [-> | [-> | [-> | [-> | [-> | ->]]]]]]]]].

Lemma digit_not_jpg c : is_digit c = true -> mem c ".jpg" = false.
Proof. intros H; digit_case c H; reflexivity. Qed.

Lemma digit_not_ws c : is_digit c = true -> mem c whitespace = false.
Proof. intros H; digit_case c H; reflexivity. Qed.

Lemma digit_not_underscore c : is_digit c = true -> Ascii.eqb "_" c = false.
Proof. intros H; digit_case c H; reflexivity. Qed.

Lemma digit_not_sign c :
  is_digit c = true -> c <> "-"%char /\ c <> "+"%char.
Proof. intros H; digit_case c H; split; discriminate. Qed.

Lemma digit_char_val d : 0 <= d <= 9 -> digit_val (digit_char d) = Some d.
Proof.
  intros H.
  assert (d = 0 \/ d = 1 \/ d = 2 \/ d = 3 \/ d = 4 \/ d = 5 \/ d = 6
          \/ d = 7 \/ d = 8 \/ d = 9) as C by lia.
  repeat (destruct C as [-> | C]; [reflexivity|]). subst; reflexivity.
Qed.

Lemma digit_char_digit d : 0 <= d <= 9 -> is_digit (digit_char d) = true.
Proof. intros H. unfold is_digit. now rewrite digit_char_val. Qed.

Lemma digit_char_nonzero d : 1 <= d <= 9 -> mem (digit_char d) "0" = false.
Proof.
  intros H.
  assert (d = 1 \/ d = 2 \/ d = 3 \/ d = 4 \/ d = 5 \/ d = 6
          \/ d = 7 \/ d = 8 \/ d = 9) as C by lia.
  repeat (destruct C as [-> | C]; [reflexivity|]). subst; reflexivity.
Qed.

(** *** [rstrip] *)

Lemma rstrip_all chars t :
  (forall c, mem c t = true -> mem c chars = true) ->
  rstrip chars t = EmptyString.
Proof.
  induction t as [|a t IH]; simpl; intros H; [reflexivity|].
  rewrite IH.
  - rewrite (H a); [reflexivity|]. now rewrite Ascii.eqb_refl.
  - intros c Hc. apply H. destruct (Ascii.eqb c a); auto.
Qed.

Lemma rstrip_keep chars u c t :
  mem c chars = false ->
  (forall x, mem x t = true -> mem x chars = true) ->
  rstrip chars (u ++ String c t) = u ++ String c EmptyString.
Proof.
  intros Hc Ht. induction u as [|a u IH]; simpl.
  - rewrite (rstrip_all _ _ Ht), Hc. reflexivity.
  - rewrite IH. destruct u; reflexivity.
Qed.

(** *** [replace] *)

Lemma starts_with_app p s : starts_with p (p ++ s) = true.
Proof.
  induction p as [|a p IH]; simpl; [reflexivity|].
  now rewrite Ascii.eqb_refl.
Qed.

Lemma replace_scan_skip old new u v :
  replace_scan old new (String.length u) (u ++ v) = replace_scan old new O v.
Proof.
  induction u as [|a u IH]; simpl; [|exact IH].
  destruct v; reflexivity.
Qed.

Lemma starts_with_digits base t :
  digits_only t = true -> starts_with (base ++ "_") t = false.
Proof.
  revert t; induction base as [|a b IH]; intros t Ht.
  - destruct t as [|c r]; [reflexivity|].
    cbn [digits_only] in Ht. apply andb_prop in Ht as [Hc _].
    cbn [append starts_with]. now rewrite (digit_not_underscore _ Hc).
  - destruct t as [|c r]; [reflexivity|].
    cbn [digits_only] in Ht. apply andb_prop in Ht as [_ Hr].
    cbn [append starts_with].
    destruct (Ascii.eqb a c); [now apply IH | reflexivity].
Qed.

Lemma replace_scan_digits base new t :
  digits_only t = true -> replace_scan (base ++ "_") new O t = t.
Proof.
  induction t as [|c r IH]; intros Ht; [reflexivity|].
  cbn [replace_scan]. rewrite (starts_with_digits base _ Ht).
  simpl in Ht. apply andb_prop in Ht as [_ Hr]. now rewrite IH.
Qed.

Lemma replace_prefix base t :
  digits_only t = true ->
  replace (base ++ "_") "" ((base ++ "_") ++ t) = t.
Proof.
  intros Ht. unfold replace.
  destruct (base ++ "_") as [|p0 p'] eqn:E.
  - destruct base; discriminate E.
  - cbn [append replace_scan].
    pose proof (starts_with_app (String p0 p') t) as Hs. cbn [append] in Hs.
    rewrite Hs. cbn [String.length Nat.pred append].
    rewrite replace_scan_skip. rewrite <- E. now apply replace_scan_digits.
Qed.

(** *** Numerals *)

Lemma digits_only_app a b :
  digits_only (a ++ b) = digits_only a && digits_only b.
Proof.
  induction a as [|c a IH]; simpl; [reflexivity|].
  now rewrite IH, andb_assoc.
Qed.

Lemma digits_only_zeros k : digits_only (zeros k) = true.
Proof. induction k; simpl; auto. Qed.

Lemma numeral_fuel_digits f : forall n acc,
  0 <= n -> digits_only acc = true -> digits_only (numeral_fuel f n acc) = true.
Proof.
  induction f as [|f IH]; intros n acc Hn Hacc; cbn [numeral_fuel]; [exact Hacc|].
  assert (Hd : digits_only (String (digit_char (n mod 10)) acc) = true).
  { cbn [digits_only]. rewrite Hacc, digit_char_digit; [reflexivity|].
    pose proof (Z.mod_pos_bound n 10); lia. }
  destruct (n <? 10); [exact Hd|].
  apply IH; [apply Z.div_pos; lia | exact Hd].
Qed.

(** The numeral of a positive integer starts with a digit other
    than zero. *)
Lemma numeral_fuel_head f : forall n acc,
  1 <= n < 2 ^ Z.of_nat f ->
  exists c r, numeral_fuel f n acc = String c r /\ mem c "0" = false
              /\ is_digit c = true.
Proof.
  induction f as [|f IH]; intros n acc Hn.
  - simpl in Hn. lia.
  - cbn [numeral_fuel]. destruct (n <? 10) eqn:E.
    + apply Z.ltb_lt in E. rewrite Z.mod_small by lia.
      eexists _, _; split; [reflexivity|].
      split; [apply digit_char_nonzero | apply digit_char_digit]; lia.
    + apply Z.ltb_ge in E. apply IH.
      rewrite Nat2Z.inj_succ, Z.pow_succ_r in Hn by lia.
      split.
      * apply Z.div_le_lower_bound; lia.
      * apply Z.div_lt_upper_bound; lia.
Qed.

Lemma numeral_fuel_value f : forall n acc,
  0 <= n < 2 ^ Z.of_nat f -> (0 < f)%nat ->
  int_digits_from 0 (numeral_fuel f n acc) = int_digits_from n acc.
Proof.
  induction f as [|f IH]; intros n acc Hn Hf; [lia|].
  cbn [numeral_fuel]. destruct (n <? 10) eqn:E.
  - apply Z.ltb_lt in E. rewrite Z.mod_small by lia.
    cbn [int_digits_from]. rewrite digit_char_val by lia. reflexivity.
  - apply Z.ltb_ge in E.
    rewrite Nat2Z.inj_succ, Z.pow_succ_r in Hn by lia.
    assert (Hq : 1 <= n / 10 < 2 ^ Z.of_nat f).
    { split; [apply Z.div_le_lower_bound | apply Z.div_lt_upper_bound]; lia. }
    destruct f as [|f']; [simpl in Hq; lia|].
    rewrite IH by lia.
    cbn [int_digits_from].
    rewrite digit_char_val by (pose proof (Z.mod_pos_bound n 10); lia).
    f_equal. pose proof (Z.div_mod n 10). lia.
Qed.

Lemma numeral_bound n : 1 <= n -> 1 <= n < 2 ^ Z.of_nat (S (Z.to_nat (Z.log2 n))).
Proof.
  intros Hn. split; [exact Hn|].
  rewrite Nat2Z.inj_succ, Z2Nat.id by apply Z.log2_nonneg.
  apply Z.log2_spec. lia.
Qed.

Lemma numeral_digits n : 1 <= n -> digits_only (numeral n) = true.
Proof. intros Hn. apply numeral_fuel_digits; [lia | reflexivity]. Qed.

Lemma numeral_head n :
  1 <= n ->
  exists c r, numeral n = String c r /\ mem c "0" = false /\ is_digit c = true.
Proof. intros Hn. apply numeral_fuel_head. now apply numeral_bound. Qed.

Lemma int_digits_numeral n : 1 <= n -> int_digits (numeral n) = Some n.
Proof.
  intros Hn.
  assert (E : int_digits (numeral n) = int_digits_from 0 (numeral n)).
  { destruct (numeral_head n Hn) as (c & r & -> & _ & Hc).
    unfold int_digits, is_digit in *. simpl.
    destruct (digit_val c); [reflexivity | discriminate]. }
  rewrite E. unfold numeral. rewrite numeral_fuel_value.
  - reflexivity.
  - pose proof (numeral_bound n Hn); lia.
  - lia.
Qed.

(** A non-empty string of digits ends with a digit. *)
Lemma digits_only_last s :
  digits_only s = true -> s <> EmptyString ->
  exists u c, s = u ++ String c EmptyString /\ is_digit c = true.
Proof.
  induction s as [|a s IH]; intros Hs Hne; [congruence|].
  simpl in Hs. apply andb_prop in Hs as [Ha Hs].
  destruct s as [|b s'].
  - exists EmptyString, a. split; [reflexivity | exact Ha].
  - destruct IH as (u & c & E & Hc); [exact Hs | discriminate |].
    exists (String a u), c. split; [simpl; now rewrite <- E | exact Hc].
Qed.

Lemma lstrip_zeros k s c r :
  s = String c r -> mem c "0" = false -> lstrip "0" (zeros k ++ s) = s.
Proof.
  intros -> Hc. induction k as [|k IH]; cbn [zeros append lstrip].
  - now rewrite Hc.
  - replace (mem "0" "0") with true by reflexivity. exact IH.
Qed.

(** [int] reads the numeral of a positive integer back. *)
Lemma int_numeral n : 1 <= n -> int (numeral n) = Ok n.
Proof.
  intros Hn. unfold int.
  assert (Hs : strip_ws (numeral n) = numeral n).
  { unfold strip_ws.
    destruct (digits_only_last (numeral n)) as (u & c & E & Hc).
    - now apply numeral_digits.
    - destruct (numeral_head n Hn) as (? & ? & -> & _). discriminate.
    - rewrite E at 1.
      rewrite rstrip_keep by (try apply digit_not_ws; auto; simpl; discriminate).
      rewrite <- E.
      destruct (numeral_head n Hn) as (c0 & r0 & E0 & _ & Hc0).
      rewrite E0. cbn [lstrip]. now rewrite (digit_not_ws _ Hc0). }
  rewrite Hs.
  destruct (numeral_head n Hn) as (c0 & r0 & E0 & _ & Hc0).
  assert (Hb : (let '(neg, body) :=
                  match numeral n with
                  | String "-" r => (true, r)
                  | String "+" r => (false, r)
                  | _ => (false, numeral n)
                  end in
                match int_digits body with
                | Some v => Ok (if neg then - v else v)
                | None => Err ValueError
                end) = Ok n); [|exact Hb].
  rewrite E0. digit_case c0 Hc0; rewrite <- E0, int_digits_numeral by exact Hn;
    reflexivity.
Qed.

End PyStrFacts.

(** The index of the [n]-th frame is read back from its name. *)
Lemma frame_index_frame_filename video_filename n :
  1 <= n ->
  Video.frame_index video_filename (frame_filename video_filename n) = Ok n.
Proof.
  intros Hn. unfold Video.frame_index, frame_filename, PyStr.zero_padded.
  set (k := (Video.ZERO_PADDING - String.length (PyStr.numeral n))%nat).
  set (body := PyStr.zeros k ++ PyStr.numeral n).
  assert (Hbody : digits_only body = true).
  { unfold body. rewrite PyStrFacts.digits_only_app, PyStrFacts.digits_only_zeros.
    now apply PyStrFacts.numeral_digits. }
  destruct (PyStrFacts.numeral_head n Hn) as (c0 & r0 & E0 & Hz & Hc0).
  assert (Hne : body <> EmptyString).
  { unfold body. rewrite E0. destruct (PyStr.zeros k); discriminate. }
  destruct (PyStrFacts.digits_only_last body Hbody Hne) as (u & c & E & Hc).
  assert (Hr : PyStr.rstrip ".jpg" (video_filename ++ "_" ++ body ++ ".jpg")
               = (video_filename ++ "_") ++ body).
  { rewrite E.
    replace (video_filename ++ "_" ++ (u ++ String c "") ++ ".jpg")
      with ((video_filename ++ "_" ++ u) ++ String c ".jpg").
    2:{ rewrite ?PyStrFacts.append_assoc; cbn [append];
        rewrite ?PyStrFacts.append_assoc; reflexivity. }
    rewrite PyStrFacts.rstrip_keep.
    - rewrite ?PyStrFacts.append_assoc; cbn [append];
        rewrite ?PyStrFacts.append_assoc; reflexivity.
    - now apply PyStrFacts.digit_not_jpg.
    - intros x Hx. exact Hx. }
  rewrite Hr, PyStrFacts.replace_prefix by exact Hbody.
  unfold body. rewrite (PyStrFacts.lstrip_zeros k _ c0 r0 E0 Hz).
  now apply PyStrFacts.int_numeral.
Qed.

(* ===================================================================== *)
(** ** The timestamp of a frame *)

(** The timestamp of the [n]-th frame, from its name: the index is read
    back and the arithmetic is that of [timestamp_at]. *)
Lemma timestamp_from_filename_frame
    (video_filename : string) (n : Z) (start_time : PyTime.datetime)
    (interval adjustment : PyFloat.float) :
  1 <= n ->
  Video.timestamp_from_filename video_filename
    (frame_filename video_filename n) start_time interval adjustment
  = timestamp_at start_time interval adjustment (n - 1).
Proof.
  intros Hn. unfold Video.timestamp_from_filename, timestamp_at.
  rewrite frame_index_frame_filename by exact Hn. reflexivity.
Qed.



(* ===================================================================== *)
(** ** The start time of a video, from the probe *)

Section Probe.
Import Video.
Variable w : world.
Variable video_file : string.

Ltac run := cbv beta iota delta [Video.bind Video.lift Video.ret
              Video.try_except Video.raise Video.FFProbe Video.print].

(** What [get_video_end_time] makes of the first stream of the probe. *)
Lemma get_video_end_time_run (s : state) (v0 : stream) (rest : list stream) :
  isfile w video_file = true ->
  probe_video w video_file = v0 :: rest ->
  get_video_end_time w video_file s
  = (Ok match strptime_attr (creation_time v0) TIME_FORMAT with
        | Ok t => Some t
        | Err _ =>
            match strptime_attr (creation_time v0) TIME_FORMAT_2 with
            | Ok t => Some t
            | Err _ => None
            end
        end, s).
Proof.
  intros Hf Hp. unfold get_video_end_time. rewrite Hf. cbn [negb]. run.
  rewrite Hf. run. rewrite Hp. run.
  destruct (strptime_attr (creation_time v0) TIME_FORMAT); [reflexivity|].
  destruct (strptime_attr (creation_time v0) TIME_FORMAT_2); reflexivity.
Qed.

(** C4.  The creation-time string of the probe is parsed against
    [YYYY-MM-DD HH:MM:SS] first and, only when that fails, against
    [YYYY-MM-DDTHH:MM:SS.000000Z]; the first parse that succeeds is
    returned; when neither does, or when the probe has no creation-time
    string, the function returns [None]. *)
Theorem get_video_end_time_formats (s : state) (v0 : stream) (rest : list stream) :
  isfile w video_file = true ->
  probe_video w video_file = v0 :: rest ->
  TIME_FORMAT = "%Y-%m-%d %H:%M:%S"
  /\ TIME_FORMAT_2 = "%Y-%m-%dT%H:%M:%S.000000Z"
  /\ get_video_end_time w video_file s
     = (Ok match creation_time v0 with
           | Some time_string =>
               match PyTime.strptime time_string TIME_FORMAT with
               | Ok t => Some t
               | Err _ =>
                   match PyTime.strptime time_string TIME_FORMAT_2 with
                   | Ok t => Some t
                   | Err _ => None
                   end
               end
           | None => None
           end, s).
Proof.
  intros Hf Hp. split; [reflexivity|]. split; [reflexivity|].
  rewrite (get_video_end_time_run s v0 rest Hf Hp).
  destruct (creation_time v0); reflexivity.
Qed.

Lemma get_video_duration_run (s : state) (v0 : stream) (rest : list stream) (d : float) :
  isfile w video_file = true ->
  probe_video w video_file = v0 :: rest ->
  float_of_attr (duration v0) = Ok d ->
  get_video_duration w video_file s = (Ok (Some d), s).
Proof.
  intros Hf Hp Hd. unfold get_video_duration. run. rewrite Hf. run.
  rewrite Hp, Hd. reflexivity.
Qed.

(** C3.  When the probe yields a creation-time string that one of the
    two formats parses and a duration that [float] parses,
    [get_video_start_time] returns the creation time minus the duration
    in seconds (in the arithmetic of [timedelta] and [datetime]). *)
Theorem get_video_start_time_probe
    (s : state) (v0 : stream) (rest : list stream)
    (time_string duration_string : string)
    (creation : PyTime.datetime) (d : float) :
  isfile w video_file = true ->
  probe_video w video_file = v0 :: rest ->
  creation_time v0 = Some time_string ->
  duration v0 = Some duration_string ->
  (PyTime.strptime time_string TIME_FORMAT = Ok creation
   \/ (is_ok (PyTime.strptime time_string TIME_FORMAT) = false
       /\ PyTime.strptime time_string TIME_FORMAT_2 = Ok creation)) ->
  PyFloat.of_string duration_string = Ok d ->
  get_video_start_time w video_file s
  = (rbind (rbind (PyTime.timedelta_of_seconds d) (fun delta =>
            PyTime.sub creation delta)) (fun t => Ok (Some t)), s).
Proof.
  intros Hf Hp Hc Hd Hparse Hfloat.
  unfold get_video_start_time. rewrite Hf. cbn [negb]. unfold Video.bind at 1.
  rewrite (get_video_end_time_run s v0 rest Hf Hp).
  unfold Video.bind at 1.
  rewrite (get_video_duration_run s v0 rest d Hf Hp)
    by (rewrite Hd; exact Hfloat).
  assert (E : match strptime_attr (creation_time v0) TIME_FORMAT with
              | Ok t => Some t
              | Err _ =>
                  match strptime_attr (creation_time v0) TIME_FORMAT_2 with
                  | Ok t => Some t
                  | Err _ => None
                  end
              end = Some creation).
  { rewrite Hc. cbn [strptime_attr].
    destruct Hparse as [-> | [H1 ->]]; [reflexivity|].
    destruct (PyTime.strptime time_string TIME_FORMAT); [discriminate H1 | reflexivity]. }
  rewrite E. run.
  destruct (PyTime.timedelta_of_seconds d) as [delta|e]; cbn [rbind]; [|reflexivity].
  destruct (PyTime.sub creation delta); reflexivity.
Qed.

End Probe.

Lemma get_video_end_time_formats_witness :
  Video.get_video_end_time
    (probe_world (Some "60.0") (Some "2020-01-01T00:10:00.000000Z"))
    "video.mp4" Video.init
  = (Ok (Some (at_time 2020 1 1 0 10 0)), Video.init)
  /\ Video.get_video_end_time
       (probe_world (Some "60.0") (Some "2020-01-01 00:10:00"))
       "video.mp4" Video.init
     = (Ok (Some (at_time 2020 1 1 0 10 0)), Video.init)
  /\ Video.get_video_end_time
       (probe_world (Some "60.0") (Some "1 Jan 2020"))
       "video.mp4" Video.init
     = (Ok None, Video.init)
  /\ Video.get_video_end_time
       (probe_world (Some "60.0") None) "video.mp4" Video.init
     = (Ok None, Video.init).
Proof.
  split; [|split; [|split]].
  - exact (proj2 (proj2 (get_video_end_time_formats
             (probe_world (Some "60.0") (Some "2020-01-01T00:10:00.000000Z"))
             "video.mp4" Video.init _ [] eq_refl eq_refl))).
  - exact (proj2 (proj2 (get_video_end_time_formats
             (probe_world (Some "60.0") (Some "2020-01-01 00:10:00"))
             "video.mp4" Video.init _ [] eq_refl eq_refl))).
  - exact (proj2 (proj2 (get_video_end_time_formats
             (probe_world (Some "60.0") (Some "1 Jan 2020"))
             "video.mp4" Video.init _ [] eq_refl eq_refl))).
  - exact (proj2 (proj2 (get_video_end_time_formats
             (probe_world (Some "60.0") None)
             "video.mp4" Video.init _ [] eq_refl eq_refl))).
Defined.

Lemma get_video_start_time_probe_witness :
  Video.get_video_start_time
    (probe_world (Some "60.0") (Some "2020-01-01T00:10:00.000000Z"))
    "video.mp4" Video.init
  = (Ok (Some (at_time 2020 1 1 0 9 0)), Video.init).
Proof.
  exact (get_video_start_time_probe
           (probe_world (Some "60.0") (Some "2020-01-01T00:10:00.000000Z"))
           "video.mp4" Video.init _ [] "2020-01-01T00:10:00.000000Z" "60.0"
           (at_time 2020 1 1 0 10 0) (S754_finite false 8444249301319680 (-47))
           eq_refl eq_refl eq_refl eq_refl
           (or_intror (conj eq_refl eq_refl)) eq_refl).
Defined.

(* ===================================================================== *)
(** ** The start time [extract_frames] settles on *)

Section StartTime.
Import Video.
Variable w : world.
Variable video_file import_path : string.
Variable interval ratio : float.
Variable verbose : bool.

Ltac run := cbv beta iota delta [Video.bind Video.lift Video.ret
              Video.try_except Video.raise Video.FFProbe Video.print
              Video.subprocess_call].

Lemma extract_frames_run (video_start_time : option Z) (s : state) :
  extract_frames w video_file import_path interval video_start_time ratio verbose s
  = match resolve_start_time w video_file video_start_time
            (sampled video_file import_path interval verbose s) with
    | (Ok t, s') =>
        insert_video_frame_timestamp w (stem (PyStr.basename video_file))
          import_path t interval ratio verbose s'
    | (Err e, s') => (Err e, s')
    end.
Proof.
  unfold extract_frames, sampled, printed. destruct verbose; run; reflexivity.
Qed.

(** Each cause makes the probe-based resolution return [None], without
    raising. *)
Lemma get_video_start_time_none (s : state) :
  no_probe_result w video_file ->
  exists s', get_video_start_time w video_file s = (Ok None, s').
Proof.
  intros H. unfold get_video_start_time.
  destruct (isfile w video_file) eqn:Hf; cbn [negb].
  2:{ run. eauto. }
  destruct H as [H | [H | (v0 & rest & Hp & H)]]; [congruence | |].
  - unfold Video.bind at 1. unfold get_video_end_time. rewrite Hf. cbn [negb].
    run. rewrite Hf. run. rewrite H. run.
    unfold get_video_duration. run. rewrite Hf. run. rewrite H. run. eauto.
  - unfold Video.bind at 1.
    rewrite (get_video_end_time_run w video_file s v0 rest Hf Hp).
    unfold Video.bind at 1. unfold get_video_duration. run. rewrite Hf. run.
    rewrite Hp.
    destruct (float_of_attr (duration v0)) eqn:Hd.
    + destruct H as [H | [H1 H2]]; [discriminate H|].
      destruct (strptime_attr (creation_time v0) TIME_FORMAT); [discriminate H1|].
      destruct (strptime_attr (creation_time v0) TIME_FORMAT_2); [discriminate H2|].
      eauto.
    + destruct (match strptime_attr (creation_time v0) TIME_FORMAT with
                | Ok t => Some t
                | Err _ =>
                    match strptime_attr (creation_time v0) TIME_FORMAT_2 with
                    | Ok t => Some t
                    | Err _ => None
                    end
                end); eauto.
Qed.

(** C7.  When no start time is supplied and the probe-based resolution
    yields no result (for any of the causes above), the start time is
    the UNIX epoch, the warning is printed, and [extract_frames] goes on
    to stamp the frames with that start time. *)
Theorem extract_frames_defaults_to_epoch (s : state) :
  no_probe_result w video_file ->
  exists s',
    get_video_start_time w video_file
      (sampled video_file import_path interval verbose s) = (Ok None, s')
    /\ resolve_start_time w video_file None
         (sampled video_file import_path interval verbose s)
       = (Ok PyTime.unix_epoch, printed MsgStartTimeDefaulted s')
    /\ PyTime.make 1970 1 1 0 0 0 0 = Ok PyTime.unix_epoch
    /\ extract_frames w video_file import_path interval None ratio verbose s
       = insert_video_frame_timestamp w (stem (PyStr.basename video_file))
           import_path PyTime.unix_epoch interval ratio verbose
           (printed MsgStartTimeDefaulted s').
Proof.
  intros H.
  destruct (get_video_start_time_none
              (sampled video_file import_path interval verbose s) H) as [s' Hs].
  exists s'. split; [exact Hs|].
  assert (Hr : resolve_start_time w video_file None
                 (sampled video_file import_path interval verbose s)
               = (Ok PyTime.unix_epoch, printed MsgStartTimeDefaulted s')).
  { unfold resolve_start_time. unfold Video.bind at 1. rewrite Hs.
    reflexivity. }
  split; [exact Hr|]. split; [reflexivity|].
  rewrite extract_frames_run, Hr. reflexivity.
Qed.

(** An explicit start time other than zero is converted and used; the
    probe is not consulted. *)
Lemma resolve_start_time_explicit (ms : Z) (s : state) :
  ms <> 0 ->
  resolve_start_time w video_file (Some ms) s
  = (rbind (PyFloat.of_int ms) (fun x =>
     rbind (PyFloat.div x PyFloat.f1000_0) PyTime.utcfromtimestamp), s).
Proof.
  intros H. unfold resolve_start_time.
  destruct (ms =? 0) eqn:E; [apply Z.eqb_eq in E; congruence|].
  reflexivity.
Qed.

(** An explicit start time of zero is handled as no start time at
    all. *)
Lemma resolve_start_time_zero (s : state) :
  resolve_start_time w video_file (Some 0) s
  = resolve_start_time w video_file None s.
Proof. reflexivity. Qed.

End StartTime.

Lemma extract_frames_defaults_to_epoch_witness :
  exists s',
    Video.get_video_start_time empty_world "video.mp4"
      (sampled "video.mp4" "out" PyFloat.f2_0 false Video.init) = (Ok None, s')
    /\ Video.resolve_start_time empty_world "video.mp4" None
         (sampled "video.mp4" "out" PyFloat.f2_0 false Video.init)
       = (Ok PyTime.unix_epoch, printed Video.MsgStartTimeDefaulted s')
    /\ PyTime.make 1970 1 1 0 0 0 0 = Ok PyTime.unix_epoch
    /\ Video.extract_frames empty_world "video.mp4" "out" PyFloat.f2_0 None
         PyFloat.f1_0 false Video.init
       = Video.insert_video_frame_timestamp empty_world "video" "out"
           PyTime.unix_epoch PyFloat.f2_0 PyFloat.f1_0 false
           (printed Video.MsgStartTimeDefaulted s').
Proof.
  exact (extract_frames_defaults_to_epoch empty_world "video.mp4" "out"
           PyFloat.f2_0 PyFloat.f1_0 false Video.init (or_introl eq_refl)).
Defined.

(** C8, at an explicit start time of 0 ms: [extract_frames] consults the
    probe and stamps the first frame with the start time it gives,
    2020-01-01T00:09:00, not with the epoch; an explicit start time of 1 ms
    is used as it is. *)
Theorem extract_frames_explicit_zero_consults_probe :
  Video.stamped
    (snd (Video.extract_frames probe_frame_world "video.mp4" "out"
            PyFloat.f2_0 (Some 0) PyFloat.f1_0 false Video.init))
  = [("out/video_000001.jpg", at_time 2020 1 1 0 9 0)]
  /\ at_time 2020 1 1 0 9 0 <> PyTime.unix_epoch
  /\ Video.extract_frames probe_frame_world "video.mp4" "out"
       PyFloat.f2_0 (Some 0) PyFloat.f1_0 false Video.init
     = Video.extract_frames probe_frame_world "video.mp4" "out"
         PyFloat.f2_0 None PyFloat.f1_0 false Video.init
  /\ Video.stamped
       (snd (Video.extract_frames probe_frame_world "video.mp4" "out"
               PyFloat.f2_0 (Some 1) PyFloat.f1_0 false Video.init))
     = [("out/video_000001.jpg", PyTime.unix_epoch + 1000)].
Proof.
  split; [vm_compute; reflexivity|]. split; [discriminate|].
  split; reflexivity.
Qed.

(* ===================================================================== *)
(** ** Stamping the frames *)

Section Stamping.
Import Video.
Variable w : world.

Lemma stamp_frames_run (pairs : list (string * PyTime.datetime)) : forall s,
  stamp_frames w pairs s
  = (Ok tt, mkState (log s ++ write_failures w pairs) (calls s)
                    (writer_calls s ++ pairs) (stamped s ++ written w pairs)).
Proof.
  induction pairs as [|[image t] rest IH]; intros s.
  - unfold write_failures, written. cbn. rewrite !app_nil_r.
    destruct s; reflexivity.
  - cbn [stamp_frames]. unfold Video.bind, Video.try_except, exif_stamp, print.
    unfold write_failures, written in *. cbn [filter fst snd map].
    destruct (exif_write_ok w image t); cbn [negb]; rewrite IH; cbn;
      rewrite <- ?app_assoc; reflexivity.
Qed.

Lemma timestamps_from_filename_length vf frames start i r : forall ts,
  timestamps_from_filename vf frames start i r = Ok ts ->
  List.length ts = List.length frames.
Proof.
  induction frames as [|f frames IH]; intros ts H; cbn in H.
  - injection H as <-. reflexivity.
  - destruct (timestamp_from_filename vf (PyStr.basename f) start i r);
      cbn in H; [|discriminate].
    destruct (timestamps_from_filename vf frames start i r);
      cbn in H; [|discriminate].
    injection H as <-. cbn. f_equal. now apply IH.
Qed.

Lemma map_fst_combine {A B} (l : list A) : forall (l' : list B),
  List.length l' = List.length l -> map fst (combine l l') = l.
Proof.
  induction l as [|a l IH]; intros [|b l'] H; cbn in *; try discriminate;
    [reflexivity|]. f_equal. apply IH. now injection H.
Qed.

(** C9.  Given a non-empty frame list whose timestamps are derived, the
    writer is invoked on every frame of the list, in order, whatever
    frames it fails on; the frames it succeeds on are stamped, the others
    are reported, and the function returns normally. *)
Theorem insert_video_frame_timestamp_tolerates_write_failures
    (vf path : string) (start : PyTime.datetime) (i r : float)
    (verbose : bool) (s : state) (ts : list PyTime.datetime) :
  total_file_list w path <> [] ->
  timestamps_from_filename vf (total_file_list w path) start i r = Ok ts ->
  let pairs := combine (total_file_list w path) ts in
  exists s',
    insert_video_frame_timestamp w vf path start i r verbose s = (Ok tt, s')
    /\ writer_calls s' = (writer_calls s ++ pairs)%list
    /\ map fst pairs = total_file_list w path
    /\ stamped s' = (stamped s ++ written w pairs)%list
    /\ log s' = (log s ++ write_failures w pairs)%list.
Proof.
  intros Hne Hts pairs. unfold insert_video_frame_timestamp.
  destruct (total_file_list w path) as [|f frames] eqn:E; [congruence|].
  unfold Video.bind, Video.lift. rewrite Hts. fold pairs.
  rewrite stamp_frames_run. eexists. split; [reflexivity|].
  cbn [writer_calls stamped log].
  split; [reflexivity|]. split; [|split; reflexivity].
  apply map_fst_combine.
  now apply timestamps_from_filename_length in Hts.
Qed.

Lemma timestamps_from_filename_fails vf frames start i r :
  Exists (fun image => frame_index vf (PyStr.basename image) = Err ValueError) frames ->
  exists e, timestamps_from_filename vf frames start i r = Err e.
Proof.
  induction 1 as [f frames H | f frames H IH]; cbn.
  - unfold timestamp_from_filename. rewrite H. cbn. eauto.
  - destruct (timestamp_from_filename vf (PyStr.basename f) start i r);
      cbn; [|eauto].
    destruct IH as [e ->]. cbn. eauto.
Qed.

(** C10.  The timestamps of the whole frame list are derived before the
    writer is invoked on any frame: when the name of some frame of the
    list does not give an index, [insert_video_frame_timestamp] raises
    and leaves the state as it found it: no frame has been written, the
    writer has not been invoked. *)
Theorem insert_video_frame_timestamp_aborts_before_writing
    (vf path : string) (start : PyTime.datetime) (i r : float)
    (verbose : bool) (s : state) :
  Exists (fun image => frame_index vf (PyStr.basename image) = Err ValueError)
         (total_file_list w path) ->
  exists e,
    insert_video_frame_timestamp w vf path start i r verbose s = (Err e, s)
    /\ timestamps_from_filename vf (total_file_list w path) start i r = Err e.
Proof.
  intros H. unfold insert_video_frame_timestamp.
  destruct (timestamps_from_filename_fails vf _ start i r H) as [e He].
  exists e. split; [|exact He].
  destruct (total_file_list w path) as [|f frames] eqn:E.
  - inversion H.
  - unfold Video.bind, Video.lift. rewrite He. reflexivity.
Qed.

End Stamping.

Lemma insert_video_frame_timestamp_tolerates_write_failures_witness :
  exists s',
    Video.insert_video_frame_timestamp third_fails_world "video" "out"
      (at_time 2020 1 1 0 0 0) PyFloat.f2_0 PyFloat.f1_0 false Video.init
    = (Ok tt, s')
    /\ map fst (Video.writer_calls s') = five_frames
    /\ Video.stamped s'
       = [("out/video_000001.jpg", at_time 2020 1 1 0 0 0);
          ("out/video_000002.jpg", at_time 2020 1 1 0 0 2);
          ("out/video_000004.jpg", at_time 2020 1 1 0 0 6);
          ("out/video_000005.jpg", at_time 2020 1 1 0 0 8)]
    /\ Video.log s' = [Video.MsgCouldNotInsert "video_000003"].
Proof.
  destruct (insert_video_frame_timestamp_tolerates_write_failures
              third_fails_world "video" "out" (at_time 2020 1 1 0 0 0)
              PyFloat.f2_0 PyFloat.f1_0 false Video.init
              [at_time 2020 1 1 0 0 0; at_time 2020 1 1 0 0 2;
               at_time 2020 1 1 0 0 4; at_time 2020 1 1 0 0 6;
               at_time 2020 1 1 0 0 8])
    as (s' & H & Hc & Hf & Hs & Hl).
  - discriminate.
  - reflexivity.
  - exists s'. split; [exact H|]. split; [|split].
    + rewrite Hc. exact Hf.
    + rewrite Hs. reflexivity.
    + rewrite Hl. reflexivity.
Defined.

Lemma insert_video_frame_timestamp_aborts_before_writing_witness :
  exists e,
    Video.insert_video_frame_timestamp bad_name_world "video" "out"
      (at_time 2020 1 1 0 0 0) PyFloat.f2_0 PyFloat.f1_0 false Video.init
    = (Err e, Video.init)
    /\ Video.timestamps_from_filename "video"
         (Video.total_file_list bad_name_world "out")
         (at_time 2020 1 1 0 0 0) PyFloat.f2_0 PyFloat.f1_0 = Err e.
Proof.
  apply (insert_video_frame_timestamp_aborts_before_writing
           bad_name_world "video" "out" (at_time 2020 1 1 0 0 0)
           PyFloat.f2_0 PyFloat.f1_0 false Video.init).
  apply Exists_cons_tl, Exists_cons_hd. reflexivity.
Defined.

(* ===================================================================== *)
(** ** The start time from the container *)

(** *** Reading and parsing encoded boxes *)

Section Container.
Import PyFile.
Local Open Scope list_scope.
Variable w : Video.world.

Lemma byte_val_of v : 0 <= v < 256 -> byte_val (byte_of v) = v.
Proof.
  intros H. unfold byte_val, byte_of.
  rewrite N_ascii_embedding by lia. lia.
Qed.

Lemma unpack_pack n : 0 <= n < 4294967296 -> unpack_be32 (pack_be32 n) = Ok n.
Proof.
  intros H. unfold pack_be32, unpack_be32.
  rewrite !byte_val_of by (apply Z.mod_pos_bound; lia).
  f_equal.
  assert (E : n / 16777216 mod 256 = n / 16777216).
  { apply Z.mod_small. split; [apply Z.div_pos; lia|].
    apply Z.div_lt_upper_bound; lia. }
  rewrite E.
  pose proof (Z.div_mod n 256 ltac:(lia)).
  pose proof (Z.div_mod (n / 256) 256 ltac:(lia)).
  pose proof (Z.div_mod (n / 256 / 256) 256 ltac:(lia)).
  rewrite !Z.div_div in * by lia.
  change (256 * 256) with 65536 in *. change (65536 * 256) with 16777216 in *.
  lia.
Qed.

(** Reading behind a prefix. *)
Lemma read_app (x p : bytes) (q : Z) (n : nat) :
  0 <= q ->
  read (x ++ p) (Z.of_nat (List.length x) + q) n
  = (fst (read p q n), Z.of_nat (List.length x) + snd (read p q n)).
Proof.
  intros Hq. unfold read. cbn [fst snd].
  replace (Z.to_nat (Z.of_nat (List.length x) + q))
    with (List.length x + Z.to_nat q)%nat by lia.
  rewrite skipn_app.
  replace (List.length x + Z.to_nat q - List.length x)%nat with (Z.to_nat q) by lia.
  rewrite (@skipn_all2 _ _ x) by lia. cbn [app].
  rewrite Z.add_assoc. reflexivity.
Qed.

Lemma read_here (p : bytes) (n : nat) (r : bytes) :
  List.length p = n -> read (p ++ r) 0 n = (p, Z.of_nat n).
Proof.
  intros <-. unfold read. cbn [Z.to_nat skipn].
  rewrite firstn_app, Nat.sub_diag, firstn_all. cbn [firstn].
  rewrite app_nil_r. reflexivity.
Qed.

(** A complete box that the library takes is parsed, and the stream
    then stands where the library stopped reading its payload. *)
Lemma parse_box_encoded (a r : bytes) (b : bytes * bytes) (n : nat) :
  box_ok b ->
  Video.box_structure w (fst b) (snd b) = Some n ->
  parse_box (Video.box_structure w) (a ++ encode_box b ++ r)
    (Z.of_nat (List.length a))
  = Ok (mkBox (Z.of_nat (List.length a)) (fst b)
              (Z.of_nat (List.length a) + 8
               + Z.of_nat (Nat.min n (List.length (snd b))))).
Proof.
  destruct b as [ty p]. intros (Hty & _ & Hsz) Hs. cbn [fst snd] in *.
  unfold parse_box, encode_box. cbn [fst snd].
  set (size := 8 + Z.of_nat (List.length p)) in *.
  replace (Z.of_nat (List.length a)) with (Z.of_nat (List.length a) + 0) at 1 by lia.
  rewrite read_app by lia.
  rewrite <- !app_assoc. rewrite read_here by reflexivity. cbn [fst snd].
  rewrite unpack_pack by lia.
  destruct (size <? 8) eqn:E; [apply Z.ltb_lt in E; lia|].
  rewrite read_app by lia. cbn [fst snd].
  change (pack_be32 size ++ ty ++ p ++ r)%list
    with (pack_be32 size ++ (ty ++ p ++ r))%list.
  replace (Z.of_nat 4) with (Z.of_nat (List.length (pack_be32 size)) + 0) by reflexivity.
  rewrite read_app by lia.
  replace (Z.to_nat (size - 4)) with (List.length (ty ++ p)) by
    (rewrite length_app; lia).
  rewrite (app_assoc ty p r), read_here by reflexivity. cbn [fst snd].
  destruct (Z.of_nat (List.length (ty ++ p)) <? size - 4) eqn:E2.
  { apply Z.ltb_lt in E2. rewrite length_app in E2. lia. }
  assert (F : firstn 4 (ty ++ p) = ty).
  { rewrite firstn_app, <- Hty, firstn_all, Nat.sub_diag. cbn [firstn].
    now rewrite app_nil_r. }
  assert (S : skipn 4 (ty ++ p) = p).
  { rewrite skipn_app, <- Hty, skipn_all, Nat.sub_diag. reflexivity. }
  cbv zeta. rewrite F, S, Hs. f_equal. f_equal.
  cbn [List.length pack_be32]. lia.
Qed.

(** The loop passes the boxes that the library takes and that are not
    [moov]. *)
Lemma scan_boxes_skip (pre : list (bytes * bytes)) : forall (a r : bytes) (fuel : nat),
  Forall (accepted w) pre -> Forall not_moov pre ->
  Video.scan_boxes w (List.length pre + fuel) (a ++ encode_boxes pre ++ r)
    (Z.of_nat (List.length a))
  = Video.scan_boxes w fuel (a ++ encode_boxes pre ++ r)
      (Z.of_nat (List.length (a ++ encode_boxes pre))).
Proof.
  induction pre as [|b pre IH]; intros a r fuel Hok Hnm.
  - cbn. rewrite app_nil_r. reflexivity.
  - inversion Hok as [|? ? [Hb Hs] Hok']; subst.
    inversion Hnm as [|? ? Hn Hnm']; subst.
    cbn [List.length Nat.add Video.scan_boxes].
    unfold encode_boxes. cbn [map List.concat]. fold (encode_boxes pre).
    rewrite <- (app_assoc (encode_box b)).
    assert (Hlt : (Z.of_nat (List.length a)
                   <? Z.of_nat (List.length (a ++ encode_box b ++ encode_boxes pre ++ r)))
                  = true).
    { apply Z.ltb_lt. rewrite !length_app. unfold encode_box at 1.
      rewrite length_app. cbn [List.length pack_be32]. lia. }
    rewrite Hlt, (parse_box_encoded a _ b _ Hb Hs).
    cbn [box_type box_end box_offset].
    destruct Hb as (Hty & Hutf & Hsz). unfold decode_utf8. rewrite Hutf.
    rewrite Hn. rewrite Nat.min_id.
    replace (Z.of_nat (List.length a) + 8 + Z.of_nat (List.length (snd b)))
      with (Z.of_nat (List.length (a ++ encode_box b))).
    2:{ rewrite length_app. unfold encode_box. rewrite !length_app.
        cbn [List.length pack_be32]. lia. }
    rewrite (app_assoc a (encode_box b)).
    rewrite IH by assumption. rewrite <- !app_assoc. reflexivity.
Qed.

Lemma encode_boxes_length (pre : list (bytes * bytes)) :
  (List.length pre <= List.length (encode_boxes pre))%nat.
Proof.
  unfold encode_boxes.
  induction pre as [|b pre IH]; cbn [map List.concat List.length]; [lia|].
  rewrite length_app. unfold encode_box at 1. rewrite length_app.
  cbn [List.length pack_be32]. lia.
Qed.

(** The reads of the movie header, behind a prefix. *)
Lemma read_movie_header_app (x p : bytes) :
  Video.read_movie_header (x ++ p) (Z.of_nat (List.length x) - 8)
  = Video.read_movie_header p (- 8).
Proof.
  unfold Video.read_movie_header.
  replace (Z.of_nat (List.length x) - 8 + 8) with (Z.of_nat (List.length x) + 0) by lia.
  change (-8 + 8) with 0.
  rewrite read_app by lia.
  destruct (read p 0 4) as [b1 p1] eqn:E1. cbn [fst snd].
  assert (H1 : 0 <= p1) by (unfold read in E1; inversion E1; lia).
  destruct (unpack_be32 b1); cbn [rbind]; [|reflexivity].
  rewrite read_app by lia.
  destruct (read p p1 4) as [b2 p2] eqn:E2. cbn [fst snd].
  assert (H2 : 0 <= p2) by (unfold read in E2; inversion E2; lia).
  replace (Z.of_nat (List.length x) + p2 + 4)
    with (Z.of_nat (List.length x) + (p2 + 4)) by lia.
  rewrite read_app by lia.
  destruct (read p (p2 + 4) 4) as [b3 p3] eqn:E3. cbn [fst snd].
  assert (H3 : 0 <= p3) by (unfold read in E3; inversion E3; lia).
  destruct (unpack_be32 b3); cbn [rbind]; [|reflexivity].
  rewrite read_app by lia.
  destruct (read p p3 4) as [b4 p4] eqn:E4. cbn [fst snd].
  assert (H4 : 0 <= p4) by (unfold read in E4; inversion E4; lia).
  destruct (unpack_be32 b4); cbn [rbind]; [|reflexivity].
  rewrite read_app by lia.
  destruct (read p p4 4) as [b5 p5] eqn:E5. cbn [fst snd].
  assert (H5 : 0 <= p5) by (unfold read in E5; inversion E5; lia).
  destruct (unpack_be32 b5); cbn [rbind]; [|reflexivity].
  rewrite read_app by lia.
  destruct (read p p5 4) as [b6 p6] eqn:E6. cbn [fst snd].
  reflexivity.
Qed.

End Container.

Section Scanner.
Import PyFile.
Local Open Scope list_scope.
Variable w : Video.world.

(** *** Termination of the loop *)

Lemma unpack_be32_length (b : bytes) (n : Z) :
  unpack_be32 b = Ok n -> List.length b = 4%nat.
Proof.
  destruct b as [|? [|? [|? [|? [|? ?]]]]]; cbn; intros H;
    try discriminate H; reflexivity.
Qed.

Lemma unpack_be32_short (b : bytes) :
  List.length b <> 4%nat -> unpack_be32 b = Err StructError.
Proof.
  destruct b as [|? [|? [|? [|? [|? ?]]]]]; cbn; intros H;
    try reflexivity; congruence.
Qed.

Lemma parse_box_advances (data : bytes) (pos : Z) (b : box) :
  parse_box (Video.box_structure w) data pos = Ok b -> pos + 8 <= box_end b.
Proof.
  unfold parse_box, read.
  set (hd := firstn 4 (skipn (Z.to_nat pos) data)).
  destruct (unpack_be32 hd) as [size|] eqn:E; [|discriminate].
  apply unpack_be32_length in E.
  destruct (size <? 8) eqn:E8; [discriminate|]. apply Z.ltb_ge in E8.
  set (body := firstn (Z.to_nat (size - 4)) _).
  destruct (Z.of_nat (List.length body) <? size - 4) eqn:Eb; [discriminate|].
  cbv zeta.
  destruct (Video.box_structure w (firstn 4 body) (skipn 4 body)) as [n|];
    [|discriminate].
  intros H. injection H as <-. cbn [box_end]. lia.
Qed.

Lemma scan_boxes_total (data : bytes) : forall (fuel : nat) (pos : Z),
  (0 < fuel)%nat ->
  Z.of_nat (List.length data) - pos < Z.of_nat fuel ->
  Video.scan_boxes w fuel data pos <> None.
Proof.
  induction fuel as [|fuel IH]; intros pos H0 H; [lia|].
  cbn [Video.scan_boxes].
  destruct (pos <? Z.of_nat (List.length data)) eqn:E; [|discriminate].
  apply Z.ltb_lt in E.
  destruct (parse_box (Video.box_structure w) data pos) as [b|] eqn:P;
    [|discriminate].
  destruct (decode_utf8 (box_type b)); [|discriminate].
  destruct (String.eqb s "moov"); [discriminate|].
  apply parse_box_advances in P. apply IH; lia.
Qed.

(** The function returns or raises: the iterations it is given are
    enough. *)
Lemma get_video_start_time_blackvue_total (video_file : string) :
  Video.get_video_start_time_blackvue w video_file <> None.
Proof.
  unfold Video.get_video_start_time_blackvue.
  destruct (Video.file_bytes w video_file); [|discriminate].
  apply scan_boxes_total; lia.
Qed.

(** *** The movie header *)

Lemma start_time_in_range (c d : Z) :
  0 <= c < 4294967296 -> 0 <= d < 4294967296 ->
  rbind (PyTime.timedelta_of_milliseconds (c * 1000 - d))
        (PyTime.add PyTime.epoch_1904)
  = Ok (PyTime.epoch_1904 + (c * 1000 - d) * 1000).
Proof.
  intros Hc Hd.
  unfold PyTime.timedelta_of_milliseconds, PyTime.check_delta.
  change PyTime.us_per_day with 86400000000.
  assert (H : -999999999 <= (c * 1000 - d) * 1000 / 86400000000 <= 999999999).
  { split; [apply Z.div_le_lower_bound | apply Z.div_le_upper_bound]; lia. }
  destruct H as [H1 H2]. apply Z.leb_le in H1, H2. rewrite H1, H2.
  cbn [andb rbind]. unfold PyTime.add, PyTime.in_range.
  change PyTime.epoch_1904 with 60052752000000000.
  change (PyTime.max_ordinal * PyTime.us_per_day) with 315537897600000000.
  assert (H3 : (0 <=? 60052752000000000 + (c * 1000 - d) * 1000) = true)
    by (apply Z.leb_le; lia).
  assert (H4 : (60052752000000000 + (c * 1000 - d) * 1000 <? 315537897600000000) = true)
    by (apply Z.ltb_lt; lia).
  rewrite H3, H4. reflexivity.
Qed.

(** The fields the function reads, by their place after the box
    header: 12 bytes are passed over (the size read, the type read,
    4 bytes skipped), then come the creation time, the modification
    time, the time scale and the duration. *)
Lemma read_movie_header_fields
    (h0 h1 h2 h3 h4 h5 h6 h7 h8 h9 h10 h11 : ascii) (c0 c1 c2 c3 : ascii)
    (m0 m1 m2 m3 m4 m5 m6 m7 : ascii) (d0 d1 d2 d3 : ascii) (rest : bytes) :
  Video.read_movie_header
    (h0 :: h1 :: h2 :: h3 :: h4 :: h5 :: h6 :: h7 :: h8 :: h9 :: h10 :: h11
     :: c0 :: c1 :: c2 :: c3 :: m0 :: m1 :: m2 :: m3 :: m4 :: m5 :: m6 :: m7
     :: d0 :: d1 :: d2 :: d3 :: rest) (- 8)
  = rbind (unpack_be32 [c0; c1; c2; c3]) (fun c =>
    rbind (unpack_be32 [d0; d1; d2; d3]) (fun d =>
    rbind (PyTime.timedelta_of_milliseconds (c * 1000 - d))
          (PyTime.add PyTime.epoch_1904))).
Proof. reflexivity. Qed.


End Scanner.

Section Blackvue.
Import PyFile.
Local Open Scope list_scope.
Variable w : Video.world.
Variable video_file : string.

(** The scan of a file that starts with boxes other than [moov] that
    the library takes: what is left to do at the end of these boxes. *)
Lemma blackvue_after (pre : list (bytes * bytes)) (r : bytes) :
  Forall (accepted w) pre -> Forall not_moov pre ->
  Video.file_bytes w video_file = Some (encode_boxes pre ++ r) ->
  exists fuel,
    Video.get_video_start_time_blackvue w video_file
    = Video.scan_boxes w (S fuel) (encode_boxes pre ++ r)
        (Z.of_nat (List.length (encode_boxes pre))).
Proof.
  intros Hok Hnm Hf. unfold Video.get_video_start_time_blackvue. rewrite Hf.
  pose proof (encode_boxes_length pre) as Hl.
  exists (List.length (encode_boxes pre ++ r) - List.length pre)%nat.
  replace (S (List.length (encode_boxes pre ++ r)))
    with (List.length pre
          + S (List.length (encode_boxes pre ++ r) - List.length pre))%nat
    by (rewrite length_app; lia).
  exact (scan_boxes_skip w pre [] r _ Hok Hnm).
Qed.

(** At a [moov] box that the library takes, the scan ends with the
    reads of the movie header, in what follows the header of the box. *)
Lemma blackvue_at_moov
    (pre : list (bytes * bytes)) (payload trailing : bytes) (n : nat) :
  Forall (accepted w) pre -> Forall not_moov pre ->
  box_ok (tag "moov", payload) ->
  Video.box_structure w (tag "moov") payload = Some n ->
  Video.file_bytes w video_file
  = Some (encode_boxes pre ++ encode_box (tag "moov", payload) ++ trailing) ->
  Video.get_video_start_time_blackvue w video_file
  = Some (rbind (Video.read_movie_header (payload ++ trailing) (- 8))
            (fun t => Ok (Some t))).
Proof.
  intros Hok Hnm Hbox Hs Hf.
  destruct (blackvue_after pre _ Hok Hnm Hf) as [fuel ->].
  cbn [Video.scan_boxes].
  assert (Hlt : (Z.of_nat (List.length (encode_boxes pre))
                 <? Z.of_nat (List.length
                      (encode_boxes pre ++ encode_box (tag "moov", payload) ++ trailing)))
                = true).
  { apply Z.ltb_lt. rewrite !length_app. unfold encode_box at 1.
    rewrite length_app. cbn [List.length pack_be32]. lia. }
  rewrite Hlt, (parse_box_encoded w _ _ (tag "moov", payload) n Hbox Hs).
  cbn [box_type box_offset fst].
  change (decode_utf8 (tag "moov")) with (Ok (A:=string) "moov").
  change (String.eqb "moov" "moov") with true. cbv iota.
  assert (E : encode_boxes pre ++ encode_box (tag "moov", payload) ++ trailing
              = (encode_boxes pre ++ pack_be32 (8 + Z.of_nat (List.length payload))
                 ++ tag "moov") ++ payload ++ trailing).
  { unfold encode_box. cbn [fst snd]. rewrite <- !app_assoc. reflexivity. }
  rewrite E.
  replace (Z.of_nat (List.length (encode_boxes pre)))
    with (Z.of_nat (List.length
            (encode_boxes pre ++ pack_be32 (8 + Z.of_nat (List.length payload))
             ++ tag "moov")) - 8)
    by (rewrite !length_app; cbn [List.length pack_be32 tag list_ascii_of_string]; lia).
  rewrite read_movie_header_app. reflexivity.
Qed.

(** The reads of the movie header, on the fields of a header. *)
Lemma read_movie_header_values (hdr mid tail : bytes) (c d : Z) :
  List.length hdr = 12%nat -> List.length mid = 8%nat ->
  0 <= c < 4294967296 -> 0 <= d < 4294967296 ->
  Video.read_movie_header (hdr ++ pack_be32 c ++ mid ++ pack_be32 d ++ tail) (- 8)
  = Ok (PyTime.epoch_1904 + (c * 1000 - d) * 1000).
Proof.
  intros Hh Hm Hc Hd.
  do 12 (destruct hdr as [|? hdr]; [discriminate Hh|]).
  destruct hdr; [|discriminate Hh].
  do 8 (destruct mid as [|? mid]; [discriminate Hm|]).
  destruct mid; [|discriminate Hm].
  unfold pack_be32 at 1 2. cbn [app].
  rewrite read_movie_header_fields.
  fold (pack_be32 c). fold (pack_be32 d).
  rewrite !unpack_pack by assumption. cbn [rbind].
  now apply start_time_in_range.
Qed.



End Blackvue.




(* ===================================================================== *)
(** * Float arithmetic is monotone

    The timestamps of successive frames are compared through the values
    of the floats involved; this part relates the operations of
    [SpecFloat] to roundings of integers. *)

(** ** Rounding to nearest, ties to even, of a quotient by a power of 2 *)

Module RoundFacts.
Import PyFloat.

Lemma pow2_pos k : 0 < 2 ^ k \/ (k < 0 /\ 2 ^ k = 0).
Proof.
  destruct (Z.le_gt_cases 0 k) as [H | H].
  - left. now apply Z.pow_pos_nonneg.
  - right. split; [exact H | now apply Z.pow_neg_r].
Qed.

Lemma compare_mul_r a b p : 0 < p -> (a * p ?= b * p) = (a ?= b).
Proof.
  intros Hp. destruct (Z.compare_spec a b) as [-> | H | H].
  - apply Z.compare_refl.
  - apply Z.compare_lt_iff. nia.
  - apply Z.compare_gt_iff. nia.
Qed.

Lemma rne_div_bounds m k :
  0 < k -> m / 2 ^ k <= rne_div m k <= m / 2 ^ k + 1.
Proof.
  intros Hk. unfold rne_div.
  destruct (k <=? 0) eqn:E; [apply Z.leb_le in E; lia|].
  destruct (2 * (m mod 2 ^ k) ?= 2 ^ k); [destruct (Z.even _)| |]; lia.
Qed.

Lemma rne_div_mono m1 m2 k :
  m1 <= m2 -> rne_div m1 k <= rne_div m2 k.
Proof.
  intros H. destruct (Z.le_gt_cases k 0) as [Hk | Hk].
  - unfold rne_div. apply Z.leb_le in Hk. rewrite Hk.
    apply Z.mul_le_mono_nonneg_r; [apply Z.pow_nonneg; lia | exact H].
  - assert (Hp : 0 < 2 ^ k) by (apply Z.pow_pos_nonneg; lia).
    assert (Hq : m1 / 2 ^ k <= m2 / 2 ^ k) by (apply Z.div_le_mono; lia).
    destruct (Z.eq_dec (m1 / 2 ^ k) (m2 / 2 ^ k)) as [Eq | Ne].
    + assert (Hr : m1 mod 2 ^ k <= m2 mod 2 ^ k).
      { pose proof (Z.div_mod m1 (2 ^ k)). pose proof (Z.div_mod m2 (2 ^ k)).
        rewrite Eq in *. lia. }
      unfold rne_div.
      destruct (k <=? 0) eqn:E; [apply Z.leb_le in E; lia|].
      rewrite Eq.
      destruct (2 * (m1 mod 2 ^ k) ?= 2 ^ k) eqn:C1;
        destruct (2 * (m2 mod 2 ^ k) ?= 2 ^ k) eqn:C2;
        try (apply Z.compare_eq in C1); try (apply Z.compare_eq in C2);
        rewrite ?Z.compare_lt_iff, ?Z.compare_gt_iff in *;
        destruct (Z.even (m2 / 2 ^ k)); lia.
    + pose proof (rne_div_bounds m1 k Hk). pose proof (rne_div_bounds m2 k Hk). lia.
Qed.

Lemma rne_div_exact q k : 0 < k -> rne_div (q * 2 ^ k) k = q.
Proof.
  intros Hk. assert (Hp : 0 < 2 ^ k) by (apply Z.pow_pos_nonneg; lia).
  unfold rne_div. destruct (k <=? 0) eqn:E; [apply Z.leb_le in E; lia|].
  rewrite Z.mod_mul, Z.div_mul by lia.
  destruct (2 * 0 ?= 2 ^ k) eqn:C.
  - apply Z.compare_eq in C. lia.
  - reflexivity.
  - rewrite Z.compare_gt_iff in C. lia.
Qed.

Lemma rne_div_scale m k j :
  0 <= j -> rne_div (m * 2 ^ j) (k + j) = rne_div m k.
Proof.
  intros Hj. assert (Hpj : 0 < 2 ^ j) by (apply Z.pow_pos_nonneg; lia).
  destruct (Z.le_gt_cases k 0) as [Hk | Hk].
  - assert (E : rne_div m k = m * 2 ^ (- k)).
    { unfold rne_div. apply Z.leb_le in Hk. now rewrite Hk. }
    rewrite E. destruct (Z.le_gt_cases (k + j) 0) as [Hkj | Hkj].
    + unfold rne_div. apply Z.leb_le in Hkj. rewrite Hkj.
      apply Z.leb_le in Hkj.
      rewrite <- Z.mul_assoc, <- Z.pow_add_r by lia. f_equal. f_equal. lia.
    + replace (m * 2 ^ j) with (m * 2 ^ (- k) * 2 ^ (k + j)).
      * now apply rne_div_exact.
      * rewrite <- Z.mul_assoc, <- Z.pow_add_r by lia. f_equal. f_equal. lia.
  - assert (Hpk : 0 < 2 ^ k) by (apply Z.pow_pos_nonneg; lia).
    unfold rne_div.
    destruct (k <=? 0) eqn:E; [apply Z.leb_le in E; lia|].
    destruct (k + j <=? 0) eqn:E2; [apply Z.leb_le in E2; lia|].
    rewrite Z.pow_add_r by lia.
    rewrite Z.div_mul_cancel_r by lia.
    rewrite Z.mul_mod_distr_r by lia.
    replace (2 * (m mod 2 ^ k * 2 ^ j)) with (2 * (m mod 2 ^ k) * 2 ^ j) by ring.
    rewrite compare_mul_r by lia. reflexivity.
Qed.

End RoundFacts.

(** ** The right shifts of [SpecFloat] *)

Module ShiftFacts.
Import PyFloat.

Lemma iter_pos_nat {A} (f : A -> A) (p : positive) : forall x,
  iter_pos f p x = Nat.iter (Pos.to_nat p) f x.
Proof.
  induction p as [p IH | p IH |]; intros x; cbn [iter_pos].
  - rewrite !IH, Pos2Nat.inj_xI, Nat.iter_succ_r.
    replace (2 * Pos.to_nat p)%nat with (Pos.to_nat p + Pos.to_nat p)%nat by lia.
    now rewrite Nat.iter_add.
  - rewrite !IH, Pos2Nat.inj_xO.
    replace (2 * Pos.to_nat p)%nat with (Pos.to_nat p + Pos.to_nat p)%nat by lia.
    now rewrite Nat.iter_add.
  - reflexivity.
Qed.

Lemma shr_1_nonneg m r s :
  0 <= m ->
  shr_1 (Build_shr_record m r s) = Build_shr_record (m / 2) (Z.odd m) (r || s).
Proof.
  intros Hm. destruct m as [|p|p]; [reflexivity | | lia].
  destruct p as [p|p|]; cbn [shr_1].
  - f_equal. rewrite Pos2Z.inj_xI. apply Z.div_unique with 1; lia.
  - f_equal. rewrite Pos2Z.inj_xO. apply Z.div_unique with 0; lia.
  - reflexivity.
Qed.

(** One more bit than [n] shifted out: the quotient, the last bit shifted
    out and whether any bit before it was set. *)
Lemma shr_iter m (n : nat) :
  0 <= m ->
  Nat.iter (S n) shr_1 (Build_shr_record m false false)
  = Build_shr_record (m / 2 ^ (Z.of_nat n + 1))
      (Z.odd (m / 2 ^ Z.of_nat n))
      (negb (m mod 2 ^ Z.of_nat n =? 0)).
Proof.
  intros Hm. induction n as [|n IH].
  - cbn [Nat.iter]. rewrite shr_1_nonneg by exact Hm.
    cbn [Z.of_nat Z.add]. rewrite Z.pow_0_r, Z.pow_1_r, Z.div_1_r, Z.mod_1_r.
    reflexivity.
  - rewrite Nat.iter_succ, IH.
    assert (Hp : 0 < 2 ^ Z.of_nat n) by (apply Z.pow_pos_nonneg; lia).
    rewrite shr_1_nonneg by (apply Z.div_pos; [lia | apply Z.pow_pos_nonneg; lia]).
    rewrite Nat2Z.inj_succ. unfold Z.succ.
    f_equal.
    + rewrite Z.div_div by (try apply Z.pow_pos_nonneg; lia).
      f_equal. rewrite (Z.pow_add_r 2 (Z.of_nat n + 1) 1) by lia. reflexivity.
    + rewrite (Z.pow_add_r 2 (Z.of_nat n) 1), Z.pow_1_r by lia.
      rewrite Z.rem_mul_r by lia.
      rewrite <- Z.negb_even, Zeven_mod.
      set (b := (m / 2 ^ Z.of_nat n) mod 2).
      set (r := m mod 2 ^ Z.of_nat n).
      assert (0 <= b < 2) by (apply Z.mod_pos_bound; lia).
      assert (0 <= r < 2 ^ Z.of_nat n) by (apply Z.mod_pos_bound; lia).
      destruct (Z.eqb_spec b 0), (Z.eqb_spec r 0), (Z.eqb_spec (r + 2 ^ Z.of_nat n * b) 0);
        cbn; try reflexivity; nia.
Qed.

Lemma shr_m_iter (n : nat) : forall m r s,
  0 <= m ->
  shr_m (Nat.iter n shr_1 (Build_shr_record m r s)) = m / 2 ^ Z.of_nat n.
Proof.
  induction n as [|n IH]; intros m r s Hm.
  - cbn. now rewrite Z.div_1_r.
  - rewrite Nat.iter_succ_r, shr_1_nonneg by exact Hm.
    rewrite IH by (apply Z.div_pos; lia).
    rewrite Z.div_div by (try apply Z.pow_pos_nonneg; lia).
    f_equal. rewrite Nat2Z.inj_succ, Z.pow_succ_r by lia. reflexivity.
Qed.

(** Shifting by [k > 0] and rounding to nearest even is [rne_div]. *)
Lemma shr_round m k :
  0 <= m -> 0 < k ->
  round_nearest_even
    (shr_m (fst (shr (Build_shr_record m false false) 0 k)))
    (loc_of_shr_record (fst (shr (Build_shr_record m false false) 0 k)))
  = rne_div m k.
Proof.
  intros Hm Hk. destruct k as [|p|p]; try lia. cbn [shr fst].
  rewrite iter_pos_nat.
  destruct (Pos2Nat.is_succ p) as [n Hn]. rewrite Hn.
  assert (Ep : Z.pos p = Z.of_nat n + 1) by lia.
  rewrite shr_iter by exact Hm.
  cbn [shr_m]. rewrite Ep.
  assert (Hp : 0 < 2 ^ Z.of_nat n) by (apply Z.pow_pos_nonneg; lia).
  unfold rne_div.
  destruct (Z.of_nat n + 1 <=? 0) eqn:E; [apply Z.leb_le in E; lia|].
  rewrite (Z.pow_add_r 2 (Z.of_nat n) 1), Z.pow_1_r by lia.
  rewrite Z.rem_mul_r by lia.
  rewrite <- Z.negb_even, Zeven_mod.
  set (b := (m / 2 ^ Z.of_nat n) mod 2).
  set (r := m mod 2 ^ Z.of_nat n).
  set (q := m / (2 ^ Z.of_nat n * 2)).
  assert (0 <= b < 2) by (apply Z.mod_pos_bound; lia).
  assert (0 <= r < 2 ^ Z.of_nat n) by (apply Z.mod_pos_bound; lia).
  destruct (Z.eqb_spec b 0) as [Eb | Eb].
  - assert (C : (2 * (r + 2 ^ Z.of_nat n * b) ?= 2 ^ Z.of_nat n * 2) = Lt)
      by (apply Z.compare_lt_iff; nia).
    rewrite C. cbn [negb]. destruct (negb (r =? 0)); reflexivity.
  - assert (b = 1) by lia. cbn [negb].
    destruct (Z.eqb_spec r 0) as [Er | Er]; cbn [negb loc_of_shr_record round_nearest_even].
    + assert (C : (2 * (r + 2 ^ Z.of_nat n * b) ?= 2 ^ Z.of_nat n * 2) = Eq)
        by (apply Z.compare_eq_iff; nia).
      rewrite C. reflexivity.
    + assert (C : (2 * (r + 2 ^ Z.of_nat n * b) ?= 2 ^ Z.of_nat n * 2) = Gt)
        by (apply Z.compare_gt_iff; nia).
      rewrite C. reflexivity.
Qed.

End ShiftFacts.

(** ** The value of a rounded float *)

Module ValueFacts.
Import PyFloat RoundFacts ShiftFacts.

Lemma fexp_eq x : fexp prec emax x = Z.max (x - 53) (-1074).
Proof. reflexivity. Qed.

Lemma digits2_size p : digits2_pos p = Pos.size p.
Proof. induction p; cbn; congruence. Qed.

Lemma digits2_log2 p : Z.pos (digits2_pos p) = Z.log2 (Z.pos p) + 1.
Proof.
  rewrite digits2_size. destruct p; cbn [Z.log2 Pos.size]; lia.
Qed.

Lemma cexp_pos v : 0 < cexp v.
Proof. unfold cexp. lia. Qed.

Lemma cexp_scaled m e :
  0 < m -> 0 <= e + scale ->
  fexp prec emax (Z.log2 m + 1 + e) + scale = cexp (m * 2 ^ (e + scale)).
Proof.
  intros Hm He. rewrite fexp_eq. unfold cexp, prec.
  rewrite Z.log2_mul_pow2 by lia. unfold scale in *. lia.
Qed.

(** [shr], by cases on the shift. *)
Lemma shr_cases mrs e n :
  shr mrs e n
  = (fst (shr mrs 0 n), if 0 <? n then e + n else e).
Proof. destruct n; reflexivity. Qed.

Lemma shr_m_shr m r s n :
  0 <= m ->
  shr_m (fst (shr (Build_shr_record m r s) 0 n))
  = if 0 <? n then m / 2 ^ n else m.
Proof.
  intros Hm. destruct n as [|p|p]; try reflexivity.
  cbn [shr fst]. rewrite iter_pos_nat, shr_m_iter by exact Hm.
  rewrite positive_nat_Z. reflexivity.
Qed.

(** The two steps of [binary_round_aux] on the scaled value. *)
Lemma round_ne_step m e :
  0 < m -> 0 <= e + scale ->
  let v := m * 2 ^ (e + scale) in
  let n := cexp v - (e + scale) in
  (if 0 <? n then rne_div m n else m)
  * 2 ^ ((if 0 <? n then e + n else e) + scale) = round_ne v.
Proof.
  intros Hm He v n. unfold round_ne.
  pose proof (cexp_pos v) as Hc.
  destruct (0 <? n) eqn:E.
  - apply Z.ltb_lt in E. replace (e + n + scale) with (cexp v) by lia.
    f_equal. unfold v at 1.
    replace (cexp v) with (n + (e + scale)) by lia.
    now rewrite rne_div_scale.
  - apply Z.ltb_ge in E.
    assert (Ev : v = m * 2 ^ (- n) * 2 ^ cexp v).
    { unfold v at 1. rewrite <- Z.mul_assoc, <- Z.pow_add_r by lia.
      f_equal. f_equal. lia. }
    rewrite Ev at 1. rewrite rne_div_exact by exact Hc. exact Ev.
Qed.

Lemma round_dn_step m e :
  0 <= m -> 0 <= e + scale ->
  let v := m * 2 ^ (e + scale) in
  let n := cexp v - (e + scale) in
  (if 0 <? n then m / 2 ^ n else m)
  * 2 ^ ((if 0 <? n then e + n else e) + scale) = round_dn v.
Proof.
  intros Hm He v n. unfold round_dn.
  pose proof (cexp_pos v) as Hc.
  assert (Hp : 0 < 2 ^ (e + scale)) by (apply Z.pow_pos_nonneg; lia).
  destruct (0 <? n) eqn:E.
  - apply Z.ltb_lt in E. replace (e + n + scale) with (cexp v) by lia.
    f_equal. unfold v at 1.
    replace (cexp v) with (n + (e + scale)) by lia.
    rewrite (Z.pow_add_r 2 n (e + scale)) by lia.
    rewrite Z.div_mul_cancel_r by (try apply Z.pow_nonzero; lia). reflexivity.
  - apply Z.ltb_ge in E.
    assert (Ev : v = m * 2 ^ (- n) * 2 ^ cexp v).
    { unfold v at 1. rewrite <- Z.mul_assoc, <- Z.pow_add_r by lia.
      f_equal. f_equal. lia. }
    rewrite Ev at 1. rewrite Z.div_mul by (apply Z.pow_nonzero; lia).
    exact Ev.
Qed.

(** What [binary_round_aux] returns on an exact positive mantissa: a float
    of the sign given, whose value is the rounding of the value given; the
    result is infinite only when the exponent is too large. *)
Lemma binary_round_aux_value s m e :
  - scale <= e ->
  let v := Z.pos m * 2 ^ (e + scale) in
  let emax' := Z.max e (Z.max (cexp v) (cexp (round_ne v)) - scale) in
  match binary_round_aux prec emax s (Z.pos m) e loc_Exact with
  | S754_zero s' => s' = s /\ rounded v = 0
  | S754_finite s' m' e' =>
      s' = s /\ Z.pos m' * 2 ^ (e' + scale) = rounded v
      /\ -1074 <= e' <= emax'
  | S754_infinity s' => s' = s /\ emax - prec < emax'
  | S754_nan => False
  end.
Proof.
  intros He v emax'. unfold binary_round_aux, shr_fexp.
  cbn [Zdigits2]. rewrite digits2_log2.
  rewrite shr_cases.
  set (n1 := fexp prec emax (Z.log2 (Z.pos m) + 1 + e) - e).
  assert (En1 : n1 = cexp v - (e + scale)).
  { unfold n1, v. rewrite <- cexp_scaled by lia. lia. }
  set (m1 := round_nearest_even _ _).
  set (e1 := if 0 <? n1 then e + n1 else e).
  assert (Em1 : m1 = if 0 <? n1 then rne_div (Z.pos m) n1 else Z.pos m).
  { unfold m1. destruct (0 <? n1) eqn:E.
    - apply Z.ltb_lt in E. apply shr_round; lia.
    - apply Z.ltb_ge in E. destruct n1; try lia; reflexivity. }
  assert (Hm1 : 0 <= m1).
  { rewrite Em1. destruct (0 <? n1) eqn:E; [|lia].
    apply Z.ltb_lt in E. pose proof (rne_div_bounds (Z.pos m) n1 E).
    assert (0 <= Z.pos m / 2 ^ n1) by (apply Z.div_pos; [lia | apply Z.pow_pos_nonneg; lia]).
    lia. }
  assert (He1 : -1074 <= e1 /\ 0 <= e1 + scale /\ e1 <= Z.max e (cexp v - scale)).
  { unfold e1.
    destruct (0 <? n1) eqn:E; [apply Z.ltb_lt in E | apply Z.ltb_ge in E];
      rewrite En1 in E; unfold n1 in *; rewrite fexp_eq in *; unfold scale in *; lia. }
  assert (Hv1 : m1 * 2 ^ (e1 + scale) = round_ne v).
  { rewrite Em1. unfold e1. rewrite En1. apply (round_ne_step (Z.pos m) e); lia. }
  rewrite shr_cases.
  set (n2 := fexp prec emax (Zdigits2 m1 + e1) - e1).
  set (m2 := shr_m _).
  set (e2 := if 0 <? n2 then e1 + n2 else e1).
  assert (Em2 : m2 = if 0 <? n2 then m1 / 2 ^ n2 else m1).
  { unfold m2. destruct m1 as [|p1|p1]; try lia; cbn [loc_of_shr_record shr_record_of_loc];
      apply shr_m_shr; lia. }
  assert (Hm2 : 0 <= m2).
  { rewrite Em2. destruct (0 <? n2) eqn:E; [|exact Hm1].
    apply Z.ltb_lt in E. apply Z.div_pos; [lia | apply Z.pow_pos_nonneg; lia]. }
  destruct (Z.eq_dec m1 0) as [Z1 | NZ1].
  - assert (Z2 : m2 = 0).
    { rewrite Em2, Z1. destruct (0 <? n2); [apply Zdiv_0_l | reflexivity]. }
    rewrite Z2. split; [reflexivity|].
    unfold rounded. rewrite <- Hv1, Z1. cbn [Z.mul]. unfold round_dn.
    now rewrite Zdiv_0_l.
  - assert (En2 : n2 = cexp (round_ne v) - (e1 + scale)).
    { rewrite <- Hv1. unfold n2. rewrite <- cexp_scaled by lia.
      destruct m1 as [|p1|p1]; try lia. cbn [Zdigits2].
      rewrite digits2_log2. lia. }
    assert (He2 : -1074 <= e2 <= emax').
    { unfold e2, emax'.
      destruct (0 <? n2) eqn:E; [apply Z.ltb_lt in E | apply Z.ltb_ge in E];
        rewrite En2 in E; unfold n2 in *; rewrite fexp_eq in *; lia. }
    assert (Hv2 : m2 * 2 ^ (e2 + scale) = rounded v).
    { unfold rounded. rewrite <- Hv1 in *. rewrite Em2. unfold e2. rewrite En2.
      apply (round_dn_step m1 e1); lia. }
    destruct m2 as [|p2|p2]; [| |lia].
    + split; [reflexivity|]. rewrite <- Hv2. reflexivity.
    + destruct (e2 <=? emax - prec) eqn:E.
      * split; [reflexivity|]. split; [exact Hv2 | exact He2].
      * apply Z.leb_gt in E. split; [reflexivity | lia].
Qed.

End ValueFacts.

(** ** Rounding is monotone *)

Section RoundingAtScale.
Import PyFloat RoundFacts ValueFacts.

(** A rounding at a given exponent: monotone, and the identity on the
    multiples of the unit. *)
Variable rnd : Z -> Z -> Z.
Hypothesis rnd_mono : forall c v1 v2, v1 <= v2 -> rnd v1 c <= rnd v2 c.
Hypothesis rnd_fix : forall c q, 0 < c -> rnd (q * 2 ^ c) c = q * 2 ^ c.

Lemma rnd_fix_pow c d : 0 < c <= d -> rnd (2 ^ d) c = 2 ^ d.
Proof.
  intros H. replace (2 ^ d) with (2 ^ (d - c) * 2 ^ c).
  - apply rnd_fix. lia.
  - rewrite <- Z.pow_add_r by lia. f_equal. lia.
Qed.

Lemma cexp_mono v1 v2 : v1 <= v2 -> cexp v1 <= cexp v2.
Proof.
  intros H. unfold cexp. pose proof (Z.log2_le_mono v1 v2 H). lia.
Qed.

Lemma rnd_cexp_mono v1 v2 :
  0 <= v1 <= v2 -> rnd v1 (cexp v1) <= rnd v2 (cexp v2).
Proof.
  intros [H0 H]. pose proof (cexp_mono v1 v2 H) as Hc.
  destruct (Z.eq_dec (cexp v1) (cexp v2)) as [E | NE].
  - rewrite E. now apply rnd_mono.
  - assert (Hlt : cexp v1 < cexp v2) by lia.
    pose proof (cexp_pos v1) as Hc1.
    assert (Hd2 : cexp v2 = Z.log2 v2 - 52) by (unfold cexp, prec in *; lia).
    assert (Hv2 : 0 < v2).
    { destruct (Z.le_gt_cases v2 0) as [Hn | Hp]; [|exact Hp].
      rewrite (Z.log2_nonpos v2 Hn) in Hd2. lia. }
    assert (Hl1 : Z.log2 v1 + 1 <= Z.log2 v2) by (unfold cexp, prec in *; lia).
    set (b := Z.max (Z.log2 v1 + 1) (cexp v1)).
    assert (Hb1 : v1 <= 2 ^ b).
    { destruct (Z.eq_dec v1 0) as [-> | NZ].
      - apply Z.pow_nonneg. lia.
      - destruct (Z.log2_spec v1) as [_ Hs]; [lia|].
        apply Z.le_trans with (2 ^ (Z.log2 v1 + 1)); [unfold Z.succ in Hs; lia|].
        apply Z.pow_le_mono_r; lia. }
    assert (Hb2 : 2 ^ b <= 2 ^ Z.log2 v2) by (apply Z.pow_le_mono_r; lia).
    apply Z.le_trans with (rnd (2 ^ b) (cexp v1)); [now apply rnd_mono|].
    rewrite rnd_fix_pow by lia.
    apply Z.le_trans with (2 ^ Z.log2 v2); [exact Hb2|].
    rewrite <- (rnd_fix_pow (cexp v2) (Z.log2 v2)) by lia.
    apply rnd_mono. apply Z.log2_spec. exact Hv2.
Qed.

End RoundingAtScale.

Module MonoFacts.
Import PyFloat RoundFacts ValueFacts.

Lemma round_ne_mono v1 v2 : 0 <= v1 <= v2 -> round_ne v1 <= round_ne v2.
Proof.
  apply (rnd_cexp_mono (fun v c => rne_div v c * 2 ^ c)).
  - intros c a b H. apply Z.mul_le_mono_nonneg_r.
    + destruct (pow2_pos c) as [? | [_ ->]]; lia.
    + now apply rne_div_mono.
  - intros c q Hc. now rewrite rne_div_exact.
Qed.

Lemma round_dn_mono v1 v2 : 0 <= v1 <= v2 -> round_dn v1 <= round_dn v2.
Proof.
  apply (rnd_cexp_mono (fun v c => v / 2 ^ c * 2 ^ c)).
  - intros c a b H. destruct (pow2_pos c) as [Hp | [_ Hz]].
    + apply Z.mul_le_mono_nonneg_r; [lia | apply Z.div_le_mono; lia].
    + rewrite Hz. lia.
  - intros c q Hc. rewrite Z.div_mul; [reflexivity | apply Z.pow_nonzero; lia].
Qed.

Lemma round_ne_nonneg v : 0 <= v -> 0 <= round_ne v.
Proof.
  intros H. unfold round_ne. pose proof (cexp_pos v) as Hc.
  pose proof (rne_div_bounds v (cexp v) Hc).
  assert (0 < 2 ^ cexp v) by (apply Z.pow_pos_nonneg; lia).
  assert (0 <= v / 2 ^ cexp v) by (apply Z.div_pos; lia).
  apply Z.mul_nonneg_nonneg; lia.
Qed.

Lemma rounded_mono v1 v2 : 0 <= v1 <= v2 -> rounded v1 <= rounded v2.
Proof.
  intros H. unfold rounded. apply round_dn_mono. split.
  - apply round_ne_nonneg. lia.
  - now apply round_ne_mono.
Qed.

Lemma rounded_nonneg v : 0 <= v -> 0 <= rounded v.
Proof.
  intros H. unfold rounded, round_dn.
  pose proof (round_ne_nonneg v H). pose proof (cexp_pos (round_ne v)).
  assert (0 < 2 ^ cexp (round_ne v)) by (apply Z.pow_pos_nonneg; lia).
  apply Z.mul_nonneg_nonneg; [apply Z.div_pos|]; lia.
Qed.

(** A value that is a multiple of its unit is not changed. *)
Lemma rounded_exact v q : v = q * 2 ^ cexp v -> rounded v = v.
Proof.
  intros H. pose proof (cexp_pos v) as Hc.
  assert (E : round_ne v = v).
  { unfold round_ne. rewrite H at 1. rewrite rne_div_exact by exact Hc.
    now rewrite <- H. }
  unfold rounded. rewrite E. unfold round_dn. rewrite H at 1.
  rewrite Z.div_mul by (apply Z.pow_nonzero; lia). now rewrite <- H.
Qed.

End MonoFacts.

(** ** The operations on non-negative floats *)

Module FloatFacts.
Import PyFloat RoundFacts ShiftFacts ValueFacts MonoFacts.

Lemma units_nonneg x : 0 <= units x.
Proof.
  destruct x; cbn [units]; lia.
Qed.

Lemma pow_scale e : -1074 <= e -> 2 ^ (e + scale) = 2 ^ (e + 1074) * 2 ^ 1074.
Proof.
  intros H. rewrite <- Z.pow_add_r by lia. f_equal. unfold scale. lia.
Qed.

Lemma rounded_0 : rounded 0 = 0.
Proof. reflexivity. Qed.

(** [binary_round_aux] on a positive mantissa, for the sign plus. *)
Lemma round_pos_spec m e :
  - scale <= e ->
  let v := Z.pos m * 2 ^ (e + scale) in
  let r := binary_round_aux prec emax false (Z.pos m) e loc_Exact in
  (is_finite r = true ->
   nnf r /\ units r * 2 ^ 1074 = rounded v
   /\ expo r <= Z.max e (Z.max (cexp v) (cexp (round_ne v)) - scale))
  /\ (Z.max e (Z.max (cexp v) (cexp (round_ne v)) - scale) <= emax - prec ->
      is_finite r = true).
Proof.
  intros He v r. pose proof (binary_round_aux_value false m e He) as H.
  fold v in H. cbv zeta in H. fold r in H.
  destruct r as [s | s | | s m' e'].
  - destruct H as [-> H]. split; [|reflexivity]. intros _. cbn [nnf units expo].
    split; [exact I|]. split; [now rewrite H | unfold cexp, scale; lia].
  - destruct H as [-> H]. split; [discriminate | lia].
  - destruct H.
  - destruct H as (-> & Hv & He'). split; [|reflexivity]. intros _.
    cbn [nnf units expo].
    split; [lia|]. split; [|lia].
    rewrite <- Hv, pow_scale by lia. ring.
Qed.

(** A bound on the value bounds the exponent of its rounding. *)
Lemma cexp_bounds v b :
  0 <= v <= b -> round_ne b = b ->
  Z.max (cexp v) (cexp (round_ne v)) <= cexp b.
Proof.
  intros Hv Hb.
  assert (H1 : cexp v <= cexp b) by (apply cexp_mono; lia).
  assert (H2 : cexp (round_ne v) <= cexp b).
  { apply cexp_mono. rewrite <- Hb. now apply round_ne_mono. }
  lia.
Qed.

(** *** [shl_align] keeps the value *)

Lemma iter_xO m d : Z.pos (Pos.iter xO m d) = Z.pos m * 2 ^ Z.pos d.
Proof.
  rewrite <- Z.shiftl_mul_pow2 by lia. cbn [Z.shiftl].
  apply Pos.iter_swap_gen. intros a. reflexivity.
Qed.

Lemma shl_align_value m e e' j :
  let r := shl_align m e e' in
  snd r <= e /\ Z.min e e' <= snd r
  /\ (0 <= snd r + j -> Z.pos (fst r) * 2 ^ (snd r + j) = Z.pos m * 2 ^ (e + j)).
Proof.
  unfold shl_align. destruct (e' - e) as [|d|d] eqn:E; cbn [fst snd];
    try (split; [lia | split; [lia | reflexivity]]).
  split; [lia | split; [lia|]]. intros Hj.
  rewrite iter_xO, <- Z.mul_assoc, <- Z.pow_add_r by lia.
  f_equal. f_equal. lia.
Qed.

(** [binary_round], for the sign plus. *)
Lemma binary_round_spec m e :
  -1074 <= e ->
  let v := Z.pos m * 2 ^ (e + scale) in
  let r := binary_round prec emax false m e in
  (is_finite r = true ->
   nnf r /\ units r * 2 ^ 1074 = rounded v
   /\ expo r <= Z.max e (Z.max (cexp v) (cexp (round_ne v)) - scale))
  /\ (Z.max e (Z.max (cexp v) (cexp (round_ne v)) - scale) <= emax - prec ->
      is_finite r = true).
Proof.
  intros He v r. unfold r, binary_round.
  pose proof (shl_align_value m e (fexp prec emax (Z.pos (digits2_pos m) + e)) scale) as H.
  destruct (shl_align m e (fexp prec emax (Z.pos (digits2_pos m) + e))) as [mz ez].
  cbn [fst snd] in H. destruct H as (H1 & H2 & H3).
  rewrite fexp_eq in H2.
  assert (Hz : - scale <= ez) by (unfold scale; lia).
  pose proof (round_pos_spec mz ez Hz) as [Ha Hb]. cbv zeta in Ha, Hb.
  rewrite H3 in Ha, Hb by lia. fold v in Ha, Hb.
  split.
  - intros Hf. destruct (Ha Hf) as (Hn & Hu & Hx). split; [exact Hn|].
    split; [exact Hu | lia].
  - intros Hmax. apply Hb. lia.
Qed.

(** *** Conversion of a non-negative integer *)

Lemma of_int_spec k a :
  0 <= k -> of_int k = Ok a ->
  nnf a /\ units a * 2 ^ 1074 = rounded (k * 2 ^ scale).
Proof.
  intros Hk. unfold of_int, binary_normalize.
  destruct k as [|p|p]; [| |lia].
  - intros H. injection H as <-. split; [exact I | reflexivity].
  - pose proof (binary_round_spec p 0 ltac:(lia)) as [Ha _]. cbv zeta in Ha.
    destruct (is_finite (binary_round prec emax false p 0)) eqn:E;
      intros H; [|discriminate H]. injection H as <-.
    destruct (Ha eq_refl) as (Hn & Hu & _). split; assumption.
Qed.

(** *** Multiplication *)

Lemma mul_spec x y :
  nnf x -> nnf y ->
  let v := units x * units y in
  (is_finite (mul x y) = true ->
   nnf (mul x y) /\ units (mul x y) * 2 ^ 1074 = rounded v
   /\ expo (mul x y)
      <= Z.max (expo x + expo y) (Z.max (cexp v) (cexp (round_ne v)) - scale))
  /\ (Z.max (expo x + expo y) (Z.max (cexp v) (cexp (round_ne v)) - scale)
      <= emax - prec ->
      is_finite (mul x y) = true).
Proof.
  intros Hx Hy v.
  assert (Z0 : forall w e, rounded 0 = 0 * 2 ^ 1074
                           /\ -1074 <= Z.max e (Z.max (cexp 0) (cexp w) - scale)).
  { intros w e. split; [reflexivity | unfold cexp, scale; lia]. }
  destruct x as [[|] | | | [|] mx ex]; cbn [nnf] in Hx; try contradiction;
    destruct y as [[|] | | | [|] my ey]; cbn [nnf] in Hy; try contradiction;
    subst v.
  - cbn [units Z.mul mul SFmul xorb is_finite nnf expo].
    split; [intros _; split; [exact I | split; [symmetry; exact (proj1 (Z0 0 0))
                                                 | exact (proj2 (Z0 _ _))]]
           | reflexivity].
  - cbn [units Z.mul mul SFmul xorb is_finite nnf expo].
    split; [intros _; split; [exact I | split; [symmetry; exact (proj1 (Z0 0 0))
                                                 | exact (proj2 (Z0 _ _))]]
           | reflexivity].
  - cbn [units mul SFmul xorb is_finite nnf expo]. rewrite Z.mul_0_r.
    split; [intros _; split; [exact I | split; [symmetry; exact (proj1 (Z0 0 0))
                                                 | exact (proj2 (Z0 _ _))]]
           | reflexivity].
  - unfold mul, SFmul. cbn [xorb units expo].
    assert (He : - scale <= ex + ey) by (unfold scale; lia).
    pose proof (round_pos_spec (mx * my) (ex + ey) He) as H. cbv zeta in H.
    replace (Z.pos (mx * my) * 2 ^ (ex + ey + scale))
      with (Z.pos mx * 2 ^ (ex + 1074) * (Z.pos my * 2 ^ (ey + 1074))) in H.
    + exact H.
    + rewrite Pos2Z.inj_mul.
      replace (ex + ey + scale) with ((ex + 1074) + (ey + 1074)) by (unfold scale; lia).
      rewrite (Z.pow_add_r 2 (ex + 1074) (ey + 1074)) by lia. ring.
Qed.

Lemma mul_mono x1 x2 y :
  nnf x1 -> nnf x2 -> nnf y ->
  is_finite (mul x1 y) = true -> is_finite (mul x2 y) = true ->
  units x1 <= units x2 -> units (mul x1 y) <= units (mul x2 y).
Proof.
  intros H1 H2 Hy F1 F2 Hle.
  destruct (mul_spec x1 y H1 Hy) as [A1 _]. destruct (A1 F1) as (_ & E1 & _).
  destruct (mul_spec x2 y H2 Hy) as [A2 _]. destruct (A2 F2) as (_ & E2 & _).
  assert (H : rounded (units x1 * units y) <= rounded (units x2 * units y)).
  { apply rounded_mono. pose proof (units_nonneg x1). pose proof (units_nonneg y).
    split; [apply Z.mul_nonneg_nonneg; lia|].
    apply Z.mul_le_mono_nonneg_r; lia. }
  rewrite <- E1, <- E2 in H.
  apply Z.mul_le_mono_pos_r in H; [exact H | apply Z.pow_pos_nonneg; lia].
Qed.

(** *** [timedelta(seconds=x)] *)

Lemma trunc_units x : nnf x -> trunc x = units x / 2 ^ 1074.
Proof.
  destruct x as [[|] | | | [|] m e]; cbn [nnf]; try contradiction; intros H.
  - reflexivity.
  - cbn [trunc units cond_Zopp]. destruct (0 <=? e) eqn:E.
    + apply Z.leb_le in E. rewrite Z.pow_add_r, Z.mul_assoc by lia.
      now rewrite Z.div_mul by (apply Z.pow_nonzero; lia).
    + apply Z.leb_gt in E.
      replace (2 ^ 1074) with (2 ^ (- e) * 2 ^ (e + 1074)).
      * rewrite Z.div_mul_cancel_r by (apply Z.pow_nonzero; lia). reflexivity.
      * rewrite <- Z.pow_add_r by lia. f_equal. lia.
Qed.

Lemma units_mod x :
  nnf x ->
  units x mod 2 ^ 1074
  = match x with
    | S754_finite _ m e => if 0 <=? e then 0 else Z.pos m mod 2 ^ (- e) * 2 ^ (e + 1074)
    | _ => 0
    end.
Proof.
  destruct x as [[|] | | | [|] m e]; cbn [nnf]; try contradiction; intros H.
  - reflexivity.
  - cbn [units]. destruct (0 <=? e) eqn:E.
    + apply Z.leb_le in E. rewrite Z.pow_add_r, Z.mul_assoc by lia.
      apply Z.mod_mul. apply Z.pow_nonzero; lia.
    + apply Z.leb_gt in E.
      replace (2 ^ 1074) with (2 ^ (- e) * 2 ^ (e + 1074)).
      * rewrite Z.mul_mod_distr_r by (apply Z.pow_nonzero; lia). reflexivity.
      * rewrite <- Z.pow_add_r by lia. f_equal. lia.
Qed.

Lemma round_pow_scale :
  round_ne (2 ^ scale) = 2 ^ scale /\ cexp (2 ^ scale) = 2096
  /\ rounded (2 ^ scale) = 2 ^ scale.
Proof. vm_compute. repeat split. Qed.

Lemma round_1e6_scale :
  round_ne (1000000 * 2 ^ scale) = 1000000 * 2 ^ scale
  /\ cexp (1000000 * 2 ^ scale) = 2115
  /\ rounded (1000000 * 2 ^ scale) = 1000000 * 2 ^ scale.
Proof. vm_compute. repeat split. Qed.

Lemma units_1e6 : units f1e6 = 1000000 * 2 ^ 1074.
Proof. reflexivity. Qed.

(** The fractional part: finite, below one, and of the value of the
    remainder. *)
Lemma frac_spec x :
  nnf x ->
  nnf (frac x) /\ expo (frac x) <= -1
  /\ units (frac x) * 2 ^ 1074 = rounded (units x mod 2 ^ 1074 * 2 ^ 1074).
Proof.
  intros Hx. rewrite (units_mod x Hx).
  destruct x as [[|] | | | [|] m e]; cbn [nnf] in Hx; try contradiction.
  - cbn [frac nnf expo units]. split; [exact I|]. split; [lia | reflexivity].
  - cbn [frac]. destruct (0 <=? e) eqn:E.
    + cbn [nnf expo units]. split; [exact I|]. split; [lia | reflexivity].
    + apply Z.leb_gt in E. cbn [cond_Zopp].
      assert (Hp : 0 < 2 ^ (- e)) by (apply Z.pow_pos_nonneg; lia).
      pose proof (Z.mod_pos_bound (Z.pos m) (2 ^ (- e)) Hp) as Hr.
      destruct (Z.pos m mod 2 ^ (- e)) as [|r|r] eqn:Er; [| |lia].
      * cbn [binary_normalize nnf expo units]. split; [exact I|].
        split; [lia | reflexivity].
      * cbn [binary_normalize].
        pose proof (binary_round_spec r e Hx) as [Ha Hb]. cbv zeta in Ha, Hb.
        assert (Hv : 0 <= Z.pos r * 2 ^ (e + scale) <= 2 ^ scale).
        { split; [lia|].
          replace (2 ^ scale) with (2 ^ (- e) * 2 ^ (e + scale)).
          - apply Z.mul_le_mono_nonneg_r; [apply Z.pow_nonneg; unfold scale|]; lia.
          - rewrite <- Z.pow_add_r by (unfold scale; lia). f_equal. lia. }
        destruct round_pow_scale as (R1 & R2 & _).
        pose proof (cexp_bounds _ _ Hv R1) as Hc. rewrite R2 in Hc.
        assert (Hfin : is_finite (binary_round prec emax false r e) = true).
        { apply Hb. unfold emax, prec, scale in *. lia. }
        destruct (Ha Hfin) as (Hn & Hu & Hx').
        split; [exact Hn|]. split; [unfold scale in *; lia|].
        rewrite Hu. f_equal. rewrite pow_scale by lia. ring.
Qed.

Lemma round_half_even_units y :
  nnf y -> round_half_even y = rne_div (units y) 1074.
Proof.
  destruct y as [[|] | | | [|] m e]; cbn [nnf]; try contradiction; intros H.
  - reflexivity.
  - cbn [round_half_even units cond_Zopp].
    replace 1074 with (- e + (e + 1074)) at 2 by lia.
    now rewrite rne_div_scale by lia.
Qed.

Lemma rounded_div_le a b :
  0 <= a <= b -> rounded a / 2 ^ 1074 <= rounded b / 2 ^ 1074.
Proof.
  intros H. apply Z.div_le_mono; [apply Z.pow_pos_nonneg; lia|].
  now apply rounded_mono.
Qed.

Lemma rounded_div_nonneg a : 0 <= a -> 0 <= rounded a / 2 ^ 1074.
Proof.
  intros H. apply Z.div_pos; [now apply rounded_nonneg | apply Z.pow_pos_nonneg; lia].
Qed.

Lemma frac_us_mono r1 r2 : 0 <= r1 <= r2 -> frac_us r1 <= frac_us r2.
Proof.
  intros H. unfold frac_us. apply rne_div_mono. apply rounded_div_le.
  assert (P : 0 < 2 ^ 1074) by (apply Z.pow_pos_nonneg; lia).
  assert (A : 0 <= rounded (r1 * 2 ^ 1074) / 2 ^ 1074)
    by (apply rounded_div_nonneg; lia).
  assert (B : rounded (r1 * 2 ^ 1074) / 2 ^ 1074 <= rounded (r2 * 2 ^ 1074) / 2 ^ 1074)
    by (apply rounded_div_le; nia).
  split; [apply Z.mul_nonneg_nonneg; lia|].
  apply Z.mul_le_mono_nonneg_r; lia.
Qed.

Lemma frac_us_ends : frac_us 0 = 0 /\ frac_us (2 ^ 1074) = 1000000.
Proof. vm_compute. split; reflexivity. Qed.

Lemma frac_us_bounds r : 0 <= r < 2 ^ 1074 -> 0 <= frac_us r <= 1000000.
Proof.
  intros H. destruct frac_us_ends as [E0 E1]. split.
  - rewrite <- E0. apply frac_us_mono. lia.
  - rewrite <- E1. apply frac_us_mono. lia.
Qed.

(** The microseconds of a non-negative float, from its value. *)
Lemma float_to_us_units x :
  nnf x ->
  PyTime.float_to_us x
  = units x / 2 ^ 1074 * 1000000 + frac_us (units x mod 2 ^ 1074).
Proof.
  intros Hx. unfold PyTime.float_to_us.
  rewrite (trunc_units x Hx). f_equal.
  destruct (frac_spec x Hx) as (Hf & He & Hu).
  set (r := units x mod 2 ^ 1074) in *.
  assert (P : 0 < 2 ^ 1074) by (apply Z.pow_pos_nonneg; lia).
  assert (Hr : 0 <= r < 2 ^ 1074) by (apply Z.mod_pos_bound; exact P).
  assert (Euf : units (frac x) = rounded (r * 2 ^ 1074) / 2 ^ 1074).
  { rewrite <- Hu. now rewrite Z.div_mul by lia. }
  assert (Huf : 0 <= units (frac x) <= 2 ^ 1074).
  { split; [apply units_nonneg|]. rewrite Euf.
    destruct round_pow_scale as (_ & _ & R3).
    apply Z.div_le_upper_bound; [exact P|].
    rewrite <- (Z.pow_add_r 2 1074 1074) by lia.
    change (2 ^ (1074 + 1074)) with (2 ^ scale). rewrite <- R3.
    apply rounded_mono. split; [lia|].
    change (2 ^ scale) with (2 ^ (1074 + 1074)). rewrite Z.pow_add_r by lia.
    apply Z.mul_le_mono_nonneg_r; lia. }
  assert (Hn6 : nnf f1e6) by (cbn; lia).
  destruct (mul_spec (frac x) f1e6 Hf Hn6) as [Ha Hb]. cbv zeta in Ha, Hb.
  rewrite units_1e6 in Ha, Hb.
  assert (Hv : 0 <= units (frac x) * (1000000 * 2 ^ 1074) <= 1000000 * 2 ^ scale).
  { split; [apply Z.mul_nonneg_nonneg; lia|].
    change (2 ^ scale) with (2 ^ (1074 + 1074)). rewrite Z.pow_add_r by lia.
    replace (1000000 * (2 ^ 1074 * 2 ^ 1074))
      with (2 ^ 1074 * (1000000 * 2 ^ 1074)) by ring.
    apply Z.mul_le_mono_nonneg_r; lia. }
  destruct round_1e6_scale as (R1 & R2 & _).
  pose proof (cexp_bounds _ _ Hv R1) as Hc. rewrite R2 in Hc.
  assert (Hfin : is_finite (mul (frac x) f1e6) = true).
  { apply Hb. change (expo f1e6) with (-33). unfold emax, prec, scale in *. lia. }
  destruct (Ha Hfin) as (Hny & Huy & _).
  rewrite (round_half_even_units _ Hny). unfold frac_us. f_equal.
  rewrite <- Euf, <- Huy. now rewrite Z.div_mul by lia.
Qed.

(** [timedelta(seconds=x)] is monotone on the non-negative floats. *)
Lemma float_to_us_mono x1 x2 :
  nnf x1 -> nnf x2 -> units x1 <= units x2 ->
  PyTime.float_to_us x1 <= PyTime.float_to_us x2.
Proof.
  intros H1 H2 Hle. rewrite (float_to_us_units x1 H1), (float_to_us_units x2 H2).
  assert (P : 0 < 2 ^ 1074) by (apply Z.pow_pos_nonneg; lia).
  pose proof (units_nonneg x1) as N1.
  assert (Hq : units x1 / 2 ^ 1074 <= units x2 / 2 ^ 1074)
    by (apply Z.div_le_mono; lia).
  pose proof (Z.mod_pos_bound (units x1) _ P) as B1.
  pose proof (Z.mod_pos_bound (units x2) _ P) as B2.
  pose proof (frac_us_bounds _ B1) as F1. pose proof (frac_us_bounds _ B2) as F2.
  destruct (Z.eq_dec (units x1 / 2 ^ 1074) (units x2 / 2 ^ 1074)) as [E | NE].
  - rewrite E. apply Z.add_le_mono_l. apply frac_us_mono.
    pose proof (Z.div_mod (units x1) (2 ^ 1074)).
    pose proof (Z.div_mod (units x2) (2 ^ 1074)). rewrite E in *. lia.
  - lia.
Qed.

End FloatFacts.

(** ** Integers below [2^53] are computed with exactly *)

Module ExactFacts.
Import PyFloat RoundFacts ValueFacts MonoFacts FloatFacts.

Lemma rounded_small k : 0 <= k < 2 ^ 53 -> rounded (k * 2 ^ scale) = k * 2 ^ scale.
Proof.
  intros Hk. destruct (Z.eq_dec k 0) as [-> | NZ]; [reflexivity|].
  set (v := k * 2 ^ scale).
  assert (Hl : Z.log2 v = scale + Z.log2 k)
    by (unfold v; apply Z.log2_mul_pow2; unfold scale; lia).
  assert (Hk2 : Z.log2 k < 53) by (apply Z.log2_lt_pow2; lia).
  pose proof (Z.log2_nonneg k) as Hk0.
  assert (Hc : 1074 <= cexp v <= scale) by (unfold cexp, prec, scale in *; lia).
  apply (rounded_exact v (k * 2 ^ (scale - cexp v))).
  rewrite <- Z.mul_assoc, <- Z.pow_add_r by lia.
  unfold v. f_equal. f_equal. lia.
Qed.

Lemma cexp_small k : 0 <= k < 2 ^ 53 -> cexp (k * 2 ^ scale) <= scale.
Proof.
  intros Hk. destruct (Z.eq_dec k 0) as [-> | NZ]; [vm_compute; discriminate|].
  assert (Hl : Z.log2 (k * 2 ^ scale) = scale + Z.log2 k)
    by (apply Z.log2_mul_pow2; unfold scale; lia).
  assert (Hk2 : Z.log2 k < 53) by (apply Z.log2_lt_pow2; lia).
  unfold cexp, prec, scale in *. lia.
Qed.

Lemma round_ne_small k : 0 <= k < 2 ^ 53 -> round_ne (k * 2 ^ scale) = k * 2 ^ scale.
Proof.
  intros Hk. pose proof (cexp_small k Hk) as Hc.
  pose proof (cexp_pos (k * 2 ^ scale)) as Hp.
  unfold round_ne.
  replace (k * 2 ^ scale)
    with (k * 2 ^ (scale - cexp (k * 2 ^ scale)) * 2 ^ cexp (k * 2 ^ scale)) at 1.
  - rewrite rne_div_exact by exact Hp.
    rewrite <- Z.mul_assoc, <- Z.pow_add_r by lia. f_equal. f_equal. lia.
  - rewrite <- Z.mul_assoc, <- Z.pow_add_r by lia. f_equal. f_equal. lia.
Qed.

Lemma pow_scale_split : 2 ^ scale = 2 ^ 1074 * 2 ^ 1074.
Proof. rewrite <- Z.pow_add_r by lia. reflexivity. Qed.

(** The float of an integer below [2^53] is that integer. *)
Lemma of_int_exact k :
  0 <= k < 2 ^ 53 ->
  exists a, of_int k = Ok a /\ nnf a /\ units a = k * 2 ^ 1074 /\ expo a <= 0.
Proof.
  intros Hk. unfold of_int, binary_normalize.
  destruct k as [|p|p]; [| |lia].
  - eexists. split; [reflexivity|]. split; [exact I|]. split; [reflexivity | cbn; lia].
  - pose proof (binary_round_spec p 0 ltac:(lia)) as [Ha Hb]. cbv zeta in Ha, Hb.
    rewrite Z.add_0_l in Ha, Hb.
    rewrite (round_ne_small (Z.pos p) Hk) in Ha, Hb.
    pose proof (cexp_small (Z.pos p) Hk) as Hc.
    assert (Hf : is_finite (binary_round prec emax false p 0) = true)
      by (apply Hb; unfold emax, prec; lia).
    rewrite Hf. destruct (Ha Hf) as (Hn & Hu & Hx).
    eexists. split; [reflexivity|]. split; [exact Hn|]. split; [|lia].
    rewrite (rounded_small (Z.pos p) Hk), pow_scale_split, Z.mul_assoc in Hu.
    apply Z.mul_cancel_r in Hu; [exact Hu | apply Z.pow_nonzero; lia].
Qed.

(** The product of two floats that are integers is their product, when it
    is below [2^53]. *)
Lemma mul_exact x y a b :
  nnf x -> nnf y -> units x = a * 2 ^ 1074 -> units y = b * 2 ^ 1074 ->
  0 <= a * b < 2 ^ 53 -> expo x <= 0 -> expo y <= 0 ->
  is_finite (mul x y) = true /\ nnf (mul x y)
  /\ units (mul x y) = a * b * 2 ^ 1074 /\ expo (mul x y) <= 0.
Proof.
  intros Hx Hy Ux Uy Hab Ex Ey.
  destruct (mul_spec x y Hx Hy) as [Ha Hb]. cbv zeta in Ha, Hb.
  assert (Ev : units x * units y = a * b * 2 ^ scale)
    by (rewrite Ux, Uy, pow_scale_split; ring).
  rewrite Ev in Ha, Hb.
  rewrite (round_ne_small _ Hab) in Ha, Hb.
  pose proof (cexp_small _ Hab) as Hc.
  assert (Hf : is_finite (mul x y) = true)
    by (apply Hb; unfold emax, prec; lia).
  destruct (Ha Hf) as (Hn & Hu & He).
  split; [exact Hf|]. split; [exact Hn|]. split; [|lia].
  rewrite (rounded_small _ Hab), pow_scale_split, Z.mul_assoc in Hu.
  apply Z.mul_cancel_r in Hu; [exact Hu | apply Z.pow_nonzero; lia].
Qed.

(** The microseconds of a float that is an integer number of seconds. *)
Lemma float_to_us_exact x k :
  nnf x -> units x = k * 2 ^ 1074 -> PyTime.float_to_us x = k * 1000000.
Proof.
  intros Hx Ux. rewrite (float_to_us_units x Hx), Ux.
  rewrite Z.div_mul, Z.mod_mul by (apply Z.pow_nonzero; lia).
  destruct frac_us_ends as [-> _]. lia.
Qed.

End ExactFacts.

(** With an interval and a ratio that are integers (as [2.0] and [1.0]
    are), frame [k + 1] is exactly [k * interval * ratio] seconds after the
    start, as long as the product is below [2^53]. *)
Lemma timestamp_at_exact
    (start_time : PyTime.datetime) (interval ratio : Z) (i r : PyFloat.float) (k : Z) :
  0 <= k -> 0 <= interval -> 0 <= ratio ->
  k < 2 ^ 53 -> interval < 2 ^ 53 -> ratio < 2 ^ 53 ->
  k * interval < 2 ^ 53 -> k * interval * ratio < 2 ^ 53 ->
  PyFloat.of_int interval = Ok i -> PyFloat.of_int ratio = Ok r ->
  timestamp_at start_time i r k
  = rbind (PyTime.check_delta (k * interval * ratio * PyTime.us_per_second))
          (PyTime.add start_time).
Proof.
  intros Hk Hi Hr Bk Bi Br Bki Bkir Ei Er. unfold timestamp_at.
  destruct (ExactFacts.of_int_exact k ltac:(lia)) as (a & Ea & Na & Ua & Xa).
  destruct (ExactFacts.of_int_exact interval ltac:(lia)) as (i' & Ei' & Ni & Ui & Xi).
  destruct (ExactFacts.of_int_exact ratio ltac:(lia)) as (r' & Er' & Nr & Ur & Xr).
  rewrite Ei in Ei'. injection Ei' as <-. rewrite Er in Er'. injection Er' as <-.
  rewrite Ea. cbn [rbind].
  destruct (ExactFacts.mul_exact a i k interval Na Ni Ua Ui ltac:(nia) Xa Xi)
    as (F1 & N1 & U1 & X1).
  destruct (ExactFacts.mul_exact _ r (k * interval) ratio N1 Nr U1 Ur ltac:(nia) X1 Xr)
    as (F2 & N2 & U2 & X2).
  unfold PyTime.timedelta_of_seconds.
  rewrite (ExactFacts.float_to_us_exact _ _ N2 U2).
  destruct (PyFloat.mul (PyFloat.mul a i) r); try discriminate F2; reflexivity.
Qed.

(* ===================================================================== *)
(** ** The timestamp of a frame, and of successive frames *)

(** C1.  The timestamp derived from the name of the [n]-th frame
    ([n >= 1]) is the start time plus [(n - 1) * interval * adjustment]
    seconds, the product being the one of Python floats and the sum the
    one of [datetime] (either may raise; the derived timestamp then
    raises the same).  When the interval and the ratio are integers and
    the product is below [2^53], it is the product of the integers.  In
    particular, with interval [2.0] and ratio [1.0], frame 1 is at the
    start time and frame 4 six seconds later. *)
Theorem timestamp_from_filename_of_frame
    (video_filename : string) (n : Z) (start_time : PyTime.datetime)
    (interval adjustment : PyFloat.float) :
  1 <= n ->
  Video.timestamp_from_filename video_filename
    (frame_filename video_filename n) start_time interval adjustment
  = rbind (PyFloat.of_int (n - 1)) (fun k =>
    rbind (PyTime.timedelta_of_seconds
             (PyFloat.mul (PyFloat.mul k interval) adjustment)) (fun d =>
    PyTime.add start_time d))
  /\ (forall (i r : Z),
        0 <= i < 2 ^ 53 -> 0 <= r < 2 ^ 53 -> n - 1 < 2 ^ 53 ->
        (n - 1) * i < 2 ^ 53 -> (n - 1) * i * r < 2 ^ 53 ->
        PyFloat.of_int i = Ok interval -> PyFloat.of_int r = Ok adjustment ->
        Video.timestamp_from_filename video_filename
          (frame_filename video_filename n) start_time interval adjustment
        = rbind (PyTime.check_delta ((n - 1) * i * r * PyTime.us_per_second))
                (PyTime.add start_time))
  /\ (PyTime.in_range start_time = true ->
      Video.timestamp_from_filename video_filename
        (frame_filename video_filename 1) start_time PyFloat.f2_0 PyFloat.f1_0
      = Ok start_time)
  /\ (PyTime.in_range (start_time + 6 * PyTime.us_per_second) = true ->
      Video.timestamp_from_filename video_filename
        (frame_filename video_filename 4) start_time PyFloat.f2_0 PyFloat.f1_0
      = Ok (start_time + 6 * PyTime.us_per_second)).
Proof.
  intros Hn. split; [|split; [|split]].
  - now apply timestamp_from_filename_frame.
  - intros i r Hi Hr Bn Bi Bir Ei Er.
    rewrite timestamp_from_filename_frame by exact Hn.
    apply timestamp_at_exact; lia || assumption.
  - intros Hr. unfold Video.timestamp_from_filename.
    rewrite frame_index_frame_filename by lia. cbn [rbind].
    set (k := PyFloat.of_int (1 - 1)). vm_compute in k. subst k. cbn [rbind].
    set (d := PyTime.timedelta_of_seconds _). vm_compute in d. subst d.
    cbn [rbind]. unfold PyTime.add. rewrite Z.add_0_r, Hr. reflexivity.
  - intros Hr. unfold Video.timestamp_from_filename.
    rewrite frame_index_frame_filename by lia. cbn [rbind].
    set (k := PyFloat.of_int (4 - 1)). vm_compute in k. subst k. cbn [rbind].
    set (d := PyTime.timedelta_of_seconds _). vm_compute in d. subst d.
    cbn [rbind]. unfold PyTime.add.
    change (6 * PyTime.us_per_second) with 6000000 in *.
    rewrite Hr. reflexivity.
Qed.

Lemma timestamp_from_filename_of_frame_witness :
  Video.timestamp_from_filename "video" "video_000004.jpg"
    (at_time 2020 1 1 0 0 0) PyFloat.f2_0 PyFloat.f1_0
  = Ok (at_time 2020 1 1 0 0 6)
  /\ Video.timestamp_from_filename "video" "video_000001.jpg"
       (at_time 2020 1 1 0 0 0) PyFloat.f2_0 PyFloat.f1_0
     = Ok (at_time 2020 1 1 0 0 0).
Proof.
  destruct (timestamp_from_filename_of_frame "video" 4 (at_time 2020 1 1 0 0 0)
              PyFloat.f2_0 PyFloat.f1_0) as (_ & _ & H1 & H4); [lia|].
  split; [apply H4 | apply H1]; reflexivity.
Defined.


Module OrderFacts.
Import PyFloat FloatFacts.

Lemma binary_round_aux_sign s m e l :
  binary_round_aux prec emax s m e l
  = with_sign s (binary_round_aux prec emax false m e l).
Proof.
  unfold binary_round_aux.
  destruct (shr_fexp prec emax m e l) as [mrs e1].
  destruct (shr_fexp prec emax _ e1 loc_Exact) as [mrs' e2].
  destruct (shr_m mrs'); try reflexivity.
  destruct (e2 <=? emax - prec); reflexivity.
Qed.

Lemma is_pos_with_sign_true x : is_pos (with_sign true x) = false.
Proof. destruct x; reflexivity. Qed.

Lemma is_finite_mul x y :
  is_finite (mul x y) = true -> is_finite x = true /\ is_finite y = true.
Proof.
  destruct x as [sx | sx | | sx mx ex], y as [sy | sy | | sy my ey];
    cbn; intros H; try discriminate H; split; reflexivity.
Qed.

(** Two finite floats of positive product have the same sign. *)
Lemma positive_product_finite i r :
  positive_product i r -> is_finite i = true -> is_finite r = true ->
  exists s mi ei mr er, i = S754_finite s mi ei /\ r = S754_finite s mr er.
Proof.
  intros H Fi Fr.
  destruct i as [si | si | | si mi ei]; try discriminate Fi;
    destruct r as [sr | sr | | sr mr er]; try discriminate Fr.
  - exfalso. destruct H as [H | [[H _] | [H _]]]; destruct si, sr; discriminate H.
  - exfalso. destruct H as [H | [[H _] | [H _]]]; destruct si, sr; discriminate H.
  - exfalso. destruct H as [H | [[_ H] | [_ H]]]; destruct si, sr; discriminate H.
  - destruct si, sr; try (eexists _, _, _, _, _; split; reflexivity); exfalso.
    + destruct H as [H | [[H _] | [_ H]]]; try discriminate H.
      unfold mul, SFmul in H. cbn [xorb] in H.
      rewrite binary_round_aux_sign, is_pos_with_sign_true in H. discriminate H.
    + destruct H as [H | [[_ H] | [H _]]]; try discriminate H.
      unfold mul, SFmul in H. cbn [xorb] in H.
      rewrite binary_round_aux_sign, is_pos_with_sign_true in H. discriminate H.
Qed.

(** The product by two negative floats is the product by their absolute
    values. *)
Lemma mul_mul_negative a mi ei mr er :
  nnf a ->
  mul (mul a (S754_finite true mi ei)) (S754_finite true mr er)
  = mul (mul a (S754_finite false mi ei)) (S754_finite false mr er).
Proof.
  destruct a as [[|] | | | [|] m e]; cbn [nnf]; try contradiction; intros _.
  - reflexivity.
  - unfold mul. cbn [SFmul xorb].
    rewrite (binary_round_aux_sign true).
    pose proof (binary_round_aux_sign false (Z.pos (m * mi)) (e + ei) loc_Exact) as Hy.
    destruct (binary_round_aux prec emax false (Z.pos (m * mi)) (e + ei) loc_Exact)
      as [s | s | | s m' e']; cbn [with_sign] in Hy; try injection Hy as ->;
      reflexivity.
Qed.

Lemma valid_finite_nnf m e :
  valid_binary prec emax (S754_finite false m e) = true ->
  nnf (S754_finite false m e).
Proof.
  cbn [valid_binary nnf]. unfold bounded, canonical_mantissa.
  intros H. apply andb_prop in H as [H _]. apply Z.eqb_eq in H.
  rewrite ValueFacts.fexp_eq in H. lia.
Qed.

(** The seconds of frame [k + 1], for positive [interval] and
    [adjustment]: a non-negative float whose value grows with [k]. *)
Lemma seconds_spec i r k a :
  nnf i -> nnf r -> 0 <= k -> of_int k = Ok a ->
  is_finite (mul (mul a i) r) = true ->
  nnf a /\ is_finite (mul a i) = true /\ nnf (mul a i) /\ nnf (mul (mul a i) r).
Proof.
  intros Hi Hr Hk Ha Hf.
  destruct (of_int_spec k a Hk Ha) as [Hn _].
  destruct (is_finite_mul _ _ Hf) as [Hf1 _].
  destruct (mul_spec a i Hn Hi) as [A _]. destruct (A Hf1) as (Hn1 & _).
  destruct (mul_spec (mul a i) r Hn1 Hr) as [B _]. destruct (B Hf) as (Hn2 & _).
  repeat split; assumption.
Qed.

Lemma seconds_mono i r k1 k2 a1 a2 :
  nnf i -> nnf r -> 0 <= k1 <= k2 ->
  of_int k1 = Ok a1 -> of_int k2 = Ok a2 ->
  is_finite (mul (mul a1 i) r) = true -> is_finite (mul (mul a2 i) r) = true ->
  units (mul (mul a1 i) r) <= units (mul (mul a2 i) r).
Proof.
  intros Hi Hr Hk E1 E2 F1 F2.
  destruct (seconds_spec i r k1 a1 Hi Hr ltac:(lia) E1 F1) as (N1 & G1 & M1 & _).
  destruct (seconds_spec i r k2 a2 Hi Hr ltac:(lia) E2 F2) as (N2 & G2 & M2 & _).
  destruct (of_int_spec k1 a1 ltac:(lia) E1) as [_ U1].
  destruct (of_int_spec k2 a2 ltac:(lia) E2) as [_ U2].
  assert (Ha : units a1 <= units a2).
  { assert (H : rounded (k1 * 2 ^ scale) <= rounded (k2 * 2 ^ scale)).
    { apply MonoFacts.rounded_mono.
      assert (0 < 2 ^ scale) by (apply Z.pow_pos_nonneg; unfold scale; lia).
      split; [nia | apply Z.mul_le_mono_nonneg_r; lia]. }
    rewrite <- U1, <- U2 in H.
    apply Z.mul_le_mono_pos_r in H; [exact H | apply Z.pow_pos_nonneg; lia]. }
  apply mul_mono; try assumption.
  apply mul_mono; assumption.
Qed.

Lemma timedelta_of_seconds_ok x d :
  PyTime.timedelta_of_seconds x = Ok d ->
  is_finite x = true /\ d = PyTime.float_to_us x.
Proof.
  unfold PyTime.timedelta_of_seconds, PyTime.check_delta.
  destruct x; try discriminate;
    (destruct (_ && _); [|discriminate]); intros H; injection H as <-;
    split; reflexivity.
Qed.

(** The timestamps of two frames are in the order of their indices. *)
Lemma timestamp_at_mono start i r k1 k2 t1 t2 :
  valid_binary prec emax i = true -> valid_binary prec emax r = true ->
  positive_product i r -> 0 <= k1 <= k2 ->
  timestamp_at start i r k1 = Ok t1 -> timestamp_at start i r k2 = Ok t2 ->
  t1 <= t2.
Proof.
  intros Vi Vr Hp Hk. unfold timestamp_at.
  destruct (of_int k1) as [a1|] eqn:E1; cbn [rbind]; [|discriminate].
  destruct (of_int k2) as [a2|] eqn:E2; cbn [rbind]; [|discriminate].
  destruct (PyTime.timedelta_of_seconds (mul (mul a1 i) r)) as [d1|] eqn:D1;
    cbn [rbind]; [|discriminate].
  destruct (PyTime.timedelta_of_seconds (mul (mul a2 i) r)) as [d2|] eqn:D2;
    cbn [rbind]; [|discriminate].
  unfold PyTime.add.
  destruct (PyTime.in_range (start + d1)); [|discriminate].
  destruct (PyTime.in_range (start + d2)); [|discriminate].
  intros H1 H2. injection H1 as <-. injection H2 as <-.
  apply timedelta_of_seconds_ok in D1 as [F1 ->], D2 as [F2 ->].
  apply Z.add_le_mono_l.
  destruct (is_finite_mul _ _ F1) as [F1' Fr].
  destruct (is_finite_mul _ _ F1') as [_ Fi].
  destruct (positive_product_finite i r Hp Fi Fr) as (s & mi & ei & mr & er & -> & ->).
  assert (Ni : nnf (S754_finite false mi ei))
    by (apply valid_finite_nnf; destruct s; exact Vi).
  assert (Nr : nnf (S754_finite false mr er))
    by (apply valid_finite_nnf; destruct s; exact Vr).
  destruct (of_int_spec k1 a1 ltac:(lia) E1) as [Na1 _].
  destruct (of_int_spec k2 a2 ltac:(lia) E2) as [Na2 _].
  assert (S1 : mul (mul a1 (S754_finite s mi ei)) (S754_finite s mr er)
               = mul (mul a1 (S754_finite false mi ei)) (S754_finite false mr er))
    by (destruct s; [now apply mul_mul_negative | reflexivity]).
  assert (S2 : mul (mul a2 (S754_finite s mi ei)) (S754_finite s mr er)
               = mul (mul a2 (S754_finite false mi ei)) (S754_finite false mr er))
    by (destruct s; [now apply mul_mul_negative | reflexivity]).
  rewrite S1 in *. rewrite S2 in *.
  destruct (seconds_spec _ _ k1 a1 Ni Nr ltac:(lia) E1 F1) as (_ & _ & _ & X1).
  destruct (seconds_spec _ _ k2 a2 Ni Nr ltac:(lia) E2 F2) as (_ & _ & _ & X2).
  apply float_to_us_mono; try assumption.
  now apply (seconds_mono _ _ k1 k2 a1 a2).
Qed.

End OrderFacts.

(** C2.  For frames named after their indices and given in the order of
    their indices, whenever [interval * adjustment > 0], the timestamps that
    [timestamps_from_filename] returns are in non-decreasing order. *)
Theorem timestamps_from_filename_non_decreasing
    (video_filename : string) (images : list string) (indices : list Z)
    (start_time : PyTime.datetime) (interval adjustment : PyFloat.float)
    (ts : list PyTime.datetime) :
  valid_binary PyFloat.prec PyFloat.emax interval = true ->
  valid_binary PyFloat.prec PyFloat.emax adjustment = true ->
  positive_product interval adjustment ->
  Forall2 (fun image n =>
             PyStr.basename image = frame_filename video_filename n /\ 1 <= n)
          images indices ->
  Sorted Z.le indices ->
  Video.timestamps_from_filename video_filename images start_time
    interval adjustment = Ok ts ->
  Sorted Z.le ts.
Proof.
  intros Vi Vr Hp Hnames. revert ts.
  induction Hnames as [|image n images indices [Hname Hn] Hrest IH];
    intros ts Hsorted Hts.
  - injection Hts as <-. constructor.
  - cbn [Video.timestamps_from_filename] in Hts.
    rewrite Hname in Hts.
    rewrite (timestamp_from_filename_frame video_filename n start_time
               interval adjustment Hn) in Hts.
    destruct (timestamp_at start_time interval adjustment (n - 1)) as [t|] eqn:E1;
      cbn [rbind] in Hts; [|discriminate].
    destruct (Video.timestamps_from_filename video_filename images start_time
                interval adjustment) as [ts'|] eqn:E2;
      cbn [rbind] in Hts; [|discriminate].
    injection Hts as <-.
    inversion Hsorted as [|? ? Hs Hhd]; subst.
    constructor; [now apply IH|].
    destruct Hrest as [|image' n' images' indices' [Hname' Hn'] Hrest'].
    + injection E2 as <-. constructor.
    + cbn [Video.timestamps_from_filename] in E2. rewrite Hname' in E2.
      rewrite (timestamp_from_filename_frame video_filename n' start_time
                 interval adjustment Hn') in E2.
      destruct (timestamp_at start_time interval adjustment (n' - 1)) as [t'|] eqn:E3;
        cbn [rbind] in E2; [|discriminate].
      destruct (Video.timestamps_from_filename video_filename images' start_time
                  interval adjustment); cbn [rbind] in E2; [|discriminate].
      injection E2 as <-. constructor.
      inversion Hhd; subst.
      apply (OrderFacts.timestamp_at_mono start_time interval adjustment
               (n - 1) (n' - 1)); try assumption. lia.
Qed.

Lemma timestamps_from_filename_non_decreasing_witness :
  Sorted Z.le
    [at_time 2020 1 1 0 0 0; at_time 2020 1 1 0 0 2; at_time 2020 1 1 0 0 6].
Proof.
  apply (timestamps_from_filename_non_decreasing "video"
           ["out/video_000001.jpg"; "out/video_000002.jpg"; "out/video_000004.jpg"]
           [1; 2; 4] (at_time 2020 1 1 0 0 0) PyFloat.f2_0 PyFloat.f1_0).
  - reflexivity.
  - reflexivity.
  - left. reflexivity.
  - repeat (apply Forall2_cons; [split; [reflexivity | lia]|]). apply Forall2_nil.
  - repeat (apply Sorted_cons; [|try apply HdRel_cons; try apply HdRel_nil; lia]).
    apply Sorted_nil.
  - reflexivity.
Defined.


(** The order is not strict: with an interval of a tenth of a microsecond
    the first two frames get the same timestamp. *)
Example timestamps_may_coincide :
  rbind (PyFloat.of_string "1e-7") (fun interval =>
    Video.timestamps_from_filename "video"
      ["out/video_000001.jpg"; "out/video_000002.jpg"]
      (at_time 2020 1 1 0 0 0) interval PyFloat.f1_0)
  = Ok [at_time 2020 1 1 0 0 0; at_time 2020 1 1 0 0 0].
Proof. reflexivity. Qed.

(* ===================================================================== *)
(** * Further properties of the module *)

(** ** Frame names *)

Module NameFacts.
Import PyStr.

Lemma all_in_mem chars s :
  all_in chars s = true -> forall c, mem c s = true -> mem c chars = true.
Proof.
  induction s as [|d s IH]; cbn [all_in mem]; intros H c Hc; [discriminate|].
  apply andb_true_iff in H. destruct H as [Hd Hs].
  destruct (Ascii.eqb c d) eqn:E.
  - apply Ascii.eqb_eq in E. now subst.
  - now apply IH.
Qed.

Lemma lstrip_only_zeros k : lstrip "0" (zeros k) = EmptyString.
Proof. induction k as [|k IH]; [reflexivity|]. cbn [zeros lstrip mem]. exact IH. Qed.

(** What [rstrip] and [replace] leave of a frame name: the digits
    between the prefix [<video_filename>_] and an extension made of
    characters of [".jpg"]. *)
Lemma frame_name_digits (vf body ext : string) :
  digits_only body = true -> all_in ".jpg" ext = true ->
  replace (vf ++ "_") "" (rstrip ".jpg" (vf ++ "_" ++ body ++ ext)) = body.
Proof.
  intros Hbody Hext.
  assert (Hr : rstrip ".jpg" (vf ++ "_" ++ body ++ ext) = (vf ++ "_") ++ body).
  { destruct body as [|b0 body'] eqn:Eb.
    - cbn [append]. change (vf ++ String "_" ext) with (vf ++ String "_"%char ext).
      rewrite PyStrFacts.rstrip_keep;
        [| reflexivity | now apply all_in_mem].
      rewrite PyStrFacts.append_assoc. reflexivity.
    - rewrite <- Eb in *.
      assert (Hne : body <> EmptyString) by (rewrite Eb; discriminate).
      destruct (PyStrFacts.digits_only_last body Hbody Hne) as (u & c & E & Hc).
      rewrite E.
      replace (vf ++ "_" ++ (u ++ String c "") ++ ext)
        with ((vf ++ "_" ++ u) ++ String c ext).
      2:{ rewrite ?PyStrFacts.append_assoc; cbn [append];
          rewrite ?PyStrFacts.append_assoc; reflexivity. }
      rewrite PyStrFacts.rstrip_keep;
        [| now apply PyStrFacts.digit_not_jpg | now apply all_in_mem].
      rewrite ?PyStrFacts.append_assoc; cbn [append];
        rewrite ?PyStrFacts.append_assoc; reflexivity. }
  rewrite Hr. now apply PyStrFacts.replace_prefix.
Qed.

End NameFacts.

(** X1.  The index is read back whatever the width of the zero padding,
    and whatever extension follows the digits as long as it is made of
    the characters [.], [j], [p], [g] ([rstrip] takes a set of
    characters): [video_0012.jpgg] has index 12 like
    [video_000012.jpg]. *)
Theorem frame_index_any_padding (video_filename : string) (k : nat) (n : Z) (ext : string) :
  1 <= n -> all_in ".jpg" ext = true ->
  Video.frame_index video_filename
    (video_filename ++ "_" ++ PyStr.zeros k ++ PyStr.numeral n ++ ext)
  = Ok n.
Proof.
  intros Hn Hext. unfold Video.frame_index.
  replace (video_filename ++ "_" ++ PyStr.zeros k ++ PyStr.numeral n ++ ext)
    with (video_filename ++ "_" ++ (PyStr.zeros k ++ PyStr.numeral n) ++ ext)
    by (now rewrite !PyStrFacts.append_assoc).
  rewrite NameFacts.frame_name_digits; [| |exact Hext].
  - destruct (PyStrFacts.numeral_head n Hn) as (c0 & r0 & E0 & Hz & Hc0).
    rewrite (PyStrFacts.lstrip_zeros k _ c0 r0 E0 Hz).
    now apply PyStrFacts.int_numeral.
  - rewrite PyStrFacts.digits_only_app, PyStrFacts.digits_only_zeros.
    now apply PyStrFacts.numeral_digits.
Qed.

Lemma frame_index_any_padding_witness :
  Video.frame_index "video" "video_0012.jpgg" = Ok 12.
Proof.
  apply (frame_index_any_padding "video" 2 12 ".jpgg"); [lia | reflexivity].
Defined.

(** X2.  A frame whose digits are all zeros has no index: [lstrip("0")]
    leaves the empty string, on which [int] raises [ValueError]; so does
    a name without digits. *)
Theorem timestamp_from_filename_index_zero
    (video_filename : string) (k : nat) (ext : string)
    (start_time : PyTime.datetime) (interval adjustment : PyFloat.float) :
  all_in ".jpg" ext = true ->
  Video.timestamp_from_filename video_filename
    (video_filename ++ "_" ++ PyStr.zeros k ++ ext)
    start_time interval adjustment
  = Err ValueError.
Proof.
  intros Hext. unfold Video.timestamp_from_filename, Video.frame_index.
  rewrite NameFacts.frame_name_digits;
    [| apply PyStrFacts.digits_only_zeros | exact Hext].
  rewrite NameFacts.lstrip_only_zeros. reflexivity.
Qed.

Lemma timestamp_from_filename_index_zero_witness :
  Video.timestamp_from_filename "video" "video_000000.jpg"
    (at_time 2020 1 1 0 0 0) PyFloat.f2_0 PyFloat.f1_0
  = Err ValueError.
Proof.
  apply (timestamp_from_filename_index_zero "video" 6 ".jpg"
           (at_time 2020 1 1 0 0 0) PyFloat.f2_0 PyFloat.f1_0).
  reflexivity.
Defined.

(** ** The timestamps of a frame list *)

Section FrameTimes.
Import Video.
Local Open Scope list_scope.
Variable video_filename : string.
Variable start_time : PyTime.datetime.
Variable interval adjustment : float.

Lemma mul_zero_finite (s : bool) (x : float) :
  PyFloat.is_finite x = true ->
  exists s', PyFloat.mul (S754_zero s) x = S754_zero s'.
Proof. destruct x; cbn; intros H; try discriminate; eauto. Qed.

Lemma timedelta_of_seconds_zero (s : bool) :
  PyTime.timedelta_of_seconds (S754_zero s) = Ok 0.
Proof. destruct s; reflexivity. Qed.

(** X3.  The first frame gets the start time itself, for every finite
    interval and adjustment. *)
Theorem timestamp_from_filename_first_frame :
  PyFloat.is_finite interval = true ->
  PyFloat.is_finite adjustment = true ->
  PyTime.in_range start_time = true ->
  timestamp_from_filename video_filename (frame_filename video_filename 1)
    start_time interval adjustment
  = Ok start_time.
Proof.
  intros Hi Ha Hs.
  rewrite timestamp_from_filename_frame by lia.
  unfold timestamp_at. change (PyFloat.of_int (1 - 1)) with (Ok (S754_zero false)).
  cbn [rbind].
  destruct (mul_zero_finite false interval Hi) as [s1 ->].
  destruct (mul_zero_finite s1 adjustment Ha) as [s2 ->].
  rewrite timedelta_of_seconds_zero. cbn [rbind].
  unfold PyTime.add. rewrite Z.add_0_r, Hs. reflexivity.
Qed.

(** X4.  [timestamps_from_filename] returns one timestamp per name, in
    the order of the names, each the timestamp of that name; when it
    raises, the error is that of the first name whose timestamp is not
    derived. *)
Theorem timestamps_from_filename_pointwise (full_image_list : list string) :
  (forall ts,
     timestamps_from_filename video_filename full_image_list
       start_time interval adjustment = Ok ts
     <-> Forall2 (fun image t =>
                    timestamp_from_filename video_filename (PyStr.basename image)
                      start_time interval adjustment = Ok t)
                 full_image_list ts)
  /\ (forall e,
        timestamps_from_filename video_filename full_image_list
          start_time interval adjustment = Err e
        <-> exists done image rest,
              full_image_list = done ++ image :: rest
              /\ Forall (fun image =>
                           is_ok (timestamp_from_filename video_filename
                                    (PyStr.basename image)
                                    start_time interval adjustment) = true) done
              /\ timestamp_from_filename video_filename (PyStr.basename image)
                   start_time interval adjustment = Err e).
Proof.
  induction full_image_list as [|image images [IHok IHerr]].
  - split.
    + intros ts. cbn. split.
      * intros H. injection H as <-. constructor.
      * intros H. inversion H. reflexivity.
    + intros e. cbn. split; [discriminate|].
      intros (done & image & rest & E & _). destruct done; discriminate E.
  - split.
    + intros ts. cbn [timestamps_from_filename]. split.
      * intros H.
        destruct (timestamp_from_filename video_filename (PyStr.basename image)
                    start_time interval adjustment) as [t|] eqn:Et;
          cbn [rbind] in H; [|discriminate].
        destruct (timestamps_from_filename video_filename images
                    start_time interval adjustment) as [ts'|] eqn:Ets;
          cbn [rbind] in H; [|discriminate].
        injection H as <-. constructor; [exact Et|]. now apply IHok.
      * intros H. inversion H as [|? t ? ts' Ht Hts]; subst.
        rewrite Ht. cbn [rbind]. apply IHok in Hts. rewrite Hts. reflexivity.
    + intros e. cbn [timestamps_from_filename]. split.
      * intros H.
        destruct (timestamp_from_filename video_filename (PyStr.basename image)
                    start_time interval adjustment) as [t|e0] eqn:Et;
          cbn [rbind] in H.
        -- destruct (timestamps_from_filename video_filename images
                       start_time interval adjustment) as [ts'|e1] eqn:Ets;
             cbn [rbind] in H; [discriminate|].
           injection H as <-.
           destruct (proj1 (IHerr e1) eq_refl) as (done & im & rest & E & Hd & He).
           exists (image :: done), im, rest. split; [now rewrite E|].
           split; [|exact He]. constructor; [now rewrite Et | exact Hd].
        -- injection H as <-. exists [], image, images.
           split; [reflexivity|]. split; [constructor | exact Et].
      * intros (done & im & rest & E & Hd & He).
        destruct done as [|d done]; cbn [app] in E; injection E as -> ->.
        -- rewrite He. reflexivity.
        -- inversion Hd as [|? ? Hd1 Hd2]; subst.
           destruct (timestamp_from_filename video_filename (PyStr.basename d)
                       start_time interval adjustment) as [t|]; [|discriminate Hd1].
           cbn [rbind].
           assert (H : timestamps_from_filename video_filename (done ++ im :: rest)
                         start_time interval adjustment = Err e).
           { apply IHerr. exists done, im, rest. auto. }
           rewrite H. reflexivity.
Qed.

End FrameTimes.

Lemma timestamp_from_filename_first_frame_witness :
  Video.timestamp_from_filename "video" "video_000001.jpg"
    (at_time 2020 1 1 0 0 0) PyFloat.f2_0 PyFloat.f1_0
  = Ok (at_time 2020 1 1 0 0 0).
Proof.
  apply (timestamp_from_filename_first_frame "video" (at_time 2020 1 1 0 0 0)
           PyFloat.f2_0 PyFloat.f1_0); reflexivity.
Defined.

(** X5.  With [interval * adjustment > 0] no frame is given a timestamp
    before the start time. *)
Theorem timestamp_from_filename_not_before_start
    (video_filename : string) (n : Z) (start_time t : PyTime.datetime)
    (interval adjustment : PyFloat.float) :
  valid_binary PyFloat.prec PyFloat.emax interval = true ->
  valid_binary PyFloat.prec PyFloat.emax adjustment = true ->
  positive_product interval adjustment ->
  1 <= n ->
  Video.timestamp_from_filename video_filename
    (frame_filename video_filename n) start_time interval adjustment = Ok t ->
  start_time <= t.
Proof.
  intros Vi Vr Hp Hn H.
  rewrite timestamp_from_filename_frame in H by exact Hn.
  unfold timestamp_at in H.
  destruct (PyFloat.of_int (n - 1)) as [a|] eqn:E; cbn [rbind] in H; [|discriminate].
  destruct (PyTime.timedelta_of_seconds
              (PyFloat.mul (PyFloat.mul a interval) adjustment)) as [d|] eqn:D;
    cbn [rbind] in H; [|discriminate].
  unfold PyTime.add in H.
  destruct (PyTime.in_range (start_time + d)); [|discriminate].
  injection H as <-.
  apply OrderFacts.timedelta_of_seconds_ok in D as [F ->].
  destruct (OrderFacts.is_finite_mul _ _ F) as [F' Fr].
  destruct (OrderFacts.is_finite_mul _ _ F') as [_ Fi].
  destruct (OrderFacts.positive_product_finite interval adjustment Hp Fi Fr)
    as (s & mi & ei & mr & er & -> & ->).
  assert (Ni : nnf (S754_finite false mi ei))
    by (apply OrderFacts.valid_finite_nnf; destruct s; exact Vi).
  assert (Nr : nnf (S754_finite false mr er))
    by (apply OrderFacts.valid_finite_nnf; destruct s; exact Vr).
  destruct (FloatFacts.of_int_spec (n - 1) a ltac:(lia) E) as [Na _].
  assert (S1 : PyFloat.mul (PyFloat.mul a (S754_finite s mi ei)) (S754_finite s mr er)
               = PyFloat.mul (PyFloat.mul a (S754_finite false mi ei))
                   (S754_finite false mr er))
    by (destruct s; [now apply OrderFacts.mul_mul_negative | reflexivity]).
  rewrite S1 in *.
  destruct (OrderFacts.seconds_spec _ _ (n - 1) a Ni Nr ltac:(lia) E F)
    as (_ & _ & _ & X).
  pose proof (FloatFacts.float_to_us_mono (S754_zero false) _ I X
                (FloatFacts.units_nonneg _)) as Hd.
  change (PyTime.float_to_us (S754_zero false)) with 0 in Hd. lia.
Qed.

Lemma timestamp_from_filename_not_before_start_witness :
  at_time 2020 1 1 0 0 0 <= at_time 2020 1 1 0 0 6.
Proof.
  apply (timestamp_from_filename_not_before_start "video" 4
           (at_time 2020 1 1 0 0 0) (at_time 2020 1 1 0 0 6)
           PyFloat.f2_0 PyFloat.f1_0).
  - reflexivity.
  - reflexivity.
  - left. reflexivity.
  - lia.
  - reflexivity.
Defined.

(** ** What the probe-based resolution does and does not do *)

Section Effects.
Import Video.
Local Open Scope list_scope.
Variable w : world.
Variable video_file : string.

Ltac run := cbv beta iota delta [Video.bind Video.lift Video.ret
              Video.try_except Video.raise Video.FFProbe Video.print
              Video.subprocess_call].

Lemma logged_nil (s : state) : logged [] s = s.
Proof. destruct s. unfold logged. cbn. now rewrite app_nil_r. Qed.

Lemma logged_logged (l l' : list message) (s : state) :
  logged l' (logged l s) = logged (l ++ l') s.
Proof. unfold logged. cbn. now rewrite app_assoc. Qed.

(** X6.  [get_video_end_time] never raises: a missing file, a probe
    without a video stream, an absent or unparsable creation time all
    give [None]; its only effect is the line it prints when the file is
    missing. *)
Theorem get_video_end_time_never_raises (s : state) :
  exists r,
    get_video_end_time w video_file s
    = (Ok r, if isfile w video_file then s
             else logged [MsgNoSuchVideo video_file] s)
    /\ (isfile w video_file = false -> r = None)
    /\ (probe_video w video_file = [] -> r = None)
    /\ (forall v0 rest,
          probe_video w video_file = v0 :: rest ->
          is_ok (strptime_attr (creation_time v0) TIME_FORMAT) = false ->
          is_ok (strptime_attr (creation_time v0) TIME_FORMAT_2) = false ->
          r = None).
Proof.
  unfold get_video_end_time.
  destruct (isfile w video_file) eqn:Hf; cbn [negb].
  - run. rewrite Hf. run.
    destruct (probe_video w video_file) as [|v0 rest]; run.
    + exists None. repeat (split; [auto; discriminate|]). discriminate.
    + destruct (strptime_attr (creation_time v0) TIME_FORMAT) eqn:E1.
      * eexists. split; [reflexivity|]. split; [discriminate|].
        split; [discriminate|]. intros v r H. injection H as <- <-.
        rewrite E1. discriminate.
      * destruct (strptime_attr (creation_time v0) TIME_FORMAT_2) eqn:E2;
          eexists; (split; [reflexivity|]); (split; [discriminate|]);
          (split; [discriminate|]); intros v r H; injection H as <- <-;
          rewrite ?E1, ?E2; try reflexivity; discriminate.
  - run. exists None. auto.
Qed.

Lemma get_video_end_time_exists (s : state) :
  isfile w video_file = true ->
  exists r, get_video_end_time w video_file s = (Ok r, s).
Proof.
  intros Hf. unfold get_video_end_time. rewrite Hf. cbn [negb]. run.
  rewrite Hf. run.
  destruct (probe_video w video_file) as [|v0 rest]; run; [eauto|].
  destruct (strptime_attr (creation_time v0) TIME_FORMAT); [eauto|].
  destruct (strptime_attr (creation_time v0) TIME_FORMAT_2); eauto.
Qed.

(** The duration, for a file that exists: no exception, at most one
    line. *)
Lemma get_video_duration_exists (s : state) :
  isfile w video_file = true ->
  exists r l,
    get_video_duration w video_file s = (Ok r, logged l s)
    /\ (List.length l <= 1)%nat
    /\ (r = None <->
        probe_video w video_file = []
        \/ exists v0 rest, probe_video w video_file = v0 :: rest
             /\ is_ok (float_of_attr (duration v0)) = false)
    /\ (forall d, r = Some d ->
        exists v0 rest, probe_video w video_file = v0 :: rest
             /\ float_of_attr (duration v0) = Ok d).
Proof.
  intros Hf. unfold get_video_duration. run. rewrite Hf. run.
  destruct (probe_video w video_file) as [|v0 rest] eqn:Hp; run.
  - exists None, [MsgNoVideoFound video_file].
    split; [reflexivity|]. split; [cbn; lia|]. split; [tauto | discriminate].
  - destruct (float_of_attr (duration v0)) as [d|e] eqn:Hd; run.
    + exists (Some d), []. rewrite logged_nil.
      split; [reflexivity|]. split; [cbn; lia|]. split.
      * split; [discriminate|].
        intros [H | (v & r & E & H)]; [discriminate|].
        injection E as <- <-. rewrite Hd in H. discriminate H.
      * intros d' E. injection E as <-. eauto.
    + exists None, [MsgBadDuration (duration v0) video_file e].
      split; [reflexivity|]. split; [cbn; lia|]. split.
      * split; [|reflexivity]. intros _. right. exists v0, rest.
        rewrite Hd. auto.
      * discriminate.
Qed.

(** X7.  [get_video_start_time] returns [None] for the causes listed
    in [no_probe_result] and for no other: a file that exists, with a
    first stream whose duration is a float and whose creation time
    matches a format, gives a start time or raises. *)
Theorem get_video_start_time_none_iff (s : state) :
  fst (get_video_start_time w video_file s) = Ok None
  <-> no_probe_result w video_file.
Proof.
  split.
  2:{ intros H. destruct (get_video_start_time_none w video_file s H) as [s' ->].
      reflexivity. }
  unfold get_video_start_time, no_probe_result.
  destruct (isfile w video_file) eqn:Hf; cbn [negb]; [|auto].
  destruct (probe_video w video_file) as [|v0 rest] eqn:Hp; [auto|].
  unfold Video.bind at 1.
  rewrite (get_video_end_time_run w video_file s v0 rest Hf Hp).
  unfold Video.bind at 1. unfold get_video_duration. run. rewrite Hf. run.
  rewrite Hp.
  intros H. right. right. exists v0, rest. split; [reflexivity|].
  destruct (float_of_attr (duration v0)) as [d|e]; [|now left]. right.
  destruct (strptime_attr (creation_time v0) TIME_FORMAT) as [t|].
  - exfalso. run.
    destruct (PyTime.timedelta_of_seconds d) as [delta|]; cbn [rbind] in H;
      [|discriminate H].
    destruct (PyTime.sub t delta); discriminate H.
  - split; [reflexivity|].
    destruct (strptime_attr (creation_time v0) TIME_FORMAT_2) as [t|];
      [|reflexivity].
    exfalso. run.
    destruct (PyTime.timedelta_of_seconds d) as [delta|]; cbn [rbind] in H;
      [|discriminate H].
    destruct (PyTime.sub t delta); discriminate H.
Qed.

(** What [get_video_start_time] leaves behind, and what it raises. *)
Lemma get_video_start_time_logs (s : state) :
  exists r l,
    get_video_start_time w video_file s = (r, logged l s)
    /\ (List.length l <= 1)%nat
    /\ (forall e, r = Err e -> e = ValueError \/ e = OverflowError).
Proof.
  unfold get_video_start_time.
  destruct (isfile w video_file) eqn:Hf; cbn [negb].
  2:{ run. exists (Ok None), [MsgNoSuchVideo video_file].
      split; [reflexivity|]. split; [cbn; lia | discriminate]. }
  unfold Video.bind at 1.
  destruct (get_video_end_time_exists s Hf) as (e & ->).
  unfold Video.bind at 1.
  destruct (get_video_duration_exists s Hf) as (d & l & -> & Hl & _).
  exists (match e, d with
          | Some e, Some d =>
              rbind (rbind (PyTime.timedelta_of_seconds d) (PyTime.sub e))
                    (fun t => Ok (Some t))
          | _, _ => Ok None
          end), l.
  split; [|split; [exact Hl|]].
  - destruct e as [e|], d as [d|]; run; try reflexivity.
    destruct (PyTime.timedelta_of_seconds d) as [delta|]; cbn [rbind];
      [|reflexivity].
    destruct (PyTime.sub e delta); reflexivity.
  - intros x. destruct e as [e|], d as [d|]; try discriminate.
    unfold PyTime.timedelta_of_seconds, PyTime.check_delta, PyTime.sub.
    destruct d; cbn [rbind];
      try (intros H; injection H as <-; auto; fail);
      (destruct (_ && _); cbn [rbind];
       [|intros H; injection H as <-; auto]);
      (destruct (PyTime.in_range _); cbn [rbind];
       [discriminate | intros H; injection H as <-; auto]).
Qed.


End Effects.

(** ** What [extract_frames] does in every run *)

Section Sampling.
Import Video.
Local Open Scope list_scope.
Variable w : world.
Variable video_file import_path : string.
Variable interval ratio : float.
Variable verbose : bool.

Ltac run := cbv beta iota delta [Video.bind Video.lift Video.ret
              Video.try_except Video.raise Video.FFProbe Video.print
              Video.subprocess_call].

Lemma resolve_start_time_calls (video_start_time : option Z) (s : state) :
  exists r l, resolve_start_time w video_file video_start_time s = (r, logged l s).
Proof.
  assert (H : exists r l,
            (t <- get_video_start_time w video_file ;;
             match t with
             | Some t => ret t
             | None => print MsgStartTimeDefaulted ;;;
                       lift (utcfromtimestamp_int 0)
             end)%vid s = (r, logged l s)).
  { unfold Video.bind at 1.
    destruct (get_video_start_time_logs w video_file s) as (r & l & -> & _).
    destruct r as [[t|]|e]; run.
    - eauto.
    - eexists _, (l ++ [MsgStartTimeDefaulted]).
      rewrite <- logged_logged. reflexivity.
    - eauto. }
  unfold resolve_start_time. destruct video_start_time as [ms|]; [|exact H].
  destruct (ms =? 0); [exact H|]. run. eexists _, []. now rewrite logged_nil.
Qed.

(** [insert_video_frame_timestamp] and [extract_frames] only add to
    the effects recorded. *)
Lemma insert_video_frame_timestamp_appends
    (vf path : string) (start : PyTime.datetime) (s : state) :
  exists r l pairs,
    insert_video_frame_timestamp w vf path start interval ratio verbose s
    = (r, mkState (log s ++ l) (calls s) (writer_calls s ++ pairs)
                  (stamped s ++ written w pairs)).
Proof.
  unfold insert_video_frame_timestamp.
  destruct (total_file_list w path) as [|f frames].
  - exists (Ok tt), [MsgNoFramesSampled], []. unfold print, written.
    cbn [filter]. now rewrite !app_nil_r.
  - run.
    destruct (timestamps_from_filename vf (f :: frames) start interval ratio)
      as [ts|e].
    + rewrite stamp_frames_run. eauto.
    + exists (Err e), [], []. unfold written. cbn [filter].
      rewrite !app_nil_r. destruct s; reflexivity.
Qed.

Lemma extract_frames_appends (video_start_time : option Z) (s : state) :
  exists r l pairs,
    extract_frames w video_file import_path interval video_start_time
      ratio verbose s
    = (r, mkState (log s ++ l)
            (calls s ++
               [mkCommand video_file interval
                  (path_join import_path (stem (PyStr.basename video_file))
                   ++ "_%06d.jpg")])
            (writer_calls s ++ pairs) (stamped s ++ written w pairs)).
Proof.
  rewrite extract_frames_run.
  destruct (resolve_start_time_calls video_start_time
              (sampled video_file import_path interval verbose s))
    as (r & l & ->).
  destruct r as [t|e].
  - destruct (insert_video_frame_timestamp_appends
                (stem (PyStr.basename video_file)) import_path t
                (logged l (sampled video_file import_path interval verbose s)))
      as (r' & l' & pairs & ->).
    exists r', ((if verbose then [MsgExtracting video_file] else []) ++ l ++ l'), pairs.
    unfold logged, sampled, printed.
    destruct verbose; cbn; rewrite <- ?app_assoc; reflexivity.
  - exists (Err e), ((if verbose then [MsgExtracting video_file] else []) ++ l), [].
    unfold written, logged, sampled, printed. cbn [filter].
    destruct verbose; cbn; rewrite <- ?app_assoc, ?app_nil_r; reflexivity.
Qed.

(** X9.  Every run of [extract_frames] calls the sampling tool once,
    whether it then returns or raises: on the video file, at the given
    interval, with the output template
    [<import_path>/<base name>_%06d.jpg]. *)
Theorem extract_frames_samples_once (video_start_time : option Z) (s : state) :
  calls (snd (extract_frames w video_file import_path interval
                video_start_time ratio verbose s))
  = calls s ++
      [mkCommand video_file interval
         (path_join import_path (stem (PyStr.basename video_file)) ++ "_%06d.jpg")].
Proof.
  destruct (extract_frames_appends video_start_time s) as (r & l & pairs & ->).
  reflexivity.
Qed.

(** X10.  A duration that [float] reads as [nan] or as an infinity
    (the strings [nan], [inf], [1e999]) is not a degraded case: with no
    start time given, [extract_frames] raises [ValueError] or
    [OverflowError] once the sampling tool has run, and stamps no
    frame. *)
Theorem extract_frames_raises_on_unbounded_duration
    (v0 : stream) (rest : list stream) (d : float) (s : state) :
  isfile w video_file = true ->
  probe_video w video_file = v0 :: rest ->
  float_of_attr (duration v0) = Ok d ->
  PyFloat.is_finite d = false ->
  (is_ok (strptime_attr (creation_time v0) TIME_FORMAT) = true
   \/ is_ok (strptime_attr (creation_time v0) TIME_FORMAT_2) = true) ->
  extract_frames w video_file import_path interval None ratio verbose s
  = (Err match d with S754_nan => ValueError | _ => OverflowError end,
     sampled video_file import_path interval verbose s).
Proof.
  intros Hf Hp Hd Hfin Hc. rewrite extract_frames_run.
  unfold resolve_start_time, get_video_start_time. rewrite Hf. cbn [negb].
  unfold Video.bind at 1. unfold Video.bind at 1.
  rewrite (get_video_end_time_run w video_file _ v0 rest Hf Hp).
  unfold Video.bind at 1.
  rewrite (get_video_duration_run w video_file _ v0 rest d Hf Hp Hd).
  assert (E : exists t,
            match strptime_attr (creation_time v0) TIME_FORMAT with
            | Ok t => Some t
            | Err _ =>
                match strptime_attr (creation_time v0) TIME_FORMAT_2 with
                | Ok t => Some t
                | Err _ => None
                end
            end = Some t).
  { destruct (strptime_attr (creation_time v0) TIME_FORMAT); [eauto|].
    destruct (strptime_attr (creation_time v0) TIME_FORMAT_2); [eauto|].
    destruct Hc as [Hc | Hc]; discriminate Hc. }
  destruct E as [t ->]. run.
  destruct d; try discriminate Hfin; reflexivity.
Qed.

End Sampling.

Lemma extract_frames_raises_on_unbounded_duration_witness :
  Video.extract_frames nan_world "video.mp4" "out" PyFloat.f2_0 None
    PyFloat.f1_0 false Video.init
  = (Err ValueError, sampled "video.mp4" "out" PyFloat.f2_0 false Video.init).
Proof.
  exact (extract_frames_raises_on_unbounded_duration nan_world "video.mp4" "out"
           PyFloat.f2_0 PyFloat.f1_0 false _ [] S754_nan Video.init
           eq_refl eq_refl eq_refl eq_refl (or_introl eq_refl)).
Defined.

(** ** Paths and base names *)

Module PathFacts.
Import PyStr.

Lemma mem_app c a b : mem c (a ++ b) = mem c a || mem c b.
Proof.
  induction a as [|d a IH]; cbn [append mem]; [reflexivity|].
  destruct (Ascii.eqb c d); [reflexivity | exact IH].
Qed.

Lemma basename_no_slash p : mem "/" (basename p) = false.
Proof.
  induction p as [|c r IH]; [reflexivity|]. cbn [basename].
  destruct (mem "/" r) eqn:E; [exact IH|].
  destruct (Ascii.eqb c "/") eqn:Ec; [exact E|].
  cbn [mem]. rewrite Ascii.eqb_sym, Ec. exact E.
Qed.

Lemma basename_plain t : mem "/" t = false -> basename t = t.
Proof.
  destruct t as [|c r]; [reflexivity|]. cbn [mem basename].
  destruct (Ascii.eqb "/" c) eqn:Ec; [discriminate|]. intros ->.
  rewrite Ascii.eqb_sym, Ec. reflexivity.
Qed.

(** What follows the last slash. *)
Lemma basename_slash a t : mem "/" t = false -> basename (a ++ "/" ++ t) = t.
Proof.
  intros Ht. change ("/" ++ t) with (String "/" t).
  induction a as [|c a IH].
  - cbn [append basename]. rewrite Ht. reflexivity.
  - cbn [append basename]. rewrite IH.
    rewrite mem_app. cbn [mem]. change (Ascii.eqb "/" "/") with true.
    rewrite orb_true_r. reflexivity.
Qed.

Lemma ends_with_slash_app a :
  Video.ends_with_slash a = true -> exists a', a = a' ++ "/".
Proof.
  induction a as [|c a IH]; [discriminate|]. cbn [Video.ends_with_slash].
  destruct a as [|d a'].
  - intros H. apply Ascii.eqb_eq in H. subst. now exists "".
  - intros H. destruct (IH H) as [a0 E]. exists (String c a0).
    cbn [append]. now rewrite <- E.
Qed.

Lemma stem_no_slash s : mem "/" s = false -> mem "/" (Video.stem s) = false.
Proof.
  induction s as [|c r IH]; [reflexivity|]. cbn [mem Video.stem].
  destruct (Ascii.eqb "/" c) eqn:Ec; [discriminate|]. intros H.
  destruct (mem "." r); [|reflexivity]. cbn [mem]. rewrite Ec. now apply IH.
Qed.

Lemma digits_no_slash t : digits_only t = true -> mem "/" t = false.
Proof.
  induction t as [|c r IH]; [reflexivity|]. cbn [digits_only mem].
  intros H. apply andb_true_iff in H as [Hc Hr].
  rewrite (IH Hr).
  PyStrFacts.digit_case c Hc; reflexivity.
Qed.

(** The base name of a path made by [os.path.join] from a directory and
    a name without slash. *)
Lemma basename_path_join a b t :
  mem "/" (b ++ t) = false ->
  basename (Video.path_join a b ++ t) = b ++ t.
Proof.
  intros H. unfold Video.path_join.
  assert (Hb : match b with
               | String "/" _ => False
               | _ => True
               end).
  { destruct b as [|c b']; [exact I|].
    cbn [append mem] in H.
    destruct (Ascii.eqb "/" c) eqn:Ec; [discriminate H|].
    destruct c as [[] [] [] [] [] [] [] []]; try exact I. discriminate Ec. }
  assert (E : basename (match a with
                        | EmptyString => b
                        | String _ _ =>
                            if Video.ends_with_slash a then a ++ b
                            else a ++ "/" ++ b
                        end ++ t) = b ++ t).
  { destruct a as [|c a'] eqn:Ea; [now apply basename_plain|].
    rewrite <- Ea.
    destruct (Video.ends_with_slash a) eqn:Es.
    - destruct (ends_with_slash_app a Es) as [a0 ->].
      rewrite !PyStrFacts.append_assoc. now apply basename_slash.
    - rewrite !PyStrFacts.append_assoc. now apply basename_slash. }
  destruct b as [|c b']; [exact E|].
  destruct c as [[] [] [] [] [] [] [] []]; try exact E. contradiction.
Qed.

Lemma stem_plain name : mem "." name = false -> Video.stem name = EmptyString.
Proof.
  destruct name as [|c r]; [reflexivity|]. cbn [mem Video.stem].
  destruct (Ascii.eqb "." c); [discriminate|]. now intros ->.
Qed.

Lemma stem_dot a ext : mem "." ext = false -> Video.stem (a ++ "." ++ ext) = a.
Proof.
  intros He. change ("." ++ ext) with (String "." ext).
  induction a as [|c a IH].
  - cbn [append Video.stem]. now rewrite He.
  - cbn [append Video.stem]. rewrite mem_app. cbn [mem].
    change (Ascii.eqb "." ".") with true. rewrite orb_true_r. now rewrite IH.
Qed.

End PathFacts.

(** X11.  The base name of a video is what precedes the last dot of
    its file name, whatever directory the file is in: [a.b.mp4] gives
    [a.b]; a name without a dot gives the empty string (the frames of a
    video [clip] are named [_000001.jpg], ...).  It contains no
    slash. *)
Theorem stem_last_dot (video_file : string) :
  (forall a ext : string,
     PyStr.mem "." ext = false ->
     PyStr.basename video_file = a ++ "." ++ ext ->
     Video.stem (PyStr.basename video_file) = a)
  /\ (PyStr.mem "." (PyStr.basename video_file) = false ->
      Video.stem (PyStr.basename video_file) = EmptyString)
  /\ PyStr.mem "/" (Video.stem (PyStr.basename video_file)) = false.
Proof.
  split; [|split].
  - intros a ext He ->. now apply PathFacts.stem_dot.
  - apply PathFacts.stem_plain.
  - apply PathFacts.stem_no_slash, PathFacts.basename_no_slash.
Qed.

(** X12.  The names agree: the file that the output template of
    [extract_frames] names for the index [n] has, as its base name, the
    name from which [timestamp_from_filename] reads [n] back, for every
    video file and import path. *)
Theorem extract_frames_names_round_trip (video_file import_path : string) (n : Z) :
  1 <= n ->
  let video_filename := Video.stem (PyStr.basename video_file) in
  let frame :=
    Video.path_join import_path video_filename
    ++ "_" ++ PyStr.zero_padded Video.ZERO_PADDING n ++ ".jpg" in
  PyStr.basename frame = frame_filename video_filename n
  /\ Video.frame_index video_filename (PyStr.basename frame) = Ok n.
Proof.
  intros Hn video_filename frame.
  assert (E : PyStr.basename frame = frame_filename video_filename n).
  { unfold frame, frame_filename. apply PathFacts.basename_path_join.
    rewrite !PathFacts.mem_app.
    unfold video_filename.
    rewrite PathFacts.stem_no_slash by apply PathFacts.basename_no_slash.
    rewrite (PathFacts.digits_no_slash (PyStr.zero_padded Video.ZERO_PADDING n)).
    - reflexivity.
    - unfold PyStr.zero_padded.
      rewrite PyStrFacts.digits_only_app, PyStrFacts.digits_only_zeros.
      now apply PyStrFacts.numeral_digits. }
  split; [exact E|]. rewrite E. now apply frame_index_frame_filename.
Qed.

Lemma extract_frames_names_round_trip_witness :
  PyStr.basename "out/video_000012.jpg" = "video_000012.jpg"
  /\ Video.frame_index "video" (PyStr.basename "out/video_000012.jpg") = Ok 12.
Proof.
  apply (extract_frames_names_round_trip "clips/video.mp4" "out" 12). lia.
Defined.

Lemma stem_last_dot_witness :
  Video.stem (PyStr.basename "clips/a.b.mp4") = "a.b"
  /\ Video.stem (PyStr.basename "clips/.hidden") = ""
  /\ Video.stem (PyStr.basename "clips/video") = "".
Proof.
  split; [|split].
  - apply (proj1 (stem_last_dot "clips/a.b.mp4") "a.b" "mp4"); reflexivity.
  - apply (proj1 (stem_last_dot "clips/.hidden") "" "hidden"); reflexivity.
  - apply (proj1 (proj2 (stem_last_dot "clips/video"))); reflexivity.
Defined.

(** ** The timestamps written, and the start time given by the caller *)

Section Written.
Import Video.
Local Open Scope list_scope.
Variable w : world.

Ltac run := cbv beta iota delta [Video.bind Video.lift Video.ret
              Video.try_except Video.raise Video.FFProbe Video.print
              Video.subprocess_call].

Lemma timestamps_from_filename_combine vf frames start i r : forall ts,
  timestamps_from_filename vf frames start i r = Ok ts ->
  Forall (fun p => timestamp_from_filename vf (PyStr.basename (fst p)) start i r
                   = Ok (snd p))
         (combine frames ts).
Proof.
  induction frames as [|f frames IH]; intros ts H; cbn in H.
  - injection H as <-. constructor.
  - destruct (timestamp_from_filename vf (PyStr.basename f) start i r) eqn:E;
      cbn in H; [|discriminate].
    destruct (timestamps_from_filename vf frames start i r);
      cbn in H; [|discriminate].
    injection H as <-. cbn [combine]. constructor; [exact E|]. now apply IH.
Qed.

(** X13.  Whatever the frame list and the outcome, every timestamp
    handed to the writer is the one derived from the name of the frame
    it is written to; the writer is invoked on the whole frame list in
    order, or not at all; the frames stamped are those of these
    invocations that succeed. *)
Theorem insert_video_frame_timestamp_writes_own_times
    (vf path : string) (start : PyTime.datetime) (i r : float)
    (verbose : bool) (s : state) :
  let s' := snd (insert_video_frame_timestamp w vf path start i r verbose s) in
  exists pairs,
    writer_calls s' = writer_calls s ++ pairs
    /\ stamped s' = stamped s ++ written w pairs
    /\ Forall (fun p => timestamp_from_filename vf (PyStr.basename (fst p)) start i r
                        = Ok (snd p)) pairs
    /\ (pairs = [] \/ map fst pairs = total_file_list w path).
Proof.
  unfold insert_video_frame_timestamp.
  destruct (total_file_list w path) as [|f frames] eqn:E.
  - exists []. cbn. rewrite !app_nil_r. auto.
  - run.
    destruct (timestamps_from_filename vf (f :: frames) start i r) as [ts|] eqn:Hts.
    + exists (combine (f :: frames) ts). rewrite stamp_frames_run.
      cbn [snd writer_calls stamped].
      split; [reflexivity|]. split; [reflexivity|]. split.
      * now apply timestamps_from_filename_combine.
      * right. apply map_fst_combine.
        now apply timestamps_from_filename_length in Hts.
    + exists []. cbn [snd written filter]. rewrite !app_nil_r. auto.
Qed.

Lemma stamp_frames_with_probe isfile' probe' (pairs : list (string * PyTime.datetime)) (s : state) :
  stamp_frames (with_probe w isfile' probe') pairs s = stamp_frames w pairs s.
Proof. rewrite !stamp_frames_run. reflexivity. Qed.

(** X14.  With a start time other than 0 given by the caller,
    [extract_frames] does not look at the video file: the run is the
    same whether the file exists or not and whatever the probe would
    report, and the warning of the default start time is not
    printed. *)
Theorem extract_frames_explicit_ignores_probe
    (isfile' : string -> bool) (probe' : string -> list stream)
    (video_file import_path : string) (interval ratio : float)
    (ms : Z) (verbose : bool) (s : state) :
  ms <> 0 ->
  extract_frames (with_probe w isfile' probe') video_file import_path interval
    (Some ms) ratio verbose s
  = extract_frames w video_file import_path interval (Some ms) ratio verbose s
  /\ (~ In MsgStartTimeDefaulted (log s) ->
      ~ In MsgStartTimeDefaulted
          (log (snd (extract_frames w video_file import_path interval
                       (Some ms) ratio verbose s)))).
Proof.
  intros Hms. rewrite !extract_frames_run.
  rewrite !resolve_start_time_explicit by exact Hms.
  set (conv := rbind (PyFloat.of_int ms) _).
  destruct conv as [t|e].
  - unfold insert_video_frame_timestamp.
    change (total_file_list (with_probe w isfile' probe') import_path)
      with (total_file_list w import_path).
    destruct (total_file_list w import_path) as [|f frames] eqn:E.
    + split; [reflexivity|]. intros Hn.
      destruct verbose; cbn; rewrite !in_app_iff; cbn; intuition discriminate.
    + run.
      destruct (timestamps_from_filename _ (f :: frames) t interval ratio) as [ts|].
      * rewrite stamp_frames_with_probe. split; [reflexivity|].
        rewrite stamp_frames_run. intros Hn.
        unfold write_failures.
        destruct verbose; cbn [snd log sampled printed]; rewrite !in_app_iff;
          rewrite in_map_iff; cbn [In];
          intros H; decompose [or ex and] H; try contradiction; discriminate.
      * split; [reflexivity|]. intros Hn.
        destruct verbose; cbn; rewrite ?in_app_iff; cbn; intuition discriminate.
  - split; [reflexivity|]. intros Hn.
    destruct verbose; cbn; rewrite ?in_app_iff; cbn; intuition discriminate.
Qed.

End Written.

Lemma extract_frames_explicit_ignores_probe_witness :
  Video.extract_frames (with_probe probe_frame_world (fun _ => false) (fun _ => []))
    "video.mp4" "out" PyFloat.f2_0 (Some 1000) PyFloat.f1_0 false Video.init
  = Video.extract_frames probe_frame_world
      "video.mp4" "out" PyFloat.f2_0 (Some 1000) PyFloat.f1_0 false Video.init.
Proof.
  apply (extract_frames_explicit_ignores_probe probe_frame_world
           (fun _ => false) (fun _ => []) "video.mp4" "out"
           PyFloat.f2_0 PyFloat.f1_0 1000 false Video.init).
  lia.
Defined.

(** ** The scan of the container: termination, bounds, reads *)

Section Scan.
Import PyFile.
Local Open Scope list_scope.

Lemma byte_val_bound (b : ascii) : 0 <= byte_val b < 256.
Proof.
  unfold byte_val. pose proof (N_ascii_bounded b). lia.
Qed.

Lemma unpack_be32_bound (b : bytes) (n : Z) :
  unpack_be32 b = Ok n -> 0 <= n < 4294967296.
Proof.
  destruct b as [|b0 [|b1 [|b2 [|b3 [|? ?]]]]]; cbn; intros H;
    try discriminate H. injection H as <-.
  pose proof (byte_val_bound b0). pose proof (byte_val_bound b1).
  pose proof (byte_val_bound b2). pose proof (byte_val_bound b3). lia.
Qed.

(** The start time read from a movie header, when one is read. *)
Lemma read_movie_header_ok (data : bytes) (offset : Z) (t : PyTime.datetime) :
  Video.read_movie_header data offset = Ok t ->
  exists c d,
    0 <= c < 4294967296 /\ 0 <= d < 4294967296
    /\ t = PyTime.epoch_1904 + (c * 1000 - d) * 1000.
Proof.
  unfold Video.read_movie_header.
  destruct (read data (offset + 8) 4) as [b1 p1].
  destruct (unpack_be32 b1); cbn [rbind]; [|discriminate].
  destruct (read data p1 4) as [b2 p2].
  destruct (read data (p2 + 4) 4) as [b3 p3].
  destruct (unpack_be32 b3) as [c|] eqn:Ec; cbn [rbind]; [|discriminate].
  destruct (read data p3 4) as [b4 p4].
  destruct (unpack_be32 b4); cbn [rbind]; [|discriminate].
  destruct (read data p4 4) as [b5 p5].
  destruct (unpack_be32 b5); cbn [rbind]; [|discriminate].
  destruct (read data p5 4) as [b6 p6].
  destruct (unpack_be32 b6) as [d|] eqn:Ed; cbn [rbind]; [|discriminate].
  apply unpack_be32_bound in Ec, Ed.
  pose proof (start_time_in_range c d Ec Ed) as H. cbn [rbind] in H.
  destruct (PyTime.timedelta_of_milliseconds (c * 1000 - d)) as [delta|];
    cbn [rbind] in *; [|discriminate].
  rewrite H. intros E. exists c, d. split; [exact Ec|]. split; [exact Ed|].
  congruence.
Qed.

Lemma read_movie_header_err (data : bytes) (offset : Z) (e : exn) :
  Video.read_movie_header data offset = Err e -> e = StructError.
Proof.
  unfold Video.read_movie_header.
  destruct (read data (offset + 8) 4) as [b1 p1].
  destruct (unpack_be32 b1) eqn:E1; cbn [rbind].
  2:{ destruct b1 as [|? [|? [|? [|? [|? ?]]]]]; cbn in E1; congruence. }
  destruct (read data p1 4) as [b2 p2].
  destruct (read data (p2 + 4) 4) as [b3 p3].
  destruct (unpack_be32 b3) as [c|] eqn:Ec; cbn [rbind].
  2:{ destruct b3 as [|? [|? [|? [|? [|? ?]]]]]; cbn in Ec; congruence. }
  destruct (read data p3 4) as [b4 p4].
  destruct (unpack_be32 b4) eqn:E4; cbn [rbind].
  2:{ destruct b4 as [|? [|? [|? [|? [|? ?]]]]]; cbn in E4; congruence. }
  destruct (read data p4 4) as [b5 p5].
  destruct (unpack_be32 b5) eqn:E5; cbn [rbind].
  2:{ destruct b5 as [|? [|? [|? [|? [|? ?]]]]]; cbn in E5; congruence. }
  destruct (read data p5 4) as [b6 p6].
  destruct (unpack_be32 b6) as [d|] eqn:Ed; cbn [rbind].
  2:{ destruct b6 as [|? [|? [|? [|? [|? ?]]]]]; cbn in Ed; congruence. }
  apply unpack_be32_bound in Ec, Ed.
  pose proof (start_time_in_range c d Ec Ed) as H.
  destruct (PyTime.timedelta_of_milliseconds (c * 1000 - d)) as [delta|];
    cbn [rbind] in *; [rewrite H; discriminate | discriminate H].
Qed.

Lemma parse_box_err (structure : bytes -> bytes -> option nat)
    (data : bytes) (pos : Z) (e : exn) :
  parse_box structure data pos = Err e -> e = ConstructError \/ e = IOError.
Proof.
  unfold parse_box.
  destruct (read data pos 4) as [hd p1].
  destruct (unpack_be32 hd) as [size|]; [|intros H; injection H as <-; auto].
  destruct (size <? 8); [intros H; injection H as <-; auto|].
  destruct (read data p1 (Z.to_nat (size - 4))) as [body p2].
  destruct (_ <? _); [intros H; injection H as <-; auto|].
  cbv zeta. destruct (structure _ _); [discriminate|].
  intros H; injection H as <-; auto.
Qed.

Lemma scan_boxes_result (w : Video.world) (data : bytes) :
  forall (fuel : nat) (pos : Z) r,
  Video.scan_boxes w fuel data pos = Some r ->
  match r with
  | Ok None => True
  | Ok (Some t) =>
      exists c d,
        0 <= c < 4294967296 /\ 0 <= d < 4294967296
        /\ t = PyTime.epoch_1904 + (c * 1000 - d) * 1000
  | Err e =>
      e = IOError \/ e = ConstructError \/ e = ValueError \/ e = StructError
  end.
Proof.
  induction fuel as [|fuel IH]; intros pos r; cbn [Video.scan_boxes];
    [discriminate|].
  destruct (pos <? Z.of_nat (List.length data)).
  2:{ intros H. injection H as <-. exact I. }
  destruct (parse_box (Video.box_structure w) data pos) as [b|e] eqn:P.
  2:{ intros H. injection H as <-. apply parse_box_err in P. tauto. }
  unfold decode_utf8.
  destruct (utf8_valid (box_type b)).
  2:{ intros H. injection H as <-. auto. }
  destruct (String.eqb _ "moov"); [|apply IH].
  intros H. injection H as <-.
  destruct (Video.read_movie_header data (box_offset b)) as [t|e] eqn:R;
    cbn [rbind].
  - now apply read_movie_header_ok in R.
  - right. right. right. now apply read_movie_header_err in R.
Qed.

(** More iterations than needed change nothing. *)
Lemma scan_boxes_more (w : Video.world) (data : bytes) :
  forall (fuel : nat) (pos : Z) r,
  Video.scan_boxes w fuel data pos = Some r ->
  forall fuel', (fuel <= fuel')%nat -> Video.scan_boxes w fuel' data pos = Some r.
Proof.
  induction fuel as [|fuel IH]; intros pos r H fuel' Hle; [discriminate H|].
  destruct fuel' as [|fuel']; [lia|].
  cbn [Video.scan_boxes] in *.
  destruct (pos <? Z.of_nat (List.length data)); [|exact H].
  destruct (parse_box (Video.box_structure w) data pos) as [b|e]; [|exact H].
  destruct (decode_utf8 (box_type b)) as [ty|]; [|exact H].
  destruct (String.eqb ty "moov"); [exact H|].
  apply (IH _ _ H). lia.
Qed.

Variable w : Video.world.
Variable video_file : string.

(** X15.  The loop over the boxes ends on every file: each box parsed
    is at least 8 bytes long, so that the function returns or raises
    after at most as many iterations as the file has bytes, and one to
    see its end; more iterations give the same outcome. *)
Theorem get_video_start_time_blackvue_terminates :
  exists r,
    Video.get_video_start_time_blackvue w video_file = Some r
    /\ forall data, Video.file_bytes w video_file = Some data ->
       forall fuel, (List.length data < fuel)%nat ->
         Video.scan_boxes w fuel data 0 = Some r.
Proof.
  unfold Video.get_video_start_time_blackvue.
  destruct (Video.file_bytes w video_file) as [data|].
  - destruct (Video.scan_boxes w (S (List.length data)) data 0) as [r|] eqn:E.
    + exists r. split; [reflexivity|]. intros data' H fuel Hf.
      injection H as <-. apply (scan_boxes_more _ _ _ _ _ E). lia.
    + exfalso. revert E. apply scan_boxes_total; lia.
  - eexists. split; [reflexivity|]. discriminate.
Qed.

(** X16.  A start time taken from the container lies between
    1903-11-12T06:57:12.705 and 2040-02-06T06:28:15 (the two fields are
    32 bits wide), so that the date arithmetic never overflows: the
    function raises nothing but the error of opening the file, of the
    box parser, of the decoding of a box type and of a short read. *)
Theorem get_video_start_time_blackvue_bounds :
  match Video.get_video_start_time_blackvue w video_file with
  | Some (Ok (Some t)) =>
      at_time 1903 11 12 6 57 12 + 705000 <= t <= at_time 2040 2 6 6 28 15
      /\ PyTime.in_range t = true
  | Some (Ok None) => True
  | Some (Err e) =>
      e = IOError \/ e = ConstructError \/ e = ValueError \/ e = StructError
  | None => False
  end.
Proof.
  pose proof (get_video_start_time_blackvue_total w video_file) as Ht.
  unfold Video.get_video_start_time_blackvue in *.
  destruct (Video.file_bytes w video_file) as [data|]; [|auto].
  destruct (Video.scan_boxes w (S (List.length data)) data 0) as [r|] eqn:E;
    [|congruence].
  apply scan_boxes_result in E.
  destruct r as [[t|]|e]; [| exact I | tauto].
  destruct E as (c & d & Hc & Hd & ->).
  change (at_time 1903 11 12 6 57 12) with 60048457032000000.
  change (at_time 2040 2 6 6 28 15) with 64347719295000000.
  change PyTime.epoch_1904 with 60052752000000000.
  split; [lia|]. unfold PyTime.in_range.
  change (PyTime.max_ordinal * PyTime.us_per_day) with 315537897600000000.
  apply andb_true_iff. split; [apply Z.leb_le | apply Z.ltb_lt]; lia.
Qed.

(** X17.  The reads of the movie header are not confined to the [moov]
    box, nor is the type of the box inside it looked at: after boxes
    that the box parser takes and a [moov] box that it takes, the
    creation time and the duration are the 32-bit fields 12 and 24 bytes
    after the header of the [moov] box, in whatever follows that header
    in the file; a [moov] box with an empty payload makes the function
    read them in what comes after the box. *)
Theorem get_video_start_time_blackvue_reads_past_box
    (pre : list (bytes * bytes)) (payload trailing hdr mid tail : bytes) (c d : Z)
    (n : nat) :
  Forall (accepted w) pre -> Forall not_moov pre ->
  box_ok (tag "moov", payload) ->
  Video.box_structure w (tag "moov") payload = Some n ->
  List.length hdr = 12%nat -> List.length mid = 8%nat ->
  0 <= c < 4294967296 -> 0 <= d < 4294967296 ->
  payload ++ trailing = hdr ++ pack_be32 c ++ mid ++ pack_be32 d ++ tail ->
  Video.file_bytes w video_file
  = Some (encode_boxes pre ++ encode_box (tag "moov", payload) ++ trailing) ->
  Video.get_video_start_time_blackvue w video_file
  = Some (Ok (Some (PyTime.epoch_1904 + (c * 1000 - d) * 1000))).
Proof.
  intros Hok Hnm Hbox Hs Hh Hm Hc Hd Hfields Hf.
  rewrite (blackvue_at_moov w video_file pre payload trailing n
             Hok Hnm Hbox Hs Hf).
  rewrite Hfields, read_movie_header_values by assumption. reflexivity.
Qed.

End Scan.

Lemma get_video_start_time_blackvue_reads_past_box_witness :
  Video.get_video_start_time_blackvue (file_world empty_moov_container) "video.mp4"
  = Some (Ok (Some (PyTime.epoch_1904 + (3600 * 1000 - 1500) * 1000))).
Proof.
  refine (get_video_start_time_blackvue_reads_past_box
            (file_world empty_moov_container) "video.mp4"
            [(tag "wide", [])] [] sample_movie_header
            (pack_be32 108 ++ tag "mvhd" ++ pack_be32 0)%list
            (pack_be32 3600 ++ pack_be32 1000)%list [] 3600 1500 0
            _ _ _ _ _ _ _ _ _ _).
  - constructor; [|constructor]. split; [|reflexivity].
    split; [reflexivity|]. split; reflexivity.
  - constructor; [|constructor]. reflexivity.
  - split; [reflexivity|]. split; reflexivity.
  - reflexivity.
  - reflexivity.
  - reflexivity.
  - lia.
  - lia.
  - reflexivity.
  - reflexivity.
Defined.

(** ** The batch *)

Section BatchRuns.
Local Open Scope list_scope.
Variable e : Batch.env.
Variable video_import_path : string.
Variable interval ratio : PyFloat.float.
Variable start : option Z.
Variable verbose : bool.

Ltac brun := cbv beta iota delta [Batch.bind Batch.ret Batch.exit Batch.print
               Batch.os_path_isdir Batch.create_and_log_video_process].

(** One video of the batch: the tool is called for it unless its
    directory cannot be made; the run does not leave the process and
    writes no completion record. *)
Lemma sample_one_run (root video : string) (s : Batch.state) :
  exists o s',
    Batch.sample_one e video_import_path root interval start ratio verbose video s
    = (o, s')
    /\ Batch.records s' = Batch.records s
    /\ (forall c, o <> Batch.Exited c)
    /\ ((Batch.tool_calls s' = Batch.tool_calls s /\ exists x, o = Batch.Raised x)
        \/ Batch.tool_calls s'
           = Batch.tool_calls s ++ [sampling_command root interval video]).
Proof.
  set (dir := Video.path_join root (Video.stem (PyStr.basename video))).
  set (rest :=
         Batch.bind (Batch.print (Batch.SamplingPathSet dir)) (fun _ =>
         Batch.bind (if Batch.video_upload e video_import_path dir verbose
                     then Batch.print (Batch.AlreadyUploaded video)
                     else Batch.ret tt) (fun _ =>
         Batch.run (Video.extract_frames (Batch.inner e) video dir
                      interval start ratio verbose)))).
  assert (H : forall s0 : Batch.state,
            exists o s',
              rest s0 = (o, s')
              /\ Batch.records s' = Batch.records s0
              /\ (forall c, o <> Batch.Exited c)
              /\ Batch.tool_calls s'
                 = Batch.tool_calls s0 ++ [sampling_command root interval video]).
  { intros s0. unfold rest. brun.
    destruct (Batch.video_upload e video_import_path dir verbose); brun;
      unfold Batch.run; cbn [Batch.out Batch.tool_calls Batch.writes Batch.stamps
                             Batch.made Batch.records];
      match goal with
      | |- context [Video.extract_frames ?w ?v ?d ?i ?t ?r ?b ?s1] =>
          destruct (extract_frames_appends w v d i r b t s1)
            as (res & l & pairs & ->)
      end;
      eexists _, _; (split; [reflexivity|]);
      cbn [Batch.records Batch.tool_calls Video.calls];
      (split; [reflexivity|]); (split; [destruct res; discriminate|]);
      reflexivity. }
  change (Batch.sample_one e video_import_path root interval start ratio verbose
            video s)
    with (Batch.bind (Batch.os_path_isdir e dir) (fun d =>
          Batch.bind (if negb d then Batch.makedirs e dir else Batch.ret tt)
            (fun _ => rest)) s).
  unfold Batch.bind at 1, Batch.os_path_isdir.
  destruct (Batch.isdir e (Batch.made s) dir); cbn [negb]; unfold Batch.bind at 1.
  - unfold Batch.ret. destruct (H s) as (o & s' & E & Hr & Hx & Hc).
    exists o, s'. auto.
  - unfold Batch.makedirs.
    destruct (Batch.makedirs_ok e (Batch.made s) dir).
    + destruct (H (Batch.mkState (Batch.out s) (Batch.tool_calls s) (Batch.writes s)
                     (Batch.stamps s) (Batch.made s ++ [dir]) (Batch.records s)))
        as (o & s' & E & Hr & Hx & Hc).
      exists o, s'. auto.
    + eexists _, _. split; [reflexivity|]. split; [reflexivity|].
      split; [discriminate|]. left. eauto.
Qed.

(** The loop over the videos. *)
Lemma sample_each_run (root : string) (video_list : list string) :
  forall s : Batch.state,
  exists o s' n,
    Batch.sample_each e video_import_path root interval start ratio verbose
      video_list s = (o, s')
    /\ Batch.records s' = Batch.records s
    /\ (forall c, o <> Batch.Exited c)
    /\ Batch.tool_calls s'
       = Batch.tool_calls s
         ++ map (sampling_command root interval) (firstn n video_list)
    /\ (n <= List.length video_list)%nat
    /\ (o = Batch.Done tt -> n = List.length video_list)
    /\ ((n < List.length video_list)%nat -> exists x, o = Batch.Raised x).
Proof.
  induction video_list as [|video rest IH]; intros s.
  - exists (Batch.Done tt), s, 0%nat. cbn. rewrite app_nil_r.
    repeat (split; [first [reflexivity | discriminate | lia]|]). lia.
  - cbn [Batch.sample_each]. unfold Batch.bind at 1.
    destruct (sample_one_run root video s) as (o1 & s1 & -> & Hr1 & Hx1 & Hc1).
    destruct o1 as [[]|x|c].
    + destruct Hc1 as [[_ [x Hx]] | Hc1]; [discriminate Hx|].
      destruct (IH s1) as (o & s' & n & -> & Hr & Hx & Hc & Hn & Hd & Hl).
      exists o, s', (S n). split; [reflexivity|].
      split; [congruence|]. split; [exact Hx|].
      split; [rewrite Hc, Hc1, <- app_assoc; reflexivity|].
      cbn [List.length]. split; [lia|]. split.
      * intros E. rewrite (Hd E). reflexivity.
      * intros H. apply Hl. lia.
    + destruct Hc1 as [[Hc1 _] | Hc1].
      * exists (Batch.Raised x), s1, 0%nat. split; [reflexivity|].
        split; [exact Hr1|]. split; [discriminate|]. cbn [firstn map List.length].
        rewrite app_nil_r. split; [exact Hc1|]. split; [lia|].
        split; [discriminate | eauto].
      * exists (Batch.Raised x), s1, 1%nat. split; [reflexivity|].
        split; [exact Hr1|]. split; [discriminate|].
        cbn [firstn map List.length].
        split; [exact Hc1|]. split; [lia|]. split; [discriminate | eauto].
    + exfalso. now apply (Hx1 c).
Qed.

(** What [sample_video] does once the two paths are accepted. *)
Lemma sample_video_run (import_path : option string) (skip : bool) (s : Batch.state) :
  bad_import_path e s import_path = None ->
  bad_video_path e s video_import_path = false ->
  Batch.sample_video e video_import_path import_path interval start ratio
    verbose skip s
  = Batch.bind
      (Batch.sample_each e video_import_path
         (sampling_root e s video_import_path import_path)
         interval start ratio verbose (videos e s video_import_path skip))
      (fun _ => Batch.create_and_log_video_process video_import_path
                  (sampling_root e s video_import_path import_path)) s.
Proof.
  unfold bad_import_path, bad_video_path, Batch.sample_video, sampling_root, videos.
  intros Hi Hv.
  unfold Batch.bind at 1.
  assert (E1 : match Batch.given import_path with
               | Some p =>
                   Batch.bind (Batch.os_path_isdir e p) (fun d =>
                     if negb d
                     then Batch.bind (Batch.print (Batch.ErrImportDirectory p))
                            (fun _ => Batch.exit 1)
                     else Batch.ret tt)
               | None => Batch.ret tt
               end s = (Batch.Done tt, s)).
  { destruct (Batch.given import_path) as [p|]; [|reflexivity]. brun.
    destruct (Batch.isdir e (Batch.made s) p); [reflexivity | discriminate Hi]. }
  rewrite E1. brun. rewrite Hv.
  destruct (Batch.given import_path) as [p|];
    destruct (Batch.isdir e (Batch.made s) video_import_path); reflexivity.
Qed.

Lemma sample_video_bad_import
    (import_path : option string) (skip : bool) (s : Batch.state) (p : string) :
  bad_import_path e s import_path = Some p ->
  Batch.sample_video e video_import_path import_path interval start ratio
    verbose skip s
  = (Batch.Exited 1, says (Batch.ErrImportDirectory p) s).
Proof.
  unfold bad_import_path, Batch.sample_video. intros Hp.
  destruct (Batch.given import_path) as [q|]; [|discriminate Hp].
  brun.
  destruct (Batch.isdir e (Batch.made s) q); [discriminate Hp|].
  injection Hp as <-. reflexivity.
Qed.

Lemma sample_video_bad_video
    (import_path : option string) (skip : bool) (s : Batch.state) :
  bad_import_path e s import_path = None ->
  bad_video_path e s video_import_path = true ->
  Batch.sample_video e video_import_path import_path interval start ratio
    verbose skip s
  = (Batch.Exited 1, says (Batch.ErrVideoPath video_import_path) s).
Proof.
  unfold bad_import_path, bad_video_path, Batch.sample_video. intros Hi Hv.
  unfold Batch.bind at 1.
  assert (E1 : match Batch.given import_path with
               | Some p =>
                   Batch.bind (Batch.os_path_isdir e p) (fun d =>
                     if negb d
                     then Batch.bind (Batch.print (Batch.ErrImportDirectory p))
                            (fun _ => Batch.exit 1)
                     else Batch.ret tt)
               | None => Batch.ret tt
               end s = (Batch.Done tt, s)).
  { destruct (Batch.given import_path) as [p|]; [|reflexivity]. brun.
    destruct (Batch.isdir e (Batch.made s) p); [reflexivity | discriminate Hi]. }
  rewrite E1. brun. rewrite Hv. reflexivity.
Qed.

(** X18.  The two paths are checked before anything is done: an import
    path that is given and is no directory, then a video path that is
    neither a directory nor a file, makes [sample_video] print one
    error line and exit with code 1, with no directory made, no video
    sampled and no completion record; these are the only exits. *)
Theorem sample_video_exits
    (import_path : option string) (skip : bool) (s : Batch.state) :
  (forall p, bad_import_path e s import_path = Some p ->
     Batch.sample_video e video_import_path import_path interval start ratio
       verbose skip s
     = (Batch.Exited 1, says (Batch.ErrImportDirectory p) s))
  /\ (bad_import_path e s import_path = None ->
      bad_video_path e s video_import_path = true ->
      Batch.sample_video e video_import_path import_path interval start ratio
        verbose skip s
      = (Batch.Exited 1, says (Batch.ErrVideoPath video_import_path) s))
  /\ (forall c,
        fst (Batch.sample_video e video_import_path import_path interval start
               ratio verbose skip s) = Batch.Exited c ->
        c = 1
        /\ (bad_import_path e s import_path <> None
            \/ bad_video_path e s video_import_path = true)).
Proof.
  split; [apply sample_video_bad_import|].
  split; [apply sample_video_bad_video|].
  intros c Hc.
  destruct (bad_import_path e s import_path) as [p|] eqn:Hi.
  { rewrite (sample_video_bad_import import_path skip s p Hi) in Hc.
    injection Hc as <-. split; [reflexivity|]. left. discriminate. }
  destruct (bad_video_path e s video_import_path) eqn:Hv.
  { rewrite (sample_video_bad_video import_path skip s Hi Hv) in Hc.
    injection Hc as <-. auto. }
  exfalso. rewrite (sample_video_run import_path skip s Hi Hv) in Hc.
  unfold Batch.bind in Hc.
  destruct (sample_each_run (sampling_root e s video_import_path import_path)
              (videos e s video_import_path skip) s)
    as (o & s' & n & E & _ & Hx & _).
  rewrite E in Hc. destruct o as [[]|x|c0]; try discriminate Hc.
  now apply (Hx c0).
Qed.

(** X19.  Once the paths are accepted, the sampling tool is called for
    the videos in the order of the list, each into its own directory
    [<root>/<base name>], with the template [<base name>_%06d.jpg]: the
    calls made are those of a prefix of the list, of the whole list when
    the run returns.  The completion record is written, once, exactly
    when the run returns; otherwise the run raises. *)
Theorem sample_video_samples_in_order
    (import_path : option string) (skip : bool) (s : Batch.state) :
  bad_import_path e s import_path = None ->
  bad_video_path e s video_import_path = false ->
  let root := sampling_root e s video_import_path import_path in
  let video_list := videos e s video_import_path skip in
  let o := fst (Batch.sample_video e video_import_path import_path interval
                  start ratio verbose skip s) in
  let s' := snd (Batch.sample_video e video_import_path import_path interval
                   start ratio verbose skip s) in
  exists n,
    Batch.tool_calls s'
    = Batch.tool_calls s ++ map (sampling_command root interval) (firstn n video_list)
    /\ (o = Batch.Done tt ->
        n = List.length video_list
        /\ Batch.records s' = Batch.records s ++ [(video_import_path, root)])
    /\ (o <> Batch.Done tt ->
        (exists x, o = Batch.Raised x) /\ Batch.records s' = Batch.records s)
    /\ ((n < List.length video_list)%nat -> o <> Batch.Done tt).
Proof.
  intros Hi Hv root video_list o s'. subst o s'.
  rewrite (sample_video_run import_path skip s Hi Hv). fold root video_list.
  unfold Batch.bind.
  destruct (sample_each_run root video_list s)
    as (o & s1 & n & -> & Hr & Hx & Hc & Hn & Hd & Hl).
  exists n. destruct o as [[]|x|c].
  - cbn [fst snd Batch.create_and_log_video_process Batch.tool_calls Batch.records].
    split; [exact Hc|]. split.
    + intros _. split; [now apply Hd | now rewrite Hr].
    + split; [intros H; now contradiction H|].
      intros H. destruct (Hl H) as [x Hx']. discriminate Hx'.
  - cbn [fst snd]. split; [exact Hc|]. split; [discriminate|].
    split; [|discriminate]. intros _. split; [eauto | exact Hr].
  - exfalso. now apply (Hx c).
Qed.

Lemma sample_each_app (root : string) (l1 l2 : list string) : forall s : Batch.state,
  Batch.sample_each e video_import_path root interval start ratio verbose
    (l1 ++ l2) s
  = Batch.bind
      (Batch.sample_each e video_import_path root interval start ratio verbose l1)
      (fun _ => Batch.sample_each e video_import_path root interval start ratio
                  verbose l2) s.
Proof.
  induction l1 as [|video l1 IH]; intros s; [reflexivity|].
  cbn [app Batch.sample_each]. unfold Batch.bind.
  destruct (Batch.sample_one e video_import_path root interval start ratio
              verbose video s) as [[[]|x|c] s1]; [|reflexivity|reflexivity].
  exact (IH s1).
Qed.

Lemma sample_each_with_videos (l : list string) (root : string)
    (video_list : list string) : forall s : Batch.state,
  Batch.sample_each (with_videos e l) video_import_path root interval start
    ratio verbose video_list s
  = Batch.sample_each e video_import_path root interval start ratio verbose
      video_list s.
Proof.
  induction video_list as [|video rest IH]; intros s; [reflexivity|].
  cbn [Batch.sample_each]. unfold Batch.bind.
  change (Batch.sample_one (with_videos e l) video_import_path root interval
            start ratio verbose video s)
    with (Batch.sample_one e video_import_path root interval start ratio
            verbose video s).
  destruct (Batch.sample_one e video_import_path root interval start ratio
              verbose video s) as [[[]|x|c] s1]; [|reflexivity|reflexivity].
  apply IH.
Qed.

(** X20.  There is no handler around a video: when a video of a
    directory raises, the run ends there, as if the list of the videos
    stopped at that video; the videos after it are not looked at, and no
    completion record is written. *)
Theorem sample_video_stops_at_first_failure
    (done rest : list string) (x : exn)
    (import_path : option string) (skip : bool) (s : Batch.state) :
  bad_import_path e s import_path = None ->
  Batch.isdir e (Batch.made s) video_import_path = true ->
  Batch.get_video_file_list e video_import_path skip = done ++ rest ->
  fst (Batch.sample_video (with_videos e done) video_import_path import_path
         interval start ratio verbose skip s) = Batch.Raised x ->
  Batch.sample_video e video_import_path import_path interval start ratio
    verbose skip s
  = Batch.sample_video (with_videos e done) video_import_path import_path
      interval start ratio verbose skip s
  /\ fst (Batch.sample_video e video_import_path import_path interval start
            ratio verbose skip s) = Batch.Raised x
  /\ Batch.records
       (snd (Batch.sample_video e video_import_path import_path interval start
               ratio verbose skip s))
     = Batch.records s.
Proof.
  intros Hi Hd Hl Hx.
  assert (Hv : bad_video_path e s video_import_path = false)
    by (unfold bad_video_path; now rewrite Hd).
  assert (E : Batch.sample_video (with_videos e done) video_import_path
                import_path interval start ratio verbose skip s
              = Batch.bind
                  (Batch.sample_each e video_import_path
                     (sampling_root e s video_import_path import_path)
                     interval start ratio verbose done)
                  (fun _ => Batch.create_and_log_video_process video_import_path
                              (sampling_root e s video_import_path import_path)) s).
  { revert Hi Hv.
    unfold bad_import_path, bad_video_path, Batch.sample_video, sampling_root.
    intros Hi Hv. unfold Batch.bind at 1.
    change (Batch.isdir (with_videos e done)) with (Batch.isdir e).
    change (Batch.inner (with_videos e done)) with (Batch.inner e).
    change (Batch.abspath (with_videos e done)) with (Batch.abspath e).
    assert (E1 : match Batch.given import_path with
                 | Some p =>
                     Batch.bind (Batch.os_path_isdir (with_videos e done) p) (fun d =>
                       if negb d
                       then Batch.bind (Batch.print (Batch.ErrImportDirectory p))
                              (fun _ => Batch.exit 1)
                       else Batch.ret tt)
                 | None => Batch.ret tt
                 end s = (Batch.Done tt, s)).
    { destruct (Batch.given import_path) as [p|]; [|reflexivity]. brun.
      change (Batch.isdir (with_videos e done)) with (Batch.isdir e).
      destruct (Batch.isdir e (Batch.made s) p); [reflexivity | discriminate Hi]. }
    rewrite E1. brun.
    change (Batch.isdir (with_videos e done)) with (Batch.isdir e).
    change (Batch.inner (with_videos e done)) with (Batch.inner e).
    change (Batch.abspath (with_videos e done)) with (Batch.abspath e).
    rewrite Hv, Hd.
    change (Batch.get_video_file_list (with_videos e done) video_import_path skip)
      with done.
    rewrite sample_each_with_videos.
    destruct (Batch.given import_path) as [p|]; reflexivity. }
  destruct (sample_each_run (sampling_root e s video_import_path import_path)
              done s) as (o & s1 & n & Es & Hr & _).
  assert (Eo : o = Batch.Raised x).
  { rewrite E in Hx. unfold Batch.bind in Hx. rewrite Es in Hx.
    destruct o as [[]|y|c]; cbn [fst] in Hx; [discriminate Hx | | discriminate Hx].
    now injection Hx as ->. }
  subst o.
  assert (F : Batch.sample_video e video_import_path import_path interval start
                ratio verbose skip s = (Batch.Raised x, s1)).
  { rewrite (sample_video_run import_path skip s Hi Hv).
    unfold videos. rewrite Hd, Hl.
    unfold Batch.bind at 1. rewrite sample_each_app.
    unfold Batch.bind. rewrite Es. reflexivity. }
  rewrite F, E. unfold Batch.bind. rewrite Es. auto.
Qed.

Lemma same_effects_refl (s : Batch.state) : same_effects s s.
Proof. repeat split. Qed.

Lemma sample_one_history (h : string -> string -> bool -> bool)
    (root video : string) (s1 s2 : Batch.state) :
  same_effects s1 s2 ->
  fst (Batch.sample_one (with_history e h) video_import_path root interval start
         ratio verbose video s1)
  = fst (Batch.sample_one e video_import_path root interval start ratio verbose
           video s2)
  /\ same_effects
       (snd (Batch.sample_one (with_history e h) video_import_path root interval
               start ratio verbose video s1))
       (snd (Batch.sample_one e video_import_path root interval start ratio
               verbose video s2)).
Proof.
  intros (H1 & H2 & H3 & H4 & H5).
  destruct s1 as [o1 c1 w1 t1 m1 r1], s2 as [o2 c2 w2 t2 m2 r2].
  cbn [Batch.tool_calls Batch.writes Batch.stamps Batch.made Batch.records] in *.
  subst c2 w2 t2 m2 r2.
  unfold Batch.sample_one, same_effects.
  set (dir := Video.path_join root (Video.stem (PyStr.basename video))).
  destruct (Batch.isdir e m1 dir) eqn:Ed;
    destruct (Batch.makedirs_ok e m1 dir) eqn:Em;
    destruct (h video_import_path dir verbose) eqn:Eh;
    destruct (Batch.video_upload e video_import_path dir verbose) eqn:Eu;
    repeat progress
      (cbv beta iota delta [Batch.bind Batch.ret Batch.print Batch.os_path_isdir
         Batch.makedirs Batch.run Batch.out Batch.tool_calls Batch.writes
         Batch.stamps Batch.made Batch.records negb];
       change (Batch.isdir (with_history e h)) with (Batch.isdir e);
       change (Batch.inner (with_history e h)) with (Batch.inner e);
       change (Batch.makedirs_ok (with_history e h)) with (Batch.makedirs_ok e);
       change (Batch.video_upload (with_history e h)) with h;
       rewrite ?Ed, ?Em, ?Eh, ?Eu);
    try (set (x := Video.extract_frames (Batch.inner e) video dir interval start
                     ratio verbose (Video.mkState [] c1 w1 t1));
         destruct x as [[[]|err] v]);
    cbn [fst snd]; repeat split.
Qed.

Lemma sample_each_history (h : string -> string -> bool -> bool)
    (root : string) (video_list : list string) : forall s1 s2 : Batch.state,
  same_effects s1 s2 ->
  fst (Batch.sample_each (with_history e h) video_import_path root interval start
         ratio verbose video_list s1)
  = fst (Batch.sample_each e video_import_path root interval start ratio verbose
           video_list s2)
  /\ same_effects
       (snd (Batch.sample_each (with_history e h) video_import_path root interval
               start ratio verbose video_list s1))
       (snd (Batch.sample_each e video_import_path root interval start ratio
               verbose video_list s2)).
Proof.
  induction video_list as [|video rest IH]; intros s1 s2 H; [now split|].
  cbn [Batch.sample_each]. unfold Batch.bind.
  destruct (sample_one_history h root video s1 s2 H) as [Ho Hs].
  destruct (Batch.sample_one (with_history e h) _ _ _ _ _ _ _ s1) as [o1 s1'].
  destruct (Batch.sample_one e _ _ _ _ _ _ _ s2) as [o2 s2'].
  cbn [fst snd] in Ho, Hs. subst o2.
  destruct o1 as [[]|x|c]; [now apply IH | now split | now split].
Qed.

(** X21.  The upload history changes nothing but the lines printed: a
    video reported as already uploaded is sampled again and its frames
    are stamped again, like any other. *)
Theorem sample_video_ignores_upload_history
    (h : string -> string -> bool -> bool)
    (import_path : option string) (skip : bool) (s : Batch.state) :
  fst (Batch.sample_video (with_history e h) video_import_path import_path
         interval start ratio verbose skip s)
  = fst (Batch.sample_video e video_import_path import_path interval start ratio
           verbose skip s)
  /\ same_effects
       (snd (Batch.sample_video (with_history e h) video_import_path import_path
               interval start ratio verbose skip s))
       (snd (Batch.sample_video e video_import_path import_path interval start
               ratio verbose skip s)).
Proof.
  destruct (bad_import_path e s import_path) as [p|] eqn:Hi.
  { rewrite (sample_video_bad_import import_path skip s p Hi).
    assert (E : Batch.sample_video (with_history e h) video_import_path
                  import_path interval start ratio verbose skip s
                = (Batch.Exited 1, says (Batch.ErrImportDirectory p) s)).
    { revert Hi. unfold bad_import_path, Batch.sample_video.
      destruct (Batch.given import_path) as [q|]; [|discriminate]. brun.
      change (Batch.isdir (with_history e h)) with (Batch.isdir e).
      destruct (Batch.isdir e (Batch.made s) q); [discriminate|].
      intros Hp. injection Hp as <-. reflexivity. }
    rewrite E. split; [reflexivity | apply same_effects_refl]. }
  destruct (bad_video_path e s video_import_path) eqn:Hv.
  { rewrite (sample_video_bad_video import_path skip s Hi Hv).
    assert (E : Batch.sample_video (with_history e h) video_import_path
                  import_path interval start ratio verbose skip s
                = (Batch.Exited 1, says (Batch.ErrVideoPath video_import_path) s)).
    { revert Hi Hv. unfold bad_import_path, bad_video_path, Batch.sample_video.
      intros Hi Hv. unfold Batch.bind at 1.
      change (Batch.isdir (with_history e h)) with (Batch.isdir e).
      change (Batch.inner (with_history e h)) with (Batch.inner e).
      assert (E1 : match Batch.given import_path with
                   | Some p =>
                       Batch.bind (Batch.os_path_isdir (with_history e h) p) (fun d =>
                         if negb d
                         then Batch.bind (Batch.print (Batch.ErrImportDirectory p))
                                (fun _ => Batch.exit 1)
                         else Batch.ret tt)
                   | None => Batch.ret tt
                   end s = (Batch.Done tt, s)).
      { destruct (Batch.given import_path) as [p|]; [|reflexivity]. brun.
        change (Batch.isdir (with_history e h)) with (Batch.isdir e).
        destruct (Batch.isdir e (Batch.made s) p); [reflexivity | discriminate Hi]. }
      rewrite E1. brun.
      change (Batch.isdir (with_history e h)) with (Batch.isdir e).
      rewrite Hv. reflexivity. }
    rewrite E. split; [reflexivity | apply same_effects_refl]. }
  rewrite (sample_video_run import_path skip s Hi Hv).
  assert (E : Batch.sample_video (with_history e h) video_import_path import_path
                interval start ratio verbose skip s
              = Batch.bind
                  (Batch.sample_each (with_history e h) video_import_path
                     (sampling_root e s video_import_path import_path)
                     interval start ratio verbose (videos e s video_import_path skip))
                  (fun _ => Batch.create_and_log_video_process video_import_path
                              (sampling_root e s video_import_path import_path)) s).
  { revert Hi Hv.
    unfold bad_import_path, bad_video_path, Batch.sample_video, sampling_root, videos.
    intros Hi Hv. unfold Batch.bind at 1.
    assert (E1 : match Batch.given import_path with
                 | Some p =>
                     Batch.bind (Batch.os_path_isdir (with_history e h) p) (fun d =>
                       if negb d
                       then Batch.bind (Batch.print (Batch.ErrImportDirectory p))
                              (fun _ => Batch.exit 1)
                       else Batch.ret tt)
                 | None => Batch.ret tt
                 end s = (Batch.Done tt, s)).
    { destruct (Batch.given import_path) as [p|]; [|reflexivity]. brun.
      change (Batch.isdir (with_history e h)) with (Batch.isdir e).
      destruct (Batch.isdir e (Batch.made s) p); [reflexivity | discriminate Hi]. }
    rewrite E1. brun.
    change (Batch.isdir (with_history e h)) with (Batch.isdir e).
    change (Batch.inner (with_history e h)) with (Batch.inner e).
    rewrite Hv.
    destruct (Batch.given import_path) as [p|];
      destruct (Batch.isdir e (Batch.made s) video_import_path); reflexivity. }
  rewrite E. unfold Batch.bind.
  destruct (sample_each_history h
              (sampling_root e s video_import_path import_path)
              (videos e s video_import_path skip) s s (same_effects_refl s))
    as [Ho Hs].
  destruct (Batch.sample_each (with_history e h) _ _ _ _ _ _ _ s) as [o1 s1].
  destruct (Batch.sample_each e _ _ _ _ _ _ _ s) as [o2 s2].
  cbn [fst snd] in Ho, Hs. subst o2.
  destruct o1 as [[]|x|c]; cbn [fst snd]; (split; [reflexivity|]);
    try exact Hs.
  destruct Hs as (H1 & H2 & H3 & H4 & H5).
  unfold same_effects, Batch.create_and_log_video_process.
  cbn [fst snd Batch.tool_calls Batch.writes Batch.stamps Batch.made Batch.records].
  rewrite H5. auto.
Qed.

End BatchRuns.

Lemma sample_video_exits_witness :
  Batch.sample_video (clips_env two_videos_world) "clips" (Some "frames")
    PyFloat.f2_0 None PyFloat.f1_0 false false Batch.init
  = (Batch.Exited 1, says (Batch.ErrImportDirectory "frames") Batch.init)
  /\ Batch.sample_video (clips_env empty_world) "missing.mp4" None
       PyFloat.f2_0 None PyFloat.f1_0 false false
       (says (Batch.SamplingPathSet "x") Batch.init)
     = (Batch.Exited 1,
        says (Batch.ErrVideoPath "missing.mp4")
          (says (Batch.SamplingPathSet "x") Batch.init)).
Proof.
  split.
  - apply (proj1 (sample_video_exits (clips_env two_videos_world) "clips"
                    PyFloat.f2_0 PyFloat.f1_0 None false (Some "frames") false
                    Batch.init)).
    reflexivity.
  - apply (proj1 (proj2 (sample_video_exits
                    (clips_env empty_world) "missing.mp4"
                    PyFloat.f2_0 PyFloat.f1_0 None false None false
                    (says (Batch.SamplingPathSet "x") Batch.init)))).
    + reflexivity.
    + reflexivity.
Defined.

Lemma sample_video_samples_in_order_witness :
  (exists x,
     fst (Batch.sample_video (clips_env two_videos_world) "clips" None
            PyFloat.f2_0 None PyFloat.f1_0 false false Batch.init)
     = Batch.Raised x)
  /\ Batch.records
       (snd (Batch.sample_video (clips_env two_videos_world) "clips" None
               PyFloat.f2_0 None PyFloat.f1_0 false false Batch.init))
     = Batch.records Batch.init.
Proof.
  destruct (sample_video_samples_in_order (clips_env two_videos_world)
              "clips" PyFloat.f2_0 PyFloat.f1_0 None false None false Batch.init
              eq_refl eq_refl) as (n & _ & _ & H & _).
  apply H. intros E. vm_compute in E. discriminate E.
Defined.

Lemma sample_video_stops_at_first_failure_witness :
  Batch.sample_video (clips_env two_videos_world) "clips" None
    PyFloat.f2_0 None PyFloat.f1_0 false false Batch.init
  = Batch.sample_video (with_videos (clips_env two_videos_world) ["clips/a.mp4"])
      "clips" None PyFloat.f2_0 None PyFloat.f1_0 false false Batch.init.
Proof.
  apply (sample_video_stops_at_first_failure (clips_env two_videos_world)
           "clips" PyFloat.f2_0 PyFloat.f1_0 None false
           ["clips/a.mp4"] ["clips/b.mp4"] ValueError None false Batch.init).
  - reflexivity.
  - reflexivity.
  - reflexivity.
  - reflexivity.
Defined.

(** ** From the sampling to the timestamps written *)

Section EndToEnd.
Import Video.
Local Open Scope list_scope.
Variable w : world.
Variable video_file import_path : string.
Variable verbose : bool.

Lemma frame_path_basename (n : Z) :
  1 <= n ->
  PyStr.basename (frame_path import_path (stem (PyStr.basename video_file)) n)
  = frame_filename (stem (PyStr.basename video_file)) n.
Proof.
  intros Hn. unfold frame_path, frame_filename.
  apply PathFacts.basename_path_join.
  rewrite !PathFacts.mem_app.
  rewrite PathFacts.stem_no_slash by apply PathFacts.basename_no_slash.
  rewrite (PathFacts.digits_no_slash (PyStr.zero_padded ZERO_PADDING n)).
  - reflexivity.
  - unfold PyStr.zero_padded.
    rewrite PyStrFacts.digits_only_app, PyStrFacts.digits_only_zeros.
    now apply PyStrFacts.numeral_digits.
Qed.

Lemma timestamps_of_frame_paths
    (start : PyTime.datetime) (i r : Z) (interval ratio : float) (k : Z)
    (ns : list Z) :
  0 <= i -> 0 <= r -> i < 2 ^ 53 -> r < 2 ^ 53 ->
  k < 2 ^ 53 -> k * i < 2 ^ 53 -> k * i * r < 2 ^ 53 ->
  PyFloat.of_int i = Ok interval -> PyFloat.of_int r = Ok ratio ->
  PyTime.in_range start = true ->
  PyTime.in_range (start + k * i * r * PyTime.us_per_second) = true ->
  Forall (fun n => 1 <= n <= k + 1) ns ->
  timestamps_from_filename (stem (PyStr.basename video_file))
    (map (frame_path import_path (stem (PyStr.basename video_file))) ns)
    start interval ratio
  = Ok (map (fun n => start + (n - 1) * i * r * PyTime.us_per_second) ns).
Proof.
  intros Hi Hr Bi Br Bk Bki Bkir Ei Er Rs Re Hns.
  induction Hns as [|n ns [Hn1 Hn2] _ IH]; [reflexivity|].
  cbn [map timestamps_from_filename].
  rewrite frame_path_basename by exact Hn1.
  rewrite timestamp_from_filename_frame by exact Hn1.
  assert (M1 : (n - 1) * i <= k * i) by nia.
  assert (M2 : (n - 1) * i * r <= k * i * r) by nia.
  assert (P2 : 0 <= (n - 1) * i * r) by nia.
  rewrite (timestamp_at_exact start i r interval ratio (n - 1))
    by (try assumption; lia).
  unfold PyTime.check_delta, PyTime.add, PyTime.in_range in *.
  change PyTime.us_per_day with 86400000000 in *.
  change PyTime.us_per_second with 1000000 in *.
  change (PyTime.max_ordinal * 86400000000) with 315537897600000000 in *.
  apply andb_true_iff in Rs as [Rs1 Rs2], Re as [Re1 Re2].
  apply Z.leb_le in Rs1, Re1. apply Z.ltb_lt in Rs2, Re2.
  assert (D : -999999999 <= (n - 1) * i * r * 1000000 / 86400000000 <= 999999999).
  { split; [apply Z.div_le_lower_bound | apply Z.div_le_upper_bound]; lia. }
  destruct D as [D1 D2]. apply Z.leb_le in D1, D2. rewrite D1, D2.
  cbn [andb rbind].
  assert (R1 : (0 <=? start + (n - 1) * i * r * 1000000) = true)
    by (apply Z.leb_le; lia).
  assert (R2 : (start + (n - 1) * i * r * 1000000 <? 315537897600000000) = true)
    by (apply Z.ltb_lt; lia).
  rewrite R1, R2. cbn [andb rbind].
  rewrite IH. reflexivity.
Qed.

Lemma insert_video_frame_timestamp_nonempty
    (vf path : string) (start : PyTime.datetime) (interval ratio : float)
    (s : state) :
  total_file_list w path <> [] ->
  insert_video_frame_timestamp w vf path start interval ratio verbose s
  = match timestamps_from_filename vf (total_file_list w path) start
            interval ratio with
    | Ok ts => stamp_frames w (combine (total_file_list w path) ts) s
    | Err e => (Err e, s)
    end.
Proof.
  intros H. unfold insert_video_frame_timestamp.
  destruct (total_file_list w path) as [|f fs]; [congruence|]. reflexivity.
Qed.

Lemma combine_map {A B C} (f : A -> B) (g : A -> C) (l : list A) :
  combine (map f l) (map g l) = map (fun a => (f a, g a)) l.
Proof. induction l as [|a l IH]; cbn; [reflexivity | now rewrite IH]. Qed.

(** X22.  From the sampling to the writer: when the sampling tool has
    left the frames [1..k+1] named by the template, and the interval and
    the ratio are positive integers, [extract_frames] returns normally
    and has the writer invoked on each frame in order with the start time
    plus [(n - 1) * interval * ratio] seconds, whichever way the start
    time was resolved. *)
Theorem extract_frames_end_to_end
    (video_start_time : option Z) (start : PyTime.datetime) (s s1 : state)
    (i r : Z) (interval ratio : float) (k : nat) :
  let video_filename := stem (PyStr.basename video_file) in
  let stamps :=
    map (fun n => (frame_path import_path video_filename n,
                   start + (n - 1) * i * r * PyTime.us_per_second))
        (indices (S k)) in
  1 <= i < 2 ^ 53 -> 1 <= r < 2 ^ 53 ->
  Z.of_nat k * i * r < 2 ^ 53 ->
  PyFloat.of_int i = Ok interval -> PyFloat.of_int r = Ok ratio ->
  resolve_start_time w video_file video_start_time
    (sampled video_file import_path interval verbose s) = (Ok start, s1) ->
  PyTime.in_range start = true ->
  PyTime.in_range (start + Z.of_nat k * i * r * PyTime.us_per_second) = true ->
  total_file_list w import_path
  = map (frame_path import_path video_filename) (indices (S k)) ->
  exists s',
    extract_frames w video_file import_path interval video_start_time ratio
      verbose s = (Ok tt, s')
    /\ writer_calls s' = writer_calls s1 ++ stamps
    /\ stamped s' = stamped s1 ++ written w stamps.
Proof.
  intros video_filename stamps Hi Hr Hkir Ei Er Hres Rs Re Hl.
  rewrite extract_frames_run, Hres. fold video_filename.
  rewrite insert_video_frame_timestamp_nonempty
    by (rewrite Hl; unfold indices; cbn [seq map]; discriminate).
  rewrite Hl. unfold video_filename.
  rewrite (timestamps_of_frame_paths start i r interval ratio (Z.of_nat k));
    try assumption; try nia.
  - rewrite combine_map. fold video_filename. fold stamps.
    rewrite stamp_frames_run. eexists. split; [reflexivity|].
    split; reflexivity.
  - unfold indices. apply Forall_forall. intros n Hn.
    apply in_map_iff in Hn as (m & <- & Hm). apply in_seq in Hm. lia.
Qed.

End EndToEnd.

Lemma extract_frames_end_to_end_witness :
  exists s',
    Video.extract_frames three_frames_world "clips/video.mp4" "out" PyFloat.f2_0
      None PyFloat.f1_0 false Video.init = (Ok tt, s')
    /\ Video.writer_calls s'
       = [("out/video_000001.jpg", at_time 1970 1 1 0 0 0);
          ("out/video_000002.jpg", at_time 1970 1 1 0 0 2);
          ("out/video_000003.jpg", at_time 1970 1 1 0 0 4)].
Proof.
  destruct (extract_frames_end_to_end three_frames_world "clips/video.mp4" "out"
              false None PyTime.unix_epoch Video.init
              (printed Video.MsgStartTimeDefaulted
                 (printed (Video.MsgNoSuchVideo "clips/video.mp4")
                    (sampled "clips/video.mp4" "out" PyFloat.f2_0 false Video.init)))
              2 1 PyFloat.f2_0 PyFloat.f1_0 2)
    as (s' & H & Hw & _).
  - lia.
  - lia.
  - lia.
  - reflexivity.
  - reflexivity.
  - reflexivity.
  - reflexivity.
  - reflexivity.
  - reflexivity.
  - exists s'. split; [exact H|]. rewrite Hw. reflexivity.
Defined.

(** ** The two formats of the creation time *)

Module FormatFacts.
Import PyTime.

Definition consumes (m : string -> option (Z * string)) : Prop :=
  forall s v r, m s = Some (v, r) -> exists p, s = p ++ r.

Lemma digit_in_consumes lo hi : consumes (digit_in lo hi).
Proof.
  intros [|c s] v r; cbn; [discriminate|].
  destruct (PyStr.digit_val c); [|discriminate].
  destruct (_ && _); [|discriminate].
  intros H. injection H as _ <-. now exists (String c "").
Qed.

Lemma two_digits_consumes a b c d : consumes (two_digits a b c d).
Proof.
  intros s v r. unfold two_digits.
  destruct (digit_in a b s) as [[x r1]|] eqn:E1; [|discriminate].
  destruct (digit_in c d r1) as [[y r2]|] eqn:E2; [|discriminate].
  intros H. injection H as _ <-.
  apply digit_in_consumes in E1 as [p1 ->], E2 as [p2 ->].
  exists (p1 ++ p2). now rewrite PyStrFacts.append_assoc.
Qed.

Lemma orelse_consumes (m1 m2 : string -> option (Z * string)) :
  consumes m1 -> consumes m2 -> consumes (fun s => orelse (m1 s) (m2 s)).
Proof.
  intros H1 H2 s v r. unfold orelse.
  destruct (m1 s) as [[v1 r1]|] eqn:E.
  - intros H. injection H as <- <-. now apply (H1 s v1 r1).
  - apply H2.
Qed.

Lemma match_year_consumes : consumes match_year.
Proof.
  intros s v r. unfold match_year.
  destruct (two_digits 0 9 0 9 s) as [[x r1]|] eqn:E1; [|discriminate].
  destruct (two_digits 0 9 0 9 r1) as [[y r2]|] eqn:E2; [|discriminate].
  intros H. injection H as _ <-.
  apply two_digits_consumes in E1 as [p1 ->], E2 as [p2 ->].
  exists (p1 ++ p2). now rewrite PyStrFacts.append_assoc.
Qed.

Lemma match_month_consumes : consumes match_month.
Proof.
  unfold match_month.
  repeat apply orelse_consumes;
    first [apply two_digits_consumes | apply digit_in_consumes].
Qed.

Lemma match_day_consumes : consumes match_day.
Proof.
  unfold match_day.
  repeat apply orelse_consumes;
    try first [apply two_digits_consumes | apply digit_in_consumes].
  intros [|c s] v r; [discriminate|].
  destruct c as [[] [] [] [] [] [] [] []]; try discriminate.
  intros H. apply digit_in_consumes in H as [p ->].
  now exists (String " " p).
Qed.

Lemma match_hour_consumes : consumes match_hour.
Proof.
  unfold match_hour.
  repeat apply orelse_consumes;
    first [apply two_digits_consumes | apply digit_in_consumes].
Qed.

Lemma match_minute_consumes : consumes match_minute.
Proof.
  unfold match_minute.
  repeat apply orelse_consumes;
    first [apply two_digits_consumes | apply digit_in_consumes].
Qed.

Lemma match_second_consumes : consumes match_second.
Proof.
  unfold match_second.
  repeat apply orelse_consumes;
    first [apply two_digits_consumes | apply digit_in_consumes].
Qed.

(** One step of the matcher: a directive consumes a prefix, a literal a
    character that is the literal up to case. *)
Lemma step_directive (t : token) (ts : list token) (s : string) (f f' : fields) :
  match t with TLit _ | TSpaces => False | _ => True end ->
  match_tokens (t :: ts) s f = Some f' ->
  exists p r f1, s = p ++ r /\ match_tokens ts r f1 = Some f'.
Proof.
  destruct t; try contradiction; intros _; cbn [match_tokens].
  - destruct (match_year s) as [[v r]|] eqn:E; [|discriminate].
    apply match_year_consumes in E as [p ->]. eauto.
  - destruct (match_month s) as [[v r]|] eqn:E; [|discriminate].
    apply match_month_consumes in E as [p ->]. eauto.
  - destruct (match_day s) as [[v r]|] eqn:E; [|discriminate].
    apply match_day_consumes in E as [p ->]. eauto.
  - destruct (match_hour s) as [[v r]|] eqn:E; [|discriminate].
    apply match_hour_consumes in E as [p ->]. eauto.
  - destruct (match_minute s) as [[v r]|] eqn:E; [|discriminate].
    apply match_minute_consumes in E as [p ->]. eauto.
  - destruct (match_second s) as [[v r]|] eqn:E; [|discriminate].
    apply match_second_consumes in E as [p ->]. eauto.
Qed.

Lemma step_literal (c : ascii) (ts : list token) (s : string) (f f' : fields) :
  match_tokens (TLit c :: ts) s f = Some f' ->
  exists c' r,
    s = String c' r
    /\ Ascii.eqb (PyFloat.lower c) (PyFloat.lower c') = true
    /\ match_tokens ts r f = Some f'.
Proof.
  cbn [match_tokens]. destruct s as [|c' r]; [discriminate|].
  destruct (Ascii.eqb (PyFloat.lower c) (PyFloat.lower c')) eqn:E; [|discriminate].
  eauto.
Qed.

Lemma lower_not_letter (c c' : ascii) :
  PyFloat.lower c = c ->
  (forall u, PyFloat.lower u = c -> u = c) ->
  Ascii.eqb (PyFloat.lower c) (PyFloat.lower c') = true -> c' = c.
Proof.
  intros Hc Hu H. apply Ascii.eqb_eq in H. rewrite Hc in H. symmetry in H.
  now apply Hu.
Qed.

Lemma lower_is (c u : ascii) :
  (c = "." \/ c = "0")%char -> PyFloat.lower u = c -> u = c.
Proof.
  intros [-> | ->]; destruct u as [[] [] [] [] [] [] [] []];
    vm_compute; intros H; try discriminate H; reflexivity.
Qed.

Lemma lower_is_z (u : ascii) :
  Ascii.eqb (PyFloat.lower "Z") (PyFloat.lower u) = true ->
  (u = "Z" \/ u = "z")%char.
Proof.
  destruct u as [[] [] [] [] [] [] [] []]; vm_compute; intros H;
    try discriminate H; auto.
Qed.

Lemma whitespace_not_t (c : ascii) :
  PyStr.mem c PyStr.whitespace = true ->
  Ascii.eqb (PyFloat.lower "T") (PyFloat.lower c) = false.
Proof.
  destruct c as [[] [] [] [] [] [] [] []]; vm_compute; intros H;
    try discriminate H; reflexivity.
Qed.

End FormatFacts.

(** X23.  No string is accepted by both formats of the creation time
    (after the day the first wants white space, the second a [T]): the
    end time does not depend on the order in which
    [get_video_end_time] tries them. *)
Theorem creation_time_formats_exclusive
    (w : Video.world) (video_file : string) (s : Video.state)
    (v0 : Video.stream) (rest : list Video.stream) :
  (forall time_string,
     is_ok (PyTime.strptime time_string Video.TIME_FORMAT) = true ->
     is_ok (PyTime.strptime time_string Video.TIME_FORMAT_2) = false)
  /\ (Video.isfile w video_file = true ->
      Video.probe_video w video_file = v0 :: rest ->
      Video.get_video_end_time w video_file s
      = (Ok match Video.strptime_attr (Video.creation_time v0) Video.TIME_FORMAT_2 with
            | Ok t => Some t
            | Err _ =>
                match Video.strptime_attr (Video.creation_time v0) Video.TIME_FORMAT with
                | Ok t => Some t
                | Err _ => None
                end
            end, s)).
Proof.
  assert (X : forall time_string,
            is_ok (PyTime.strptime time_string Video.TIME_FORMAT) = true ->
            is_ok (PyTime.strptime time_string Video.TIME_FORMAT_2) = false).
  { intros ts. unfold PyTime.strptime.
    change (PyTime.compile Video.TIME_FORMAT)
      with (Some [PyTime.TYear; PyTime.TLit "-"; PyTime.TMonth; PyTime.TLit "-";
                  PyTime.TDay; PyTime.TSpaces; PyTime.THour; PyTime.TLit ":";
                  PyTime.TMinute; PyTime.TLit ":"; PyTime.TSecond]).
    change (PyTime.compile Video.TIME_FORMAT_2)
      with (Some [PyTime.TYear; PyTime.TLit "-"; PyTime.TMonth; PyTime.TLit "-";
                  PyTime.TDay; PyTime.TLit "T"; PyTime.THour; PyTime.TLit ":";
                  PyTime.TMinute; PyTime.TLit ":"; PyTime.TSecond;
                  PyTime.TLit "."; PyTime.TLit "0"; PyTime.TLit "0";
                  PyTime.TLit "0"; PyTime.TLit "0"; PyTime.TLit "0";
                  PyTime.TLit "0"; PyTime.TLit "Z"]).
    cbv iota.
    match goal with
    | |- is_ok match ?m1 with _ => _ end = true ->
         is_ok match ?m2 with _ => _ end = false =>
        destruct m1 as [f1|] eqn:M1; [intros _ | discriminate];
        destruct m2 as [f2|] eqn:M2; [exfalso | reflexivity]
    end.
    cbn [PyTime.match_tokens] in M1, M2.
    destruct (PyTime.match_year ts) as [[y r0]|]; [|discriminate M1].
    destruct r0 as [|c0 r0]; [discriminate M1|].
    destruct (Ascii.eqb (PyFloat.lower "-") (PyFloat.lower c0)); [|discriminate M1].
    destruct (PyTime.match_month r0) as [[m r1]|]; [|discriminate M1].
    destruct r1 as [|c1 r1]; [discriminate M1|].
    destruct (Ascii.eqb (PyFloat.lower "-") (PyFloat.lower c1)); [|discriminate M1].
    destruct (PyTime.match_day r1) as [[d r2]|]; [|discriminate M1].
    destruct r2 as [|c2 r2]; [discriminate M1|].
    destruct (PyStr.mem c2 PyStr.whitespace) eqn:W; [|discriminate M1].
    rewrite (FormatFacts.whitespace_not_t c2 W) in M2. discriminate M2. }
  split; [exact X|].
  intros Hf Hp. rewrite (get_video_end_time_run w video_file s v0 rest Hf Hp).
  destruct (Video.creation_time v0) as [ts|]; [|reflexivity].
  cbn [Video.strptime_attr]. specialize (X ts).
  destruct (PyTime.strptime ts Video.TIME_FORMAT);
    destruct (PyTime.strptime ts Video.TIME_FORMAT_2); try reflexivity.
  discriminate (X eq_refl).
Qed.

Lemma creation_time_formats_exclusive_witness :
  is_ok (PyTime.strptime "2020-01-01 00:10:00" Video.TIME_FORMAT_2) = false.
Proof.
  apply (proj1 (creation_time_formats_exclusive empty_world "" Video.init
                  (Video.mkStream None None) [])).
  reflexivity.
Defined.

(** X24.  The second format takes the fraction of the second
    literally: a creation time it accepts ends in [.000000Z] (or
    [.000000z]), so that [get_video_end_time] gives a result for a
    string with a [T] only when its fraction is zero; for
    [2020-01-01T00:10:00.500000Z] it returns [None]. *)
Theorem creation_time_fraction_is_literal
    (w : Video.world) (video_file : string) (s : Video.state)
    (v0 : Video.stream) (rest : list Video.stream) (time_string : string) :
  (is_ok (PyTime.strptime time_string Video.TIME_FORMAT_2) = true ->
   exists p z,
     time_string = p ++ ".000000" ++ String z EmptyString
     /\ (z = "Z" \/ z = "z")%char)
  /\ (Video.isfile w video_file = true ->
      Video.probe_video w video_file = v0 :: rest ->
      Video.creation_time v0 = Some time_string ->
      is_ok (PyTime.strptime time_string Video.TIME_FORMAT) = false ->
      fst (Video.get_video_end_time w video_file s) <> Ok None ->
      exists p z,
        time_string = p ++ ".000000" ++ String z EmptyString
        /\ (z = "Z" \/ z = "z")%char).
Proof.
  assert (X : is_ok (PyTime.strptime time_string Video.TIME_FORMAT_2) = true ->
              exists p z,
                time_string = p ++ ".000000" ++ String z EmptyString
                /\ (z = "Z" \/ z = "z")%char).
  { unfold PyTime.strptime.
    change (PyTime.compile Video.TIME_FORMAT_2)
      with (Some [PyTime.TYear; PyTime.TLit "-"; PyTime.TMonth; PyTime.TLit "-";
                  PyTime.TDay; PyTime.TLit "T"; PyTime.THour; PyTime.TLit ":";
                  PyTime.TMinute; PyTime.TLit ":"; PyTime.TSecond;
                  PyTime.TLit "."; PyTime.TLit "0"; PyTime.TLit "0";
                  PyTime.TLit "0"; PyTime.TLit "0"; PyTime.TLit "0";
                  PyTime.TLit "0"; PyTime.TLit "Z"]).
    cbv iota.
    destruct (PyTime.match_tokens _ time_string PyTime.default_fields)
      as [f|] eqn:M; [intros _ | discriminate].
    apply FormatFacts.step_directive in M as (p1 & r1 & f1 & -> & M); [|exact I].
    apply FormatFacts.step_literal in M as (c2 & r2 & -> & _ & M).
    apply FormatFacts.step_directive in M as (p3 & r3 & f3 & -> & M); [|exact I].
    apply FormatFacts.step_literal in M as (c4 & r4 & -> & _ & M).
    apply FormatFacts.step_directive in M as (p5 & r5 & f5 & -> & M); [|exact I].
    apply FormatFacts.step_literal in M as (c6 & r6 & -> & _ & M).
    apply FormatFacts.step_directive in M as (p7 & r7 & f7 & -> & M); [|exact I].
    apply FormatFacts.step_literal in M as (c8 & r8 & -> & _ & M).
    apply FormatFacts.step_directive in M as (p9 & r9 & f9 & -> & M); [|exact I].
    apply FormatFacts.step_literal in M as (c10 & r10 & -> & _ & M).
    apply FormatFacts.step_directive in M as (p11 & r11 & f11 & -> & M); [|exact I].
    apply FormatFacts.step_literal in M as (d0 & q0 & -> & E0 & M).
    apply FormatFacts.step_literal in M as (d1 & q1 & -> & E1 & M).
    apply FormatFacts.step_literal in M as (d2 & q2 & -> & E2 & M).
    apply FormatFacts.step_literal in M as (d3 & q3 & -> & E3 & M).
    apply FormatFacts.step_literal in M as (d4 & q4 & -> & E4 & M).
    apply FormatFacts.step_literal in M as (d5 & q5 & -> & E5 & M).
    apply FormatFacts.step_literal in M as (d6 & q6 & -> & E6 & M).
    apply FormatFacts.step_literal in M as (z & q7 & -> & Ez & M).
    cbn [PyTime.match_tokens] in M. destruct q7; [|discriminate M].
    apply FormatFacts.lower_not_letter in E0;
      [| reflexivity | intros u; apply FormatFacts.lower_is; auto].
    apply FormatFacts.lower_not_letter in E1;
      [| reflexivity | intros u; apply FormatFacts.lower_is; auto].
    apply FormatFacts.lower_not_letter in E2;
      [| reflexivity | intros u; apply FormatFacts.lower_is; auto].
    apply FormatFacts.lower_not_letter in E3;
      [| reflexivity | intros u; apply FormatFacts.lower_is; auto].
    apply FormatFacts.lower_not_letter in E4;
      [| reflexivity | intros u; apply FormatFacts.lower_is; auto].
    apply FormatFacts.lower_not_letter in E5;
      [| reflexivity | intros u; apply FormatFacts.lower_is; auto].
    apply FormatFacts.lower_not_letter in E6;
      [| reflexivity | intros u; apply FormatFacts.lower_is; auto].
    subst.
    exists (p1 ++ String c2 (p3 ++ String c4 (p5 ++ String c6 (p7 ++ String c8
             (p9 ++ String c10 p11))))), z.
    split; [|now apply FormatFacts.lower_is_z].
    rewrite ?PyStrFacts.append_assoc; cbn [append];
      rewrite ?PyStrFacts.append_assoc; cbn [append];
      rewrite ?PyStrFacts.append_assoc; cbn [append];
      rewrite ?PyStrFacts.append_assoc; cbn [append];
      rewrite ?PyStrFacts.append_assoc; cbn [append];
      rewrite ?PyStrFacts.append_assoc; reflexivity. }
  split; [exact X|].
  intros Hf Hp Hc H1 Hn. apply X.
  rewrite (get_video_end_time_run w video_file s v0 rest Hf Hp), Hc in Hn.
  cbn [Video.strptime_attr fst] in Hn.
  destruct (PyTime.strptime time_string Video.TIME_FORMAT); [discriminate H1|].
  destruct (PyTime.strptime time_string Video.TIME_FORMAT_2);
    [reflexivity | now contradiction Hn].
Qed.

Lemma creation_time_fraction_is_literal_witness :
  exists p z,
    "2020-01-01T00:10:00.000000Z" = p ++ ".000000" ++ String z EmptyString
    /\ (z = "Z" \/ z = "z")%char.
Proof.
  apply (proj2 (creation_time_fraction_is_literal
                  (probe_world (Some "60.0") (Some "2020-01-01T00:10:00.000000Z"))
                  "video.mp4" Video.init
                  (Video.mkStream (Some "60.0") (Some "2020-01-01T00:10:00.000000Z"))
                  [] "2020-01-01T00:10:00.000000Z")).
  - reflexivity.
  - reflexivity.
  - reflexivity.
  - reflexivity.
  - discriminate.
Defined.

(** ** Runs that write nothing *)

Section NothingWritten.
Import Video.
Local Open Scope list_scope.
Variable w : world.
Variable video_file import_path : string.
Variable interval ratio : float.
Variable verbose : bool.

Ltac run := cbv beta iota delta [Video.bind Video.lift Video.ret
              Video.try_except Video.raise Video.FFProbe Video.print
              Video.subprocess_call].

Lemma insert_video_frame_timestamp_err
    (vf path : string) (start : PyTime.datetime) (s s' : state) (e : exn) :
  insert_video_frame_timestamp w vf path start interval ratio verbose s
  = (Err e, s') -> s' = s.
Proof.
  unfold insert_video_frame_timestamp.
  destruct (total_file_list w path) as [|f frames]; [discriminate|].
  run.
  destruct (timestamps_from_filename vf (f :: frames) start interval ratio).
  - rewrite stamp_frames_run. discriminate.
  - intros H. now injection H as _ <-.
Qed.

(** X25.  A run of [extract_frames] that raises has written nothing:
    whether the start time cannot be resolved or some frame name gives
    no timestamp, the writer has not been invoked on any frame. *)
Theorem extract_frames_raises_before_writing
    (video_start_time : option Z) (s : state) (e : exn) :
  fst (extract_frames w video_file import_path interval video_start_time
         ratio verbose s) = Err e ->
  writer_calls (snd (extract_frames w video_file import_path interval
                       video_start_time ratio verbose s))
  = writer_calls s
  /\ stamped (snd (extract_frames w video_file import_path interval
                     video_start_time ratio verbose s))
     = stamped s.
Proof.
  rewrite extract_frames_run.
  destruct (resolve_start_time_calls w video_file video_start_time
              (sampled video_file import_path interval verbose s))
    as (r & l & ->).
  destruct r as [t|e0].
  - destruct (insert_video_frame_timestamp w _ import_path t interval ratio
                verbose _) as [[[]|e1] s'] eqn:E; cbn [fst snd].
    + discriminate.
    + intros _. apply insert_video_frame_timestamp_err in E. subst s'.
      destruct verbose; split; reflexivity.
  - intros _. destruct verbose; split; reflexivity.
Qed.

(** X26.  No frame in the sampling directory: the writer is not
    invoked, and once the start time is resolved [extract_frames] prints
    that no frames were sampled and returns normally. *)
Theorem extract_frames_without_frames (video_start_time : option Z) (s : state) :
  total_file_list w import_path = [] ->
  writer_calls (snd (extract_frames w video_file import_path interval
                       video_start_time ratio verbose s))
  = writer_calls s
  /\ (forall t s1,
        resolve_start_time w video_file video_start_time
          (sampled video_file import_path interval verbose s) = (Ok t, s1) ->
        extract_frames w video_file import_path interval video_start_time
          ratio verbose s
        = (Ok tt, printed MsgNoFramesSampled s1)).
Proof.
  intros Hl. rewrite extract_frames_run.
  destruct (resolve_start_time_calls w video_file video_start_time
              (sampled video_file import_path interval verbose s))
    as (r & l & E).
  rewrite E. split.
  - destruct r as [t|e0].
    + unfold insert_video_frame_timestamp. rewrite Hl.
      destruct verbose; reflexivity.
    + destruct verbose; reflexivity.
  - intros t s1 H. injection H as -> <-.
    unfold insert_video_frame_timestamp. rewrite Hl. reflexivity.
Qed.

End NothingWritten.

Lemma extract_frames_raises_before_writing_witness :
  Video.writer_calls
    (snd (Video.extract_frames bad_name_world "video.mp4" "out" PyFloat.f2_0
            (Some 1000) PyFloat.f1_0 false Video.init))
  = []
  /\ Video.stamped
       (snd (Video.extract_frames bad_name_world "video.mp4" "out" PyFloat.f2_0
               (Some 1000) PyFloat.f1_0 false Video.init))
     = [].
Proof.
  apply (extract_frames_raises_before_writing bad_name_world "video.mp4" "out"
           PyFloat.f2_0 PyFloat.f1_0 false (Some 1000) Video.init ValueError).
  reflexivity.
Defined.

Lemma extract_frames_without_frames_witness :
  Video.extract_frames empty_world "video.mp4" "out" PyFloat.f2_0 (Some 1000)
    PyFloat.f1_0 false Video.init
  = (Ok tt,
     printed Video.MsgNoFramesSampled
       (sampled "video.mp4" "out" PyFloat.f2_0 false Video.init)).
Proof.
  apply (proj2 (extract_frames_without_frames empty_world "video.mp4" "out"
                  PyFloat.f2_0 PyFloat.f1_0 false (Some 1000) Video.init eq_refl)
           (PyTime.unix_epoch + 1000000)).
  reflexivity.
Defined.
